(** * Manuscriptify front end: session store, progress polling, project
      creation and editing, and the project store's genre constraint.

    The first part embeds the React components of the repository:

    - [JS]       the fragment of JavaScript values the components rely on
                 (truthiness, [||], [typeof], [String(x)], [Array.join],
                 [JSON.stringify], [JSON.parse], [trim]);
    - [Tracker]  ProgressTracker.js: the polling effect and [fetchProgress],
                 as a labelled transition system over an event loop;
    - [Session]  App.js: [handleLogin], [handleLogout] and the start-up effect;
    - [Creator]  ProjectCreator: [onDrop], the dropzone options, [handleSubmit];
    - [Store]    the SQL schema's CHECK constraint on [projects.genre];
    - [Editor]   ProjectEditor: [fetchProject].

    The second part proves their properties, one module of facts for each
    module of definitions ([JSFacts], [TrackerFacts], ...). *)

From stdpp Require Import gmap strings list pretty.
From Stdlib Require Import ZArith Lia Ascii.

Set Warnings "-register-all".
Local Open Scope string_scope.
Local Open Scope Z_scope.

(* ===================================================================== *)
(** ** JavaScript values *)
(* ===================================================================== *)

Module JS.

(** Values as they arrive in a parsed JSON body or sit in component state.
    Numbers are the integers (every number this program inspects is an
    integer percentage, a byte count or a status code). An object is its
    list of own properties in insertion order. *)
Inductive jsval : Type :=
| JUndefined
| JNull
| JBool (b : bool)
| JNum (n : Z)
| JStr (s : string)
| JArr (xs : list jsval)
| JObj (fields : list (string * jsval)).

(** ToBoolean. *)
Definition truthy (v : jsval) : bool :=
  match v with
  | JUndefined | JNull => false
  | JBool b => b
  | JNum n => negb (Z.eqb n 0)
  | JStr s => negb (String.eqb s "")
  | JArr _ | JObj _ => true
  end.

(** [a || b] *)
Definition js_or (a b : jsval) : jsval := if truthy a then a else b.

(** [typeof v] *)
Definition typeof (v : jsval) : string :=
  match v with
  | JUndefined => "undefined"
  | JNull => "object"
  | JBool _ => "boolean"
  | JNum _ => "number"
  | JStr _ => "string"
  | JArr _ | JObj _ => "object"
  end.

(** [v === n] against a number literal. *)
Definition strict_eq_num (v : jsval) (n : Z) : bool :=
  match v with JNum m => Z.eqb m n | _ => false end.

Fixpoint assoc (k : string) (fs : list (string * jsval)) : option jsval :=
  match fs with
  | [] => None
  | (k', v) :: fs' => if String.eqb k k' then Some v else assoc k fs'
  end.

(** [v.k] for a data property [k] (none of the names read by this program
    is a built-in of strings, numbers or arrays). [None] is the TypeError
    raised on [undefined] and [null]. *)
Definition prop (v : jsval) (k : string) : option jsval :=
  match v with
  | JUndefined | JNull => None
  | JObj fs => Some (default JUndefined (assoc k fs))
  | _ => Some JUndefined
  end.

(** [v?.k] *)
Definition opt_prop (v : jsval) (k : string) : jsval :=
  default JUndefined (prop v k).

Definition join_strings (sep : string) (parts : list string) : string :=
  String.concat sep parts.

(** [String(v)], the conversion a template literal applies. Arrays print
    as [join(",")], in which [null] and [undefined] elements print empty. A
    number prints as its digits, as JavaScript prints an integer below
    10^21 in magnitude. *)
Fixpoint to_string (v : jsval) : string :=
  match v with
  | JUndefined => "undefined"
  | JNull => "null"
  | JBool true => "true"
  | JBool false => "false"
  | JNum n => pretty n
  | JStr s => s
  | JArr xs =>
      join_strings ","
        (map (fun x => match x with
                       | JUndefined | JNull => ""
                       | _ => to_string x
                       end) xs)
  | JObj _ => "[object Object]"
  end.

Definition join_elem (x : jsval) : string :=
  match x with JUndefined | JNull => "" | _ => to_string x end.

(** [xs.join(sep)] *)
Definition array_join (sep : string) (xs : list jsval) : string :=
  join_strings sep (map join_elem xs).

(** [v.join(sep)]: only arrays have the method; a call on anything else
    that reaches this point raises a TypeError. *)
Definition method_join (v : jsval) (sep : string) : option string :=
  match v with JArr xs => Some (array_join sep xs) | _ => None end.

(** *** White space and [String.prototype.trim]

    A string is held as the UTF-8 bytes of its text. White space, for
    [trim] and for the [\s] of a regular expression, is ECMAScript's
    WhiteSpace and LineTerminator: U+0009 to U+000D, U+0020, U+00A0,
    U+1680, U+2000 to U+200A, U+2028, U+2029, U+202F, U+205F, U+3000 and
    U+FEFF. *)

(** The white space of one byte: U+0009 to U+000D and U+0020. *)
Definition is_ws (c : ascii) : bool :=
  let n := nat_of_ascii c in
  (Nat.leb 9 n && Nat.leb n 13) || Nat.eqb n 32.

(** The white space of two bytes: U+00A0, that is C2 A0. *)
Definition is_ws2 (a b : ascii) : bool :=
  Nat.eqb (nat_of_ascii a) 194 && Nat.eqb (nat_of_ascii b) 160.

(** The white space of three bytes: U+1680 (E1 9A 80), U+2000 to U+200A
    (E2 80 80 to E2 80 8A), U+2028 and U+2029 (E2 80 A8, E2 80 A9), U+202F
    (E2 80 AF), U+205F (E2 81 9F), U+3000 (E3 80 80), U+FEFF (EF BB BF). *)
Definition is_ws3 (a b c : ascii) : bool :=
  let x := nat_of_ascii a in
  let y := nat_of_ascii b in
  let z := nat_of_ascii c in
  (Nat.eqb x 225 && Nat.eqb y 154 && Nat.eqb z 128)
  || (Nat.eqb x 226
      && ((Nat.eqb y 128
           && ((Nat.leb 128 z && Nat.leb z 138) || Nat.eqb z 168
               || Nat.eqb z 169 || Nat.eqb z 175))
          || (Nat.eqb y 129 && Nat.eqb z 159)))
  || (Nat.eqb x 227 && Nat.eqb y 128 && Nat.eqb z 128)
  || (Nat.eqb x 239 && Nat.eqb y 187 && Nat.eqb z 191).

(** A white-space character stands at the head of [s]. *)
Definition ws_here (s : string) : bool :=
  match s with
  | EmptyString => false
  | String a r =>
      is_ws a
      || match r with
         | EmptyString => false
         | String b r2 =>
             is_ws2 a b
             || match r2 with
                | EmptyString => false
                | String c _ => is_ws3 a b c
                end
         end
  end.

Fixpoint trim_start (s : string) : string :=
  match s with
  | EmptyString => EmptyString
  | String a r =>
      if is_ws a then trim_start r
      else
        match r with
        | EmptyString => s
        | String b r2 =>
            if is_ws2 a b then trim_start r2
            else
              match r2 with
              | EmptyString => s
              | String c r3 => if is_ws3 a b c then trim_start r3 else s
              end
        end
  end.

(** [s] is made of white space only. *)
Fixpoint all_ws (s : string) : bool :=
  match s with
  | EmptyString => true
  | String a r =>
      if is_ws a then all_ws r
      else
        match r with
        | EmptyString => false
        | String b r2 =>
            if is_ws2 a b then all_ws r2
            else
              match r2 with
              | EmptyString => false
              | String c r3 => is_ws3 a b c && all_ws r3
              end
        end
  end.

(** Drops trailing white space: the text ends where only white space
    follows. *)
Fixpoint trim_end (s : string) : string :=
  match s with
  | EmptyString => EmptyString
  | String a r => if all_ws s then EmptyString else String a (trim_end r)
  end.

Definition trim (s : string) : string := trim_end (trim_start s).

(** [!s.trim()] *)
Definition blank (s : string) : bool := String.eqb (trim s) "".

(** *** Completion records: a handler either returns or throws, and in both
    cases the state it has written so far stays written. *)
Inductive completion (A : Type) : Type :=
| Normal (a : A)
| Throws (a : A).
Arguments Normal {A} a.
Arguments Throws {A} a.

Definition settled {A : Type} (c : completion A) : A :=
  match c with Normal a | Throws a => a end.

(** *** [JSON.stringify] *)

Definition dquote : ascii := ascii_of_nat 34.
Definition backslash : ascii := ascii_of_nat 92.

Definition hex_digit (n : nat) : ascii :=
  if Nat.ltb n 10 then ascii_of_nat (48 + n) else ascii_of_nat (87 + n).

(** The escape JSON.stringify writes for one character of a string. *)
Definition escape_char (c : ascii) : string :=
  let n := nat_of_ascii c in
  if Nat.eqb n 34 then String backslash (String dquote EmptyString)
  else if Nat.eqb n 92 then String backslash (String backslash EmptyString)
  else if Nat.eqb n 8 then String backslash "b"
  else if Nat.eqb n 9 then String backslash "t"
  else if Nat.eqb n 10 then String backslash "n"
  else if Nat.eqb n 12 then String backslash "f"
  else if Nat.eqb n 13 then String backslash "r"
  else if Nat.ltb n 32 then
    String backslash
      ("u00" +:+ String (hex_digit (n / 16)) (String (hex_digit (n mod 16)) EmptyString))
  else String c EmptyString.

Fixpoint escape (s : string) : string :=
  match s with
  | EmptyString => EmptyString
  | String c s' => escape_char c +:+ escape s'
  end.

Definition quote (s : string) : string :=
  String dquote (escape s +:+ String dquote EmptyString).

(** [JSON.stringify(v)]; [None] is the [undefined] it returns for
    [undefined]. Inside an array [undefined] prints as null, inside an
    object a property holding it is skipped. *)
Fixpoint JSON_stringify (v : jsval) : option string :=
  match v with
  | JUndefined => None
  | JNull => Some "null"
  | JBool true => Some "true"
  | JBool false => Some "false"
  | JNum n => Some (pretty n)
  | JStr s => Some (quote s)
  | JArr xs =>
      Some ("[" +:+
            join_strings ","
              (map (fun x => match JSON_stringify x with
                             | Some t => t
                             | None => "null"
                             end) xs)
            +:+ "]")
  | JObj fs =>
      Some ("{" +:+
            join_strings ","
              (flat_map (fun kv => match JSON_stringify (snd kv) with
                                   | Some t => [quote (fst kv) +:+ ":" +:+ t]
                                   | None => []
                                   end) fs)
            +:+ "}")
  end.

(** *** [JSON.parse] (integer numbers only) *)

Definition is_json_ws (c : ascii) : bool :=
  let n := nat_of_ascii c in
  Nat.eqb n 32 || Nat.eqb n 9 || Nat.eqb n 10 || Nat.eqb n 13.

Fixpoint skip_ws (s : string) : string :=
  match s with
  | String c s' => if is_json_ws c then skip_ws s' else s
  | EmptyString => EmptyString
  end.

Definition is_digit (c : ascii) : bool :=
  let n := nat_of_ascii c in Nat.leb 48 n && Nat.leb n 57.

Definition hex_value (c : ascii) : option nat :=
  let n := nat_of_ascii c in
  if Nat.leb 48 n && Nat.leb n 57 then Some (n - 48)%nat
  else if Nat.leb 97 n && Nat.leb n 102 then Some (n - 87)%nat
  else if Nat.leb 65 n && Nat.leb n 70 then Some (n - 55)%nat
  else None.

(** The UTF-8 bytes of one UTF-16 code unit. *)
Definition utf8 (u : nat) : string :=
  if Nat.ltb u 128 then String (ascii_of_nat u) EmptyString
  else if Nat.ltb u 2048 then
    String (ascii_of_nat (192 + u / 64))
      (String (ascii_of_nat (128 + u mod 64)) EmptyString)
  else
    String (ascii_of_nat (224 + u / 4096))
      (String (ascii_of_nat (128 + (u / 64) mod 64))
         (String (ascii_of_nat (128 + u mod 64)) EmptyString)).

(** The characters of a string literal after its opening quote, up to and
    including the closing quote. *)
Fixpoint parse_chars (s : string) : option (string * string) :=
  match s with
  | EmptyString => None
  | String c s' =>
      if Nat.eqb (nat_of_ascii c) 34 then Some (EmptyString, s')
      else if Nat.ltb (nat_of_ascii c) 32 then None
      else if Nat.eqb (nat_of_ascii c) 92 then
        match s' with
        | String e s2 =>
            let lit (ch : nat) :=
              match parse_chars s2 with
              | Some (t, r) => Some (String (ascii_of_nat ch) t, r)
              | None => None
              end in
            let n := nat_of_ascii e in
            if Nat.eqb n 34 then lit 34%nat
            else if Nat.eqb n 92 then lit 92%nat
            else if Nat.eqb n 47 then lit 47%nat
            else if Nat.eqb n 98 then lit 8%nat
            else if Nat.eqb n 102 then lit 12%nat
            else if Nat.eqb n 110 then lit 10%nat
            else if Nat.eqb n 114 then lit 13%nat
            else if Nat.eqb n 116 then lit 9%nat
            else if Nat.eqb n 117 then
              match s2 with
              | String h1 (String h2 (String h3 (String h4 s3))) =>
                  match hex_value h1, hex_value h2, hex_value h3, hex_value h4 with
                  | Some a, Some b, Some c', Some d =>
                      match parse_chars s3 with
                      | Some (t, r) =>
                          Some (utf8 (((a * 16 + b) * 16 + c') * 16 + d) +:+ t, r)
                      | None => None
                      end
                  | _, _, _, _ => None
                  end
              | _ => None
              end
            else None
        | EmptyString => None
        end
      else
        match parse_chars s' with
        | Some (t, r) => Some (String c t, r)
        | None => None
        end
  end.

Fixpoint span_digits (s : string) : string * string :=
  match s with
  | String c s' =>
      if is_digit c then let (d, r) := span_digits s' in (String c d, r)
      else (EmptyString, s)
  | EmptyString => (EmptyString, EmptyString)
  end.

Fixpoint digits_value (acc : Z) (s : string) : Z :=
  match s with
  | String c s' => digits_value (10 * acc + Z.of_nat (nat_of_ascii c - 48)) s'
  | EmptyString => acc
  end.

(** After an integer no fraction or exponent may follow (they are outside
    the integers this model has), and a leading zero stands alone. *)
Definition parse_nat (s : string) : option (Z * string) :=
  match span_digits s with
  | (EmptyString, _) => None
  | (String d ds, r) =>
      if Nat.eqb (nat_of_ascii d) 48 && negb (String.eqb ds EmptyString) then None
      else match r with
           | String c _ =>
               let n := nat_of_ascii c in
               if Nat.eqb n 46 || Nat.eqb n 101 || Nat.eqb n 69 then None
               else Some (digits_value 0 (String d ds), r)
           | EmptyString => Some (digits_value 0 (String d ds), r)
           end
  end.

(** What is left of [s] after the literal [p], if [s] starts with it. *)
Fixpoint strip_prefix (p s : string) : option string :=
  match p, s with
  | EmptyString, _ => Some s
  | String a p', String b s' =>
      if Ascii.eqb a b then strip_prefix p' s' else None
  | String _ _, EmptyString => None
  end.

(** A repeated key keeps its first position and takes the last value. *)
Fixpoint obj_set (k : string) (v : jsval) (fs : list (string * jsval))
  : list (string * jsval) :=
  match fs with
  | [] => [(k, v)]
  | (k', v') :: fs' =>
      if String.eqb k k' then (k', v) :: fs' else (k', v') :: obj_set k v fs'
  end.

Fixpoint parse_value (fuel : nat) (s : string) : option (jsval * string) :=
  match fuel with
  | O => None
  | S fuel =>
      match skip_ws s with
      | EmptyString => None
      | String c s' =>
          let n := nat_of_ascii c in
          if Nat.eqb n 110 then
            option_map (fun r => (JNull, r)) (strip_prefix "ull" s')
          else if Nat.eqb n 116 then
            option_map (fun r => (JBool true, r)) (strip_prefix "rue" s')
          else if Nat.eqb n 102 then
            option_map (fun r => (JBool false, r)) (strip_prefix "alse" s')
          else if Nat.eqb n 34 then
            option_map (fun tr => (JStr (fst tr), snd tr)) (parse_chars s')
          else if Nat.eqb n 45 then
            option_map (fun zr => (JNum (- fst zr), snd zr)) (parse_nat s')
          else if is_digit c then
            option_map (fun zr => (JNum (fst zr), snd zr)) (parse_nat (String c s'))
          else if Nat.eqb n 91 then
            match skip_ws s' with
            | String c2 s2 =>
                if Nat.eqb (nat_of_ascii c2) 93 then Some (JArr [], s2)
                else option_map (fun xr => (JArr (fst xr), snd xr))
                       (parse_elements fuel [] s')
            | EmptyString => None
            end
          else if Nat.eqb n 123 then
            match skip_ws s' with
            | String c2 s2 =>
                if Nat.eqb (nat_of_ascii c2) 125 then Some (JObj [], s2)
                else option_map (fun fr => (JObj (fst fr), snd fr))
                       (parse_members fuel [] s')
            | EmptyString => None
            end
          else None
      end
  end
with parse_elements (fuel : nat) (acc : list jsval) (s : string)
  : option (list jsval * string) :=
  match fuel with
  | O => None
  | S fuel =>
      match parse_value fuel s with
      | Some (v, r) =>
          match skip_ws r with
          | String c r' =>
              if Nat.eqb (nat_of_ascii c) 44 then parse_elements fuel (acc ++ [v])%list r'
              else if Nat.eqb (nat_of_ascii c) 93 then Some ((acc ++ [v])%list, r')
              else None
          | EmptyString => None
          end
      | None => None
      end
  end
with parse_members (fuel : nat) (acc : list (string * jsval)) (s : string)
  : option (list (string * jsval) * string) :=
  match fuel with
  | O => None
  | S fuel =>
      match skip_ws s with
      | String q s1 =>
          if Nat.eqb (nat_of_ascii q) 34 then
            match parse_chars s1 with
            | Some (k, r1) =>
                match skip_ws r1 with
                | String colon r2 =>
                    if Nat.eqb (nat_of_ascii colon) 58 then
                      match parse_value fuel r2 with
                      | Some (v, r3) =>
                          match skip_ws r3 with
                          | String c r4 =>
                              if Nat.eqb (nat_of_ascii c) 44
                              then parse_members fuel (obj_set k v acc) r4
                              else if Nat.eqb (nat_of_ascii c) 125
                              then Some (obj_set k v acc, r4)
                              else None
                          | EmptyString => None
                          end
                      | None => None
                      end
                    else None
                | EmptyString => None
                end
            | None => None
            end
          else None
      | EmptyString => None
      end
  end.

(** [JSON.parse(s)]; [None] is the SyntaxError. *)
Definition JSON_parse (s : string) : option jsval :=
  match parse_value (2 * String.length s + 2) s with
  | Some (v, r) =>
      match skip_ws r with
      | EmptyString => Some v
      | _ => None
      end
  | None => None
  end.

(** *** Vocabulary for the round trip through [localStorage] *)

(** The keys of an object are pairwise different. *)
Fixpoint fresh_keys (ks : list string) : bool :=
  match ks with
  | [] => true
  | k :: ks' => negb (existsb (String.eqb k) ks') && fresh_keys ks'
  end.

(** A value that JSON can carry as it is: no [undefined] anywhere inside,
    and no object with a repeated key. Every body axios hands over is one. *)
Fixpoint json_clean (v : jsval) : bool :=
  match v with
  | JUndefined => false
  | JArr xs => forallb json_clean xs
  | JObj fs => forallb (fun kv => json_clean (snd kv)) fs && fresh_keys (map fst fs)
  | _ => true
  end.

(** Structural induction that reaches inside arrays and objects. *)
Section jsval_induction.
Variable P : jsval -> Prop.
Hypothesis Hundefined : P JUndefined.
Hypothesis Hnull : P JNull.
Hypothesis Hbool : forall b, P (JBool b).
Hypothesis Hnum : forall n, P (JNum n).
Hypothesis Hstr : forall s, P (JStr s).
Hypothesis Harr : forall xs, Forall P xs -> P (JArr xs).
Hypothesis Hobj : forall fs, Forall (fun kv => P (snd kv)) fs -> P (JObj fs).

Fixpoint jsval_nested_ind (v : jsval) : P v :=
  match v with
  | JUndefined => Hundefined
  | JNull => Hnull
  | JBool b => Hbool b
  | JNum n => Hnum n
  | JStr s => Hstr s
  | JArr xs =>
      Harr xs ((fix go (l : list jsval) : Forall P l :=
                  match l with
                  | [] => List.Forall_nil P
                  | x :: l' => @List.Forall_cons _ P x l' (jsval_nested_ind x) (go l')
                  end) xs)
  | JObj fs =>
      Hobj fs ((fix go (l : list (string * jsval))
                  : Forall (fun kv => P (snd kv)) l :=
                  match l with
                  | [] => List.Forall_nil _
                  | kv :: l' =>
                      @List.Forall_cons _ (fun kv => P (snd kv)) kv l'
                        (jsval_nested_ind (snd kv)) (go l')
                  end) fs)
  end.
End jsval_induction.

(** Every character is a decimal digit. *)
Fixpoint all_digits (s : string) : bool :=
  match s with
  | EmptyString => true
  | String c s' => is_digit c && all_digits s'
  end.

(** What may follow a value inside a text produced by JSON_stringify. *)
Definition delimited (r : string) : bool :=
  match r with
  | EmptyString => true
  | String c _ =>
      let n := nat_of_ascii c in Nat.eqb n 44 || Nat.eqb n 93 || Nat.eqb n 125
  end.

(** The text of a value inside an array. *)
Definition text_of (x : jsval) : string :=
  match JSON_stringify x with Some t => t | None => "null" end.

(** The text of one property inside an object. *)
Definition member_text (kv : string * jsval) : string :=
  quote (fst kv) +:+ ":" +:+ text_of (snd kv).

(** Every text JSON_stringify writes starts with a character that is
    neither white space nor a closing bracket. *)
Definition opens_value (t : string) : Prop :=
  exists c t', t = String c t' /\ is_json_ws c = false /\
               nat_of_ascii c <> 93%nat /\ nat_of_ascii c <> 125%nat.

(** [v] is written as some text [t], and the parser reads [v] back off any
    input that starts with [t] and goes on with a delimiter. *)
Definition round_trips (v : jsval) : Prop :=
  exists t,
    JSON_stringify v = Some t /\ opens_value t /\
    forall fuel rest,
      (String.length t <= fuel)%nat -> delimited rest = true ->
      parse_value fuel (t +:+ rest) = Some (v, rest).

End JS.

(* ===================================================================== *)
(** ** ProgressTracker.js *)
(* ===================================================================== *)

Module Tracker.
Import JS.

(** What the component does to the outside world. *)
Inductive effect : Type :=
| Get (url : string)        (* axios.get(url) *)
| SetInterval (ms : Z)      (* setInterval(fetchProgress, ms) *)
| ClearInterval             (* clearInterval(interval) *)
| SetTimeout (ms : Z)       (* setTimeout(() => navigate(..), ms) *)
| Navigate (url : string).  (* navigate(url) *)

(** How a GET settles: a body, or a rejection whose [error.response?.status]
    is the given code ([None]: no response at all). *)
Inductive reply : Type :=
| Ok (data : jsval)
| Fail (status : option Z).

(** The three [useState] cells. *)
Record hooks : Type := {
  progress : jsval;
  loading : bool;
  error : option string
}.

Definition initial_hooks : hooks :=
  {| progress := JNull; loading := true; error := None |}.

Inductive phase : Type := Fresh | Mounted | Unmounted.

(** The component together with the timers and requests it has started.
    Times are milliseconds. [timeouts] holds the due times of the pending
    one-shot timers, oldest first; all of them run the same callback. *)
Record world : Type := {
  projectId : option string;
  now : Z;
  stage : phase;
  cells : hooks;
  interval : option Z;
  timeouts : list Z;
  inflight : nat;
  log : list (Z * effect)     (* most recent first *)
}.

Definition fresh (pid : option string) (t0 : Z) : world :=
  {| projectId := pid; now := t0; stage := Fresh; cells := initial_hooks;
     interval := None; timeouts := []; inflight := 0%nat; log := [] |}.

(** [if (projectId)] *)
Definition has_id (pid : option string) : bool :=
  match pid with Some s => negb (String.eqb s "") | None => false end.

Definition id_text (pid : option string) : string :=
  match pid with Some s => s | None => "undefined" end.

Definition progress_url (pid : option string) : string :=
  "/api/progress/" +:+ id_text pid.

Definition project_url (pid : option string) : string :=
  "/project/" +:+ id_text pid.

Definition emit (e : effect) (w : world) : world :=
  {| projectId := projectId w; now := now w; stage := stage w;
     cells := cells w; interval := interval w; timeouts := timeouts w;
     inflight := inflight w; log := (now w, e) :: log w |}.

Definition with_cells (h : hooks) (w : world) : world :=
  {| projectId := projectId w; now := now w; stage := stage w;
     cells := h; interval := interval w; timeouts := timeouts w;
     inflight := inflight w; log := log w |}.

Definition with_interval (i : option Z) (w : world) : world :=
  {| projectId := projectId w; now := now w; stage := stage w;
     cells := cells w; interval := i; timeouts := timeouts w;
     inflight := inflight w; log := log w |}.

Definition with_timeouts (ts : list Z) (w : world) : world :=
  {| projectId := projectId w; now := now w; stage := stage w;
     cells := cells w; interval := interval w; timeouts := ts;
     inflight := inflight w; log := log w |}.

Definition with_inflight (n : nat) (w : world) : world :=
  {| projectId := projectId w; now := now w; stage := stage w;
     cells := cells w; interval := interval w; timeouts := timeouts w;
     inflight := n; log := log w |}.

Definition with_stage (p : phase) (w : world) : world :=
  {| projectId := projectId w; now := now w; stage := p;
     cells := cells w; interval := interval w; timeouts := timeouts w;
     inflight := inflight w; log := log w |}.

Definition with_now (t : Z) (w : world) : world :=
  {| projectId := projectId w; now := t; stage := stage w;
     cells := cells w; interval := interval w; timeouts := timeouts w;
     inflight := inflight w; log := log w |}.

(** [fetchProgress()] up to its [await]: the request leaves. *)
Definition fetchProgress_call (w : world) : world :=
  with_inflight (S (inflight w)) (emit (Get (progress_url (projectId w))) w).

(** [finally { setLoading(false) }] *)
Definition finally_loaded (w : world) : world :=
  with_cells {| progress := progress (cells w); loading := false;
                error := error (cells w) |} w.

Definition set_error (m : option string) (w : world) : world :=
  with_cells {| progress := progress (cells w); loading := loading (cells w);
                error := m |} w.

Definition set_progress (d : jsval) (w : world) : world :=
  with_cells {| progress := d; loading := loading (cells w);
                error := error (cells w) |} w.

Definition not_found_message : string :=
  "Progress tracking not found for this project".
Definition fetch_failed_message : string := "Failed to fetch progress".

(** The [catch] block. *)
Definition fetchProgress_catch (status : option Z) (w : world) : world :=
  match status with
  | Some 404 => set_error (Some not_found_message) w
  | _ => set_error (Some fetch_failed_message) w
  end.

(** [setTimeout(() => navigate(`/project/${projectId}`), 2000)] *)
Definition schedule_navigation (w : world) : world :=
  with_timeouts ((timeouts w ++ [now w + 2000])%list) (emit (SetTimeout 2000) w).

(** [fetchProgress] after its [await]. Reading [overall_progress] off a
    [null] body throws inside the [try], so it lands in the [catch] with an
    error that carries no response. *)
Definition fetchProgress_resume (r : reply) (w : world) : world :=
  finally_loaded
    match r with
    | Ok data =>
        let w1 := set_error None (set_progress data w) in
        match prop data "overall_progress" with
        | Some v => if strict_eq_num v 100 then schedule_navigation w1 else w1
        | None => fetchProgress_catch None w1
        end
    | Fail status => fetchProgress_catch status w
    end.

(** The effect body of [useEffect(.., [projectId])]. *)
Definition mount (w : world) : world :=
  let w := with_stage Mounted w in
  if has_id (projectId w) then
    with_interval (Some (now w + 2000))
      (emit (SetInterval 2000) (fetchProgress_call w))
  else w.

(** The effect's cleanup; it exists only when the guard held. *)
Definition unmount (w : world) : world :=
  let w := with_stage Unmounted w in
  match interval w with
  | Some _ => with_interval None (emit ClearInterval w)
  | None => w
  end.

(** [navigate(url)]: the router leaves the /progress route, which unmounts
    the tracker if it is still on screen. *)
Definition navigate (url : string) (w : world) : world :=
  let w := emit (Navigate url) w in
  match stage w with Mounted => unmount w | _ => w end.

Inductive event : Type :=
| Mount                 (* the component is committed *)
| Unmount               (* the user leaves the route *)
| Wait (dt : Z)         (* time passes; no timer falls due on the way *)
| TickInterval          (* the interval timer fires *)
| TickTimeout           (* the oldest one-shot timer fires *)
| Settle (r : reply).   (* an outstanding GET settles *)

Definition timers (w : world) : list Z :=
  match interval w with Some d => d :: timeouts w | None => timeouts w end.

(** One turn of the event loop; [None] when the event cannot happen in [w].
    The loop follows the component for as long as its renders return; what
    React does with the tree when a render throws is not part of it, and
    the properties that need the tracker to stay on screen are stated for
    replies that render. *)
Definition step (e : event) (w : world) : option world :=
  match e with
  | Mount =>
      match stage w with Fresh => Some (mount w) | _ => None end
  | Unmount =>
      match stage w with Mounted => Some (unmount w) | _ => None end
  | Wait dt =>
      if (0 <=? dt) && forallb (fun due => now w + dt <=? due) (timers w)
      then Some (with_now (now w + dt) w) else None
  | TickInterval =>
      match interval w with
      | Some due =>
          if due <=? now w
          then Some (with_interval (Some (due + 2000)) (fetchProgress_call w))
          else None
      | None => None
      end
  | TickTimeout =>
      match timeouts w with
      | due :: rest =>
          if due <=? now w
          then Some (navigate (project_url (projectId w)) (with_timeouts rest w))
          else None
      | [] => None
      end
  | Settle r =>
      match inflight w with
      | S n => Some (fetchProgress_resume r (with_inflight n w))
      | O => None
      end
  end.

Fixpoint run (evs : list event) (w : world) : option world :=
  match evs with
  | [] => Some w
  | e :: evs' =>
      match step e w with
      | Some w' => run evs' w'
      | None => None
      end
  end.

(** *** What is on screen *)

(** The icon [getStepIcon] returns. *)
Inductive icon : Type :=
| Done            (* status === 'completed'   *)
| Spinning        (* status === 'in_progress' *)
| Waiting.        (* anything else            *)

(** One row of the list of steps; the time of day printed beside the
    name depends on the locale and is left out. *)
Record row : Type := {
  row_icon : icon;
  row_name : jsval;       (* {step.step_name} *)
  row_message : jsval     (* {step.message} *)
}.

(** What stands in the place of the steps: the value the [&&] chain
    leaves there when it stops short (React prints a number, as it does
    for 0, and nothing for the others), or the rows. *)
Inductive steps_block : Type :=
| NoSteps (child : jsval)
| StepRows (rows : list row).

Inductive view : Type :=
| LoadingView
| ErrorView (heading message : string)
| ProgressView (percent : jsval) (bar_width : string) (label : jsval)
               (steps : steps_block) (complete : bool).

(** How a render ends. *)
Inductive rendering : Type :=
| Screen (v : view)     (* the component returns and React shows it *)
| Crash                 (* evaluating the JSX, or React rendering it, throws *)
| Beyond.               (* the outcome turns on a conversion of a number to
                           text or of text to a number that the integers of
                           this model do not carry *)

(** React takes [v] as a child: strings and numbers are printed, booleans,
    [null] and [undefined] print nothing, an array is walked, and a plain
    object makes React throw. *)
Fixpoint react_child (v : jsval) : bool :=
  match v with
  | JObj _ => false
  | JArr xs => forallb react_child xs
  | _ => true
  end.

(** Every number [String(v)] would print is below 10^21 in magnitude, so
    that it prints as its digits. *)
Fixpoint plain_numbers (v : jsval) : bool :=
  match v with
  | JNum n => Z.abs n <? 10 ^ 21
  | JArr xs => forallb plain_numbers xs
  | _ => true
  end.

(** [v === s] against a string. *)
Definition is_text (v : jsval) (s : string) : bool :=
  match v with JStr t => String.eqb t s | _ => false end.

(** [getStepIcon(step)]; [None] is the TypeError of [step.status] on
    [null] and [undefined]. *)
Definition getStepIcon (step : jsval) : option icon :=
  match prop step "status" with
  | None => None
  | Some status =>
      Some (if is_text status "completed" then Done
            else if is_text status "in_progress" then Spinning
            else Waiting)
  end.

(** The callback of [progress.steps.map]; [None] when it throws or
    returns what React cannot render. *)
Definition step_row (step : jsval) : option row :=
  match getStepIcon step with
  | None => None
  | Some i =>
      if react_child (opt_prop step "step_name")
         && react_child (opt_prop step "message")
      then Some {| row_icon := i; row_name := opt_prop step "step_name";
                   row_message := opt_prop step "message" |}
      else None
  end.

Fixpoint step_rows (steps : list jsval) : option (list row) :=
  match steps with
  | [] => Some []
  | step :: steps' =>
      match step_row step, step_rows steps' with
      | Some r, Some rs => Some (r :: rs)
      | _, _ => None
      end
  end.

(** [v > 0]; [None] where the comparison first turns text into a number. *)
Definition gt_zero (v : jsval) : option bool :=
  match v with
  | JNum n => Some (0 <? n)
  | JBool b => Some b
  | JStr _ | JArr _ => None
  | JUndefined | JNull | JObj _ => Some false
  end.

(** [steps.length > 0] for a truthy [steps]. *)
Definition has_steps (steps : jsval) : option bool :=
  match steps with
  | JArr xs => Some (Nat.ltb 0 (List.length xs))
  | JStr t => Some (negb (String.eqb t ""))
  | JObj fs => gt_zero (default JUndefined (assoc "length" fs))
  | _ => Some false
  end.

(** [progress?.steps && progress.steps.length > 0 && (.. steps.map ..)] *)
Definition render_steps (progress : jsval) : option (option steps_block) :=
  let steps := opt_prop progress "steps" in
  if negb (truthy steps) then Some (Some (NoSteps steps))
  else
    match has_steps steps with
    | None => None
    | Some false => Some (Some (NoSteps (JBool false)))
    | Some true =>
        match steps with
        | JArr xs =>
            match step_rows xs with
            | Some rows => Some (Some (StepRows rows))
            | None => Some None
            end
        | _ => Some None       (* no [map] to call *)
        end
    end.

(** [progress?.overall_progress || 0] *)
Definition shown_percent (h : hooks) : jsval :=
  js_or (opt_prop (progress h) "overall_progress") (JNum 0).

(** [progress?.current_step || 'Initializing...'] *)
Definition shown_label (h : hooks) : jsval :=
  js_or (opt_prop (progress h) "current_step") (JStr "Initializing...").

(** The last [return] of the component. The percentage appears as
    [{percent}%] and the bar is styled [width: `${percent}%`]. *)
Definition render_progress (h : hooks) : rendering :=
  match render_steps (progress h) with
  | Some None => Crash
  | steps =>
      if negb (react_child (shown_percent h) && react_child (shown_label h))
      then Crash
      else
        match steps with
        | Some (Some block) =>
            if plain_numbers (shown_percent h) then
              Screen (ProgressView (shown_percent h)
                        (to_string (shown_percent h) +:+ "%")
                        (shown_label h) block
                        (strict_eq_num (opt_prop (progress h) "overall_progress") 100))
            else Beyond
        | _ => Beyond
        end
  end.

(** The component's return value. *)
Definition render (h : hooks) : rendering :=
  if loading h then Screen LoadingView
  else match error h with
       | Some m => if negb (String.eqb m "")
                   then Screen (ErrorView "Progress Not Found" m)
                   else render_progress h
       | None => render_progress h
       end.

(** *** Reading the log *)

Definition is_get (x : Z * effect) : bool :=
  match snd x with Get _ => true | _ => false end.
Definition is_navigate (x : Z * effect) : bool :=
  match snd x with Navigate _ => true | _ => false end.

(** Requests issued so far, oldest first. *)
Definition requests (w : world) : list (Z * effect) :=
  rev (List.filter is_get (log w)).
Definition navigations (w : world) : list (Z * effect) :=
  rev (List.filter is_navigate (log w)).

(** A body that reports completion: [response.data.overall_progress === 100]. *)
Definition completes (r : reply) : bool :=
  match r with
  | Ok data => match prop data "overall_progress" with
               | Some v => strict_eq_num v 100
               | None => false
               end
  | Fail _ => false
  end.


(** *** Vocabulary and sample data for the properties below *)

(** The [n] polls of a tracker mounted at [t0], most recent first. *)
Fixpoint polls (pid : option string) (t0 : Z) (n : nat) : list (Z * effect) :=
  match n with
  | O => []
  | S k => (t0 + 2000 * Z.of_nat k, Get (progress_url pid)) :: polls pid t0 k
  end.

(** The invariant of a tracker mounted at [t0]: [n] polls have left, at
    [t0], [t0 + 2000], ...; while it is on screen the interval is armed for
    the next one and the clock has not run past it; off screen the interval
    is gone and a [ClearInterval] is on record. *)
Definition on_schedule (pid : option string) (t0 : Z) (w : world) : Prop :=
  projectId w = pid /\
  exists n : nat,
    (1 <= n)%nat /\
    List.filter is_get (log w) = polls pid t0 n /\
    match stage w with
    | Mounted =>
        interval w = Some (t0 + 2000 * Z.of_nat n) /\
        t0 + 2000 * (Z.of_nat n - 1) <= now w <= t0 + 2000 * Z.of_nat n
    | Unmounted =>
        interval w = None /\ exists t, In (t, ClearInterval) (log w)
    | Fresh => False
    end.


(** The text the [catch] block sets for a failure with this status. *)
Definition failure_message (status : option Z) : string :=
  match status with
  | Some 404 => not_found_message
  | _ => fetch_failed_message
  end.

(** A progress snapshot reporting [percent]. *)
Definition snapshot (percent : Z) : jsval :=
  JObj [("overall_progress", JNum percent); ("current_step", JStr "Writing")].

(** An entry of [steps] that makes a row: not [null] or [undefined], with
    a name and a message that are no objects. *)
Definition rowable (step : jsval) : bool :=
  match prop step "status" with
  | Some _ => react_child (opt_prop step "step_name")
              && react_child (opt_prop step "message")
  | None => false
  end.

(** A body the progress screen can show: the percentage and the current
    step are no objects, the percentage holds no number of 10^21 or more,
    and the steps are missing, falsy, or an array of entries that each
    make a row. *)
Definition presentable (data : jsval) : bool :=
  react_child (opt_prop data "overall_progress")
  && plain_numbers (opt_prop data "overall_progress")
  && react_child (opt_prop data "current_step")
  && (negb (truthy (opt_prop data "steps"))
      || match opt_prop data "steps" with
         | JArr steps => forallb rowable steps
         | _ => false
         end).




(** A mount, two ticks, and the user leaving at 4500 ms. *)
Definition two_ticks_then_leave : list event :=
  [ Wait 2000; TickInterval; Wait 300; Settle (Ok (snapshot 40));
    Wait 1700; TickInterval; Wait 500; Unmount; Wait 100; Settle (Ok (snapshot 60)) ].

(** The world that run ends in. *)
Definition after_leaving : world :=
  Eval vm_compute in
    match run (Mount :: two_ticks_then_leave) (fresh (Some "p1") 0) with
    | Some w => w
    | None => fresh None 0
    end.


End Tracker.

(* ===================================================================== *)
(** ** App.js: the session store *)
(* ===================================================================== *)

Module Session.
Import JS.

(** The browser state the three handlers touch: [localStorage],
    [axios.defaults.headers.common], and the component's state cells. *)
Record browser : Type := {
  storage : gmap string string;
  headers : gmap string string;
  user : jsval;
  showAuth : bool;
  loading : bool
}.

Definition session_key : string := "manuscriptify_user".

(** A page load: an empty header table and the [useState] defaults; only
    [localStorage] is carried over. *)
Definition page_load (store : gmap string string) : browser :=
  {| storage := store; headers := ∅; user := JNull;
     showAuth := false; loading := true |}.

Definition bearer (token : jsval) : string := "Bearer " +:+ to_string token.

(** [handleLogin(userData)] *)
Definition handleLogin (userData : jsval) (b : browser) : completion browser :=
  let b1 :=
    {| storage := <[session_key :=
                      match JSON_stringify userData with
                      | Some text => text
                      | None => "undefined"
                      end]> (storage b);
       headers := headers b; user := userData;
       showAuth := showAuth b; loading := loading b |} in
  match prop userData "access_token" with
  | None => Throws b1
  | Some token =>
      Normal
        {| storage := storage b1;
           headers := if truthy token
                      then <["Authorization" := bearer token]> (headers b1)
                      else headers b1;
           user := user b1; showAuth := false; loading := loading b1 |}
  end.

(** [handleLogout()] *)
Definition handleLogout (b : browser) : browser :=
  {| storage := delete session_key (storage b);
     headers := delete "Authorization" (headers b);
     user := JNull; showAuth := showAuth b; loading := loading b |}.

(** The start-up effect, [useEffect(.., [])]. A stored text that does not
    parse, or parses to [null], makes the effect throw before
    [setLoading(false)]. *)
Definition restore (b : browser) : completion browser :=
  let loaded (b : browser) :=
    {| storage := storage b; headers := headers b; user := user b;
       showAuth := showAuth b; loading := false |} in
  match storage b !! session_key with
  | Some savedUser =>
      if String.eqb savedUser "" then Normal (loaded b)
      else
        match JSON_parse savedUser with
        | None => Throws b
        | Some userData =>
            let b1 :=
              {| storage := storage b; headers := headers b; user := userData;
                 showAuth := showAuth b; loading := loading b |} in
            match prop userData "access_token" with
            | None => Throws b1
            | Some token =>
                Normal (loaded
                  {| storage := storage b1;
                     headers := if truthy token
                                then <["Authorization" := bearer token]> (headers b1)
                                else headers b1;
                     user := user b1; showAuth := showAuth b1;
                     loading := loading b1 |})
            end
        end
  | None => Normal (loaded b)
  end.

(** Leaving and re-opening the application. *)
Definition reload (b : browser) : completion browser :=
  restore (page_load (storage b)).

(** The headers axios puts on a request that sets none of its own: the
    common defaults. *)
Definition request_headers (b : browser) : gmap string string := headers b.

(** The guard of every protected route, [user ? <View/> : <Navigate to="/"/>]. *)
Definition authenticated (b : browser) : bool := truthy (user b).

(** *** Vocabulary and sample data for the properties below *)

Definition demo_user : jsval :=
  JObj [("access_token", JStr "t"); ("email", JStr "a@b.com")].

End Session.

(* ===================================================================== *)
(** ** ProjectCreator *)
(* ===================================================================== *)

Module Creator.
Import JS.

Record form : Type := {
  title : string;
  author : string;
  description : string;
  genre : string;
  target_language : string;
  content : jsval;
  prompt : string;
  length : string;
  style : string
}.

Definition initial_form : form :=
  {| title := ""; author := ""; description := ""; genre := "ebook";
     target_language := "en"; content := JStr ""; prompt := "";
     length := "medium"; style := "engaging" |}.

Record genre_info : Type := {
  name : string;
  color : string;
  maxPages : Z;
  minPages : Z
}.

(** [genreConfig]; the cards rendered from its entries are the only way to
    set [formData.genre]. *)
Definition genreConfig : list (string * genre_info) :=
  [ ("ebook", {| name := "E-book"; color := "bg-blue-500"; maxPages := 150; minPages := 75 |});
    ("novel", {| name := "Novel"; color := "bg-purple-500"; maxPages := 250; minPages := 100 |});
    ("kids_story", {| name := "Kids Story"; color := "bg-green-500"; maxPages := 25; minPages := 1 |});
    ("coloring_book", {| name := "Coloring Book"; color := "bg-orange-500"; maxPages := 20; minPages := 20 |});
    ("audiobook", {| name := "Audiobook"; color := "bg-red-500"; maxPages := 200; minPages := 50 |}) ].

(** The genres a submission can carry. *)
Definition selectable_genres : list string := map fst genreConfig.

Record file : Type := {
  file_name : string;
  file_type : string;     (* MIME type *)
  file_size : Z           (* bytes *)
}.

Inductive body : Type :=
| Json (v : jsval)
| Multipart (f : file).

Inductive effect : Type :=
| SetLoading (b : bool)
| Post (url : string) (payload : body)
| ToastError (message : jsval)
| ToastSuccess (message : string)
| NavigateTo (url : string).

(** How a request settles: the response body, or the error axios rejects
    with. *)
Inductive reply : Type :=
| Resolved (data : jsval)
| Rejected (err : jsval).

Definition backend : Type := string -> body -> reply.

(** An error raised by the script itself; it carries no [response]. *)
Definition type_error : jsval := JObj [("name", JStr "TypeError")].

(** [error.response?.data?.detail] *)
Definition error_detail (err : jsval) : jsval :=
  opt_prop (opt_prop (opt_prop err "response") "data") "detail".

(** *** The dropzone *)

Record dropzone_options : Type := {
  accept : list (string * list string);
  maxSize : Z;
  multiple : bool
}.

(** The options handed to [useDropzone]. *)
Definition upload_options : dropzone_options :=
  {| accept :=
       [ ("text/plain", [".txt"]);
         ("application/pdf", [".pdf"]);
         ("application/vnd.openxmlformats-officedocument.wordprocessingml.document",
          [".docx"]) ];
     maxSize := 25 * 1024 * 1024;
     multiple := false |}.

Definition lower_char (c : ascii) : ascii :=
  let n := nat_of_ascii c in
  if Nat.leb 65 n && Nat.leb n 90 then ascii_of_nat (n + 32) else c.

Fixpoint lower (s : string) : string :=
  match s with
  | EmptyString => EmptyString
  | String c s' => String (lower_char c) (lower s')
  end.

Fixpoint ends_with (s suffix : string) : bool :=
  String.eqb s suffix ||
  match s with
  | EmptyString => false
  | String _ s' => ends_with s' suffix
  end.

(** Modelled from the spec: the filter react-dropzone applies before it
    calls [onDrop] is library code outside the repository. A file is of a
    listed type when its MIME type is a key of [accept] or its name ends in
    one of the listed extensions. *)
Definition type_listed (o : dropzone_options) (f : file) : bool :=
  existsb (fun entry =>
             String.eqb (lower (file_type f)) (fst entry)
             || existsb (ends_with (lower (file_name f))) (snd entry))
          (accept o).

(** Modelled from the spec: the size cap is inclusive. *)
Definition size_allowed (o : dropzone_options) (f : file) : bool :=
  file_size f <=? maxSize o.

(** Modelled from the spec: the files react-dropzone passes to [onDrop] as
    [acceptedFiles]; without [multiple], a drop of several files is
    rejected whole. *)
Definition acceptedFiles (o : dropzone_options) (dropped : list file) : list file :=
  let ok := List.filter (fun f => type_listed o f && size_allowed o f) dropped in
  if negb (multiple o) && Nat.ltb 1 (List.length ok) then [] else ok.

(** *** Component state *)

Record state : Type := {
  formData : form;
  uploadedFile : jsval;
  activeTab : string;
  loading : bool
}.

Definition initial_state : state :=
  {| formData := initial_form; uploadedFile := JNull;
     activeTab := "prompt"; loading := false |}.

(** [name.replace(/\.[^/.]+$/, '')]: the last dot and what follows it go,
    provided at least one character follows and none of them is a slash. *)
Fixpoint strip_extension (s : string) : string :=
  match s with
  | EmptyString => EmptyString
  | String c s' =>
      if Nat.eqb (nat_of_ascii c) 46
         && negb (String.eqb s' "")
         && forallb (fun d => negb (Nat.eqb (nat_of_ascii d) 46 || Nat.eqb (nat_of_ascii d) 47))
                    (String.list_ascii_of_string s')
      then EmptyString
      else String c (strip_extension s')
  end.

Definition with_upload (data : jsval) (text : jsval) (f : file) (st : state) : state :=
  {| formData :=
       {| title := if String.eqb (title (formData st)) ""
                   then strip_extension (file_name f)
                   else title (formData st);
          author := author (formData st);
          description := description (formData st);
          genre := genre (formData st);
          target_language := target_language (formData st);
          content := text;
          prompt := prompt (formData st);
          length := length (formData st);
          style := style (formData st) |};
     uploadedFile := data;
     activeTab := activeTab st;
     loading := false |}.

Definition with_loading (b : bool) (st : state) : state :=
  {| formData := formData st; uploadedFile := uploadedFile st;
     activeTab := activeTab st; loading := b |}.

(** [onDrop(acceptedFiles)]. With a [null] body the state updater, which
    React runs after the handler, is what throws. *)
Definition onDrop (files : list file) (be : backend) (st : state)
  : completion (state * list effect) :=
  match files with
  | [] => Normal (st, [])
  | f :: _ =>
      let sent := [SetLoading true; Post "/api/files/upload" (Multipart f)] in
      match be "/api/files/upload" (Multipart f) with
      | Resolved data =>
          let done := (sent ++ [ToastSuccess "File uploaded and processed successfully!";
                                SetLoading false])%list in
          match prop data "extracted_text" with
          | Some text => Normal (with_upload data text f st, done)
          | None =>
              Throws ({| formData := formData st; uploadedFile := data;
                         activeTab := activeTab st; loading := false |}, done)
          end
      | Rejected err =>
          Normal (with_loading false st,
                  (sent ++ [ToastError (js_or (error_detail err) (JStr "File upload failed"));
                            SetLoading false])%list)
      end
  end.

(** A drop on the zone: the library filters, then calls [onDrop]. *)
Definition drop (dropped : list file) (be : backend) (st : state)
  : completion (state * list effect) :=
  onDrop (acceptedFiles upload_options dropped) be st.

(** *** [handleSubmit] *)

Definition default_error : string := "Failed to create project".

(** The callback mapped over an array of errors; [None] is a TypeError. *)
Definition field_message (err : jsval) : option jsval :=
  match err with
  | JStr _ => Some err
  | _ =>
      match prop err "msg" with
      | None => None
      | Some msg =>
          if truthy msg then
            let loc := opt_prop err "loc" in
            if truthy loc then
              match method_join loc "." with
              | Some path => Some (JStr ((path +:+ ": ") +:+ to_string msg))
              | None => None
              end
            else Some (JStr ("" +:+ to_string msg))
          else
            Some (match JSON_stringify err with
                  | Some text => JStr text
                  | None => JUndefined
                  end)
      end
  end.

Fixpoint map_messages (errs : list jsval) : option (list jsval) :=
  match errs with
  | [] => Some []
  | e :: errs' =>
      match field_message e with
      | Some m =>
          match map_messages errs' with
          | Some ms => Some (m :: ms)
          | None => None
          end
      | None => None
      end
  end.

(** The message the [catch] block computes; [None] when computing it
    throws. The branches are, in order, [typeof detail === 'string'],
    [Array.isArray(detail)] and [typeof detail === 'object']. *)
Definition error_message (err : jsval) : option jsval :=
  let detail := error_detail err in
  if truthy detail then
    if String.eqb (typeof detail) "string" then Some detail
    else match detail with
         | JArr errs =>
             match map_messages errs with
             | Some ms => Some (JStr (array_join ", " ms))
             | None => None
             end
         | _ =>
             if String.eqb (typeof detail) "object" then
               Some (match JSON_stringify detail with
                     | Some text => JStr text
                     | None => JUndefined
                     end)
             else Some (JStr default_error)
         end
  else Some (JStr default_error).

(** [catch (error) {..} finally { setLoading(false) }], after the effects
    [done] of the [try]. *)
Definition submit_catch (err : jsval) (done : list effect)
  : completion (list effect) :=
  match error_message err with
  | Some m => Normal (done ++ [ToastError m; SetLoading false])%list
  | None => Throws (done ++ [SetLoading false])%list
  end.

Definition projectData (st : state) : jsval :=
  let fd := formData st in
  JObj [ ("title", JStr (title fd));
         ("author", js_or (JStr (author fd)) (JStr ""));
         ("description", js_or (JStr (description fd)) (JStr ""));
         ("genre", JStr (genre fd));
         ("target_language", JStr (target_language fd));
         ("voice_style", JStr "neutral");
         ("content",
          if String.eqb (activeTab st) "upload" then content fd
          else js_or (js_or (opt_prop (uploadedFile st) "extracted_text")
                            (JStr (prompt fd)))
                     (JStr "")) ].

(** [formData.genre === 'audiobook' && uploadedFile?.extracted_text] *)
Definition isUploadedAudiobook (st : state) : jsval :=
  if String.eqb (genre (formData st)) "audiobook"
  then opt_prop (uploadedFile st) "extracted_text"
  else JBool false.

Definition generateRequest (st : state) (projectId : jsval) : jsval :=
  let fd := formData st in
  JObj [ ("project_id", projectId);
         ("prompt", if truthy (isUploadedAudiobook st) then JStr "" else JStr (prompt fd));
         ("uploaded_content",
          if truthy (isUploadedAudiobook st)
          then opt_prop (uploadedFile st) "extracted_text" else JNull);
         ("genre", JStr (genre fd));
         ("target_language", JStr (target_language fd));
         ("length", JStr (length fd));
         ("style", JStr (style fd)) ].

(** The [try] block. *)
Definition submit_try (be : backend) (st : state) : completion (list effect) :=
  let create := Post "/api/projects" (Json (projectData st)) in
  match be "/api/projects" (Json (projectData st)) with
  | Rejected err => submit_catch err [SetLoading true; create]
  | Resolved data =>
      match prop data "project_id" with
      | None => submit_catch type_error [SetLoading true; create]
      | Some projectId =>
          if String.eqb (activeTab st) "prompt"
             || (String.eqb (activeTab st) "upload"
                 && String.eqb (genre (formData st)) "audiobook")
          then
            let generate :=
              Post "/api/ai/generate-book" (Json (generateRequest st projectId)) in
            match be "/api/ai/generate-book" (Json (generateRequest st projectId)) with
            | Rejected err => submit_catch err [SetLoading true; create; generate]
            | Resolved _ =>
                Normal
                  [ SetLoading true; create; generate;
                    ToastSuccess (if truthy (isUploadedAudiobook st)
                                  then "Project created! Audio conversion started."
                                  else "Project created! AI generation started.");
                    NavigateTo ("/progress/" +:+ to_string projectId);
                    SetLoading false ]
            end
          else
            Normal
              [ SetLoading true; create;
                ToastSuccess "Project created successfully!";
                NavigateTo ("/project/" +:+ to_string projectId);
                SetLoading false ]
      end
  end.

(** [handleSubmit(e)]: the effects it causes, in order. [content.trim()] on
    anything but a string throws outside the [try]. *)
Definition handleSubmit (be : backend) (st : state) : completion (list effect) :=
  let fd := formData st in
  if blank (title fd) then
    Normal [ToastError (JStr "Please enter a project title")]
  else if String.eqb (genre fd) "audiobook" && String.eqb (activeTab st) "prompt"
          && negb (truthy (uploadedFile st)) && blank (prompt fd) then
    Normal [ToastError
              (JStr "Please either upload a manuscript or enter a prompt for your audiobook")]
  else if negb (String.eqb (genre fd) "audiobook" && String.eqb (activeTab st) "prompt")
          && String.eqb (activeTab st) "prompt" && blank (prompt fd) then
    Normal [ToastError (JStr "Please enter a prompt for book generation")]
  else if String.eqb (activeTab st) "upload" then
    match content fd with
    | JStr text =>
        if blank text
        then Normal [ToastError (JStr "Please upload a file or enter content")]
        else submit_try be st
    | _ => Throws []
    end
  else submit_try be st.

Definition posts (es : list effect) : list (string * body) :=
  flat_map (fun e => match e with Post u b => [(u, b)] | _ => [] end) es.

Definition navigations (es : list effect) : list string :=
  flat_map (fun e => match e with NavigateTo u => [u] | _ => [] end) es.

(** *** Vocabulary and sample data for the properties below *)



(** A backend that creates project p7 and accepts the generation job. *)
Definition accepting_backend : backend :=
  fun url _ =>
    if String.eqb url "/api/projects"
    then Resolved (JObj [("project_id", JStr "p7")])
    else Resolved (JObj [("status", JStr "started")]).


(** A PDF of exactly 25 MB, a PDF one byte above it, and a small image. *)
Definition manuscript : file :=
  {| file_name := "Draft.PDF"; file_type := "application/pdf";
     file_size := 26214400 |}.

Definition oversized : file :=
  {| file_name := "scan.pdf"; file_type := "application/pdf";
     file_size := 26214401 |}.

Definition picture : file :=
  {| file_name := "cover.png"; file_type := "image/png"; file_size := 1000 |}.

(** A field-level validation error as the API reports it: a bare message,
    or an object whose [loc], when it has one, is an array of path
    segments. *)
Definition field_error (e : jsval) : bool :=
  match e with
  | JStr _ => true
  | JObj fs =>
      match assoc "loc" fs with
      | None | Some JUndefined | Some JNull | Some (JArr _) => true
      | Some _ => false
      end
  | _ => false
  end.

(** The error axios rejects with for a 422 whose body carries [detail]. *)
Definition rejection (detail : jsval) : jsval :=
  JObj [("response", JObj [("status", JNum 422);
                           ("data", JObj [("detail", detail)])])].

(** A detail in the shape of a list of validation errors. *)
Definition validation_errors : jsval :=
  JArr [ JObj [("loc", JArr [JStr "body"; JStr "title"]);
               ("msg", JStr "field required")];
         JStr "genre is not supported" ].

End Creator.

(* ===================================================================== *)
(** ** The project store: schema constraints on [public.projects] *)
(* ===================================================================== *)

Module Store.
Import JS.

(** [CHECK (genre IN ('ebook', 'novel', 'kids_story', 'coloring_book'))] *)
Definition genre_check (g : string) : bool :=
  existsb (String.eqb g) ["ebook"; "novel"; "kids_story"; "coloring_book"].

(** [CHECK (status IN ('draft', 'processing', 'completed', 'failed'))] *)
Definition status_check (s : string) : bool :=
  existsb (String.eqb s) ["draft"; "processing"; "completed"; "failed"].

(** The constrained columns of a row offered for insertion; [None] is NULL
    (for [status], NULL means the column is left to its default). *)
Record row : Type := {
  title : option string;
  genre : option string;
  status : option string
}.

(** [title TEXT NOT NULL], [genre TEXT NOT NULL CHECK ..],
    [status TEXT DEFAULT 'draft' CHECK ..]. *)
Definition row_allowed (r : row) : bool :=
  match title r, genre r with
  | Some _, Some g =>
      genre_check g && status_check (default "draft" (status r))
  | _, _ => false
  end.

(** INSERT: the row is stored, or the statement fails. *)
Definition insert (r : row) (table : list row) : option (list row) :=
  if row_allowed r then Some (table ++ [r])%list else None.

(** The row a creator submission asks the store to hold. *)
Definition row_of_submission (st : Creator.state) : row :=
  {| title := Some (Creator.title (Creator.formData st));
     genre := Some (Creator.genre (Creator.formData st));
     status := None |}.

(** *** Vocabulary and sample data for the properties below *)

Definition audiobook_submission : Creator.state :=
  {| Creator.formData :=
       {| Creator.title := "My Book"; Creator.author := "";
          Creator.description := ""; Creator.genre := "audiobook";
          Creator.target_language := "en"; Creator.content := JStr "";
          Creator.prompt := "A sea story"; Creator.length := "medium";
          Creator.style := "engaging" |};
     Creator.uploadedFile := JNull; Creator.activeTab := "prompt";
     Creator.loading := false |}.

End Store.

(* ===================================================================== *)
(** ** ProjectEditor *)
(* ===================================================================== *)

Module Editor.
Import JS.

Record state : Type := {
  project : jsval;
  loading : bool;
  content : jsval;
  title : jsval;
  author : jsval;
  description : jsval
}.

Definition initial_state : state :=
  {| project := JNull; loading := true; content := JStr "";
     title := JStr ""; author := JStr ""; description := JStr "" |}.

Inductive effect : Type :=
| Get (url : string)
| ToastError (message : string)
| NavigateTo (url : string).

Inductive reply : Type :=
| Resolved (data : jsval)
| Rejected.

Definition loaded (st : state) : state :=
  {| project := project st; loading := false; content := content st;
     title := title st; author := author st; description := description st |}.

(** [fetchProject()], given how its GET settles. A [null] body throws at
    the first property read, after [setProject]. *)
Definition fetchProject (projectId : string) (r : reply) (st : state)
  : state * list effect :=
  let get := Get ("/api/projects/detail/" +:+ projectId) in
  let failed (st : state) :=
    (loaded st, [get; ToastError "Failed to load project"; NavigateTo "/dashboard"]) in
  match r with
  | Resolved projectData =>
      let st1 :=
        {| project := projectData; loading := loading st; content := content st;
           title := title st; author := author st; description := description st |} in
      match prop projectData "generated_content" with
      | None => failed st1
      | Some generated =>
          (loaded
             {| project := projectData; loading := loading st;
                content := js_or (js_or generated (opt_prop projectData "content"))
                                 (JStr "");
                title := js_or (opt_prop projectData "title") (JStr "");
                author := js_or (opt_prop projectData "author") (JStr "");
                description := js_or (opt_prop projectData "description") (JStr "") |},
           [get])
      end
  | Rejected => failed st
  end.

(** *** Vocabulary and sample data for the properties below *)

Definition generated_project : jsval :=
  JObj [ ("title", JStr "My Book");
         ("content", JStr "my notes");
         ("generated_content", JStr "Chapter 1") ].

Definition draft_project : jsval :=
  JObj [ ("title", JStr "My Book");
         ("content", JStr "my notes");
         ("generated_content", JStr "") ].

Definition empty_project : jsval :=
  JObj [ ("title", JStr "My Book"); ("content", JNull) ].

End Editor.

(* ===================================================================== *)
(** ** ProgressTracker.js: runs of a job that has not finished *)
(* ===================================================================== *)

Module TrackerRuns.
Import JS Tracker.

(** The event is the settling of a request. *)
Definition is_settle (e : event) : bool :=
  match e with Settle _ => true | _ => false end.

(** The user stays on the page and the reply, if it is one, does not
    report 100. *)
Definition unfinished (e : event) : bool :=
  match e with
  | Unmount => false
  | Settle r => negb (completes r)
  | _ => true
  end.

(** The reply, if the event is one with a body, is a body the progress
    screen can show. *)
Definition renders (e : event) : bool :=
  match e with
  | Settle (Ok data) => presentable data
  | _ => true
  end.

(** The cells hold nothing that makes the render throw: the tracker is
    loading, shows an error, or holds a body it can show. *)
Definition showable (h : hooks) : Prop :=
  loading h = true \/
  (exists m, error h = Some m /\ m <> "") \/
  presentable (progress h) = true.

(** The tracker of project [pid] is on screen and polling, with no
    navigation scheduled or carried out. *)
Definition still_polling (pid : option string) (w : world) : Prop :=
  projectId w = pid /\ stage w = Mounted /\ timeouts w = [] /\
  List.filter is_navigate (log w) = [] /\
  exists due, interval w = Some due /\ now w <= due.

(** A job stuck at 40%: a reply, then two polls that fail. *)
Definition stuck_job : list event :=
  [ Wait 100; Settle (Ok (snapshot 40)); Wait 1900; TickInterval;
    Wait 50; Settle (Fail (Some 500)); Wait 1950; TickInterval;
    Wait 10; Settle (Fail None) ].

(** The world that run ends in. *)
Definition after_stuck_job : world :=
  Eval vm_compute in
    match run (Mount :: stuck_job) (fresh (Some "p1") 0) with
    | Some w => w
    | None => fresh None 0
    end.

End TrackerRuns.

(* ===================================================================== *)
(** ** App.js: sample sessions *)
(* ===================================================================== *)

Module Sessions.
Import JS Session.

(** A login response that carries no token. *)
Definition tokenless_user : jsval :=
  JObj [("email", JStr "b@c.com"); ("full_name", JStr "B")].

(** A browser in which someone is signed in and other data is stored. *)
Definition signed_in : browser :=
  {| storage := <[session_key := "{}"]> (<["theme" := "dark"]> ∅);
     headers := <["Authorization" := "Bearer t"]> (<["Accept" := "application/json"]> ∅);
     user := demo_user; showAuth := false; loading := false |}.

End Sessions.

(* ===================================================================== *)
(** ** App.js: the route table *)
(* ===================================================================== *)

Module Routes.
Import JS.

(** The location, as the router matches it against the six paths of
    [<Routes>]; anything else matches no route. *)
Inductive location : Type :=
| Root                          (* /                      *)
| DashboardPath                 (* /dashboard             *)
| CreatePath                    (* /create                *)
| ProjectPath (id : string)     (* /project/:projectId    *)
| ProgressPath (id : string)    (* /progress/:projectId   *)
| AdminPath                     (* /admin                 *)
| Unmatched.

(** What a route's [element] evaluates to. *)
Inductive element : Type :=
| LandingPage
| DashboardPage
| CreatorPage
| EditorPage (id : string)
| TrackerPage (id : string)
| AdminPage
| NavigateTo (l : location)     (* <Navigate to=.. /> *)
| Nothing.                      (* no route matches *)

(** [user?.subscription_tier === 'admin'] *)
Definition is_admin (user : jsval) : bool :=
  match opt_prop user "subscription_tier" with
  | JStr tier => String.eqb tier "admin"
  | _ => false
  end.

(** The [element] of the route that matches [l], for the [user] cell. *)
Definition route (user : jsval) (l : location) : element :=
  match l with
  | Root => if truthy user then NavigateTo DashboardPath else LandingPage
  | DashboardPath => if truthy user then DashboardPage else NavigateTo Root
  | CreatePath => if truthy user then CreatorPage else NavigateTo Root
  | ProjectPath id => if truthy user then EditorPage id else NavigateTo Root
  | ProgressPath id => if truthy user then TrackerPage id else NavigateTo Root
  | AdminPath => if is_admin user then AdminPage else NavigateTo Root
  | Unmatched => Nothing
  end.

(** Following [<Navigate>] elements, at most [hops] of them. *)
Fixpoint follow (hops : nat) (user : jsval) (l : location) : option element :=
  match route user l with
  | NavigateTo l' =>
      match hops with
      | S h => follow h user l'
      | O => None
      end
  | page => Some page
  end.

(** The page is one of the five that sit behind a guard. *)
Definition guarded (e : element) : bool :=
  match e with
  | DashboardPage | CreatorPage | EditorPage _ | TrackerPage _ | AdminPage => true
  | _ => false
  end.

(** [CHECK (subscription_tier IN ('free', 'pro', 'premium', 'lifetime'))]
    on [public.users]. *)
Definition tier_check (tier : string) : bool :=
  existsb (String.eqb tier) ["free"; "pro"; "premium"; "lifetime"].

(** A signed-in user whose tier is [tier]. *)
Definition user_of_tier (tier : string) : jsval :=
  JObj [("email", JStr "a@b.com"); ("subscription_tier", JStr tier)].

End Routes.

(* ===================================================================== *)
(** ** ProjectCreator.js: vocabulary for the submission as a whole *)
(* ===================================================================== *)

Module Submission.
Import JS Creator.

(** The form passes the checks [handleSubmit] makes before its [try]:
    a title; on the prompt tab a prompt, or for an audiobook an uploaded
    file instead; on the upload tab some content. *)
Definition complete (st : state) : bool :=
  let fd := formData st in
  negb (blank (title fd))
  && (if String.eqb (activeTab st) "prompt"
      then negb (blank (prompt fd))
           || (String.eqb (genre fd) "audiobook" && truthy (uploadedFile st))
      else true)
  && (if String.eqb (activeTab st) "upload"
      then match content fd with JStr text => negb (blank text) | _ => false end
      else true).

(** Notices shown, of either kind. *)
Definition toasts (es : list effect) : list effect :=
  List.filter (fun e => match e with
                        | ToastError _ | ToastSuccess _ => true
                        | _ => false
                        end) es.

(** The request went through. *)
Definition resolved (be : backend) (p : string * body) : Prop :=
  exists data, be (fst p) (snd p) = Resolved data.

(** No dot and no slash. *)
Definition plain_char (c : ascii) : bool :=
  negb (Nat.eqb (nat_of_ascii c) 46 || Nat.eqb (nat_of_ascii c) 47).

(** A manuscript pasted on the upload tab of an audiobook, no file. *)
Definition pasted_audiobook : state :=
  {| formData :=
       {| title := "My Book"; author := ""; description := "";
          genre := "audiobook"; target_language := "en";
          content := JStr "Chapter 1. Call me Ishmael."; prompt := "";
          length := "medium"; style := "engaging" |};
     uploadedFile := JNull; activeTab := "upload"; loading := false |}.

(** The body of a successful upload. *)
Definition upload_response : jsval :=
  JObj [("filename", JStr "moby.txt"); ("extracted_text", JStr "Call me Ishmael.")].

(** An audiobook on the prompt tab with an uploaded manuscript and a
    prompt that was typed before the upload. *)
Definition manuscript_audiobook : state :=
  {| formData :=
       {| title := "My Book"; author := ""; description := "";
          genre := "audiobook"; target_language := "en";
          content := JStr "Call me Ishmael."; prompt := "A sea story";
          length := "medium"; style := "engaging" |};
     uploadedFile := upload_response; activeTab := "prompt"; loading := false |}.

(** A backend that stores the upload and answers with its text. *)
Definition uploading_backend : backend :=
  fun _ _ => Resolved upload_response.

(** A file whose name has two dots. *)
Definition dotted : file :=
  {| file_name := "my.first.draft.txt"; file_type := "text/plain";
     file_size := 2000 |}.

End Submission.

(* ===================================================================== *)
(** ** ProjectEditor.js: saving, cover art and audio *)
(* ===================================================================== *)

Module EditorActions.
Import JS.

(** Array elements under their indices. *)
Fixpoint indexed (i : nat) (xs : list jsval) : list (string * jsval) :=
  match xs with
  | [] => []
  | x :: xs' => (pretty (Z.of_nat i), x) :: indexed (S i) xs'
  end.

(** The own enumerable properties object spread copies: the fields of an
    object, the elements of an array, the characters of a string, and
    nothing for [null], [undefined], booleans and numbers. *)
Definition own_props (v : jsval) : list (string * jsval) :=
  match v with
  | JObj fs => fs
  | JArr xs => indexed 0 xs
  | JStr s =>
      indexed 0 (map (fun c => JStr (String c EmptyString))
                     (String.list_ascii_of_string s))
  | _ => []
  end.

(** [{ ...prev, k1: v1, .., kn: vn }] *)
Definition spread_with (prev : jsval) (updates : list (string * jsval)) : jsval :=
  JObj (fold_left (fun fs kv => obj_set (fst kv) (snd kv) fs)
                  updates (own_props prev)).

Inductive effect : Type :=
| SetSaving (b : bool)
| SetAudioGenerating (b : bool)
| SetCoverGenerating (b : bool)
| Put (url : string) (payload : jsval)
| Post (url : string) (payload : jsval)
| ToastError (message : jsval)
| ToastSuccess (message : string)
| NavigateTo (url : string).

Definition with_project (p : jsval) (st : Editor.state) : Editor.state :=
  {| Editor.project := p; Editor.loading := Editor.loading st;
     Editor.content := Editor.content st; Editor.title := Editor.title st;
     Editor.author := Editor.author st;
     Editor.description := Editor.description st |}.

(** The four cells, as [handleSave] sends and stores them. *)
Definition saved_fields (st : Editor.state) : list (string * jsval) :=
  [ ("title", Editor.title st); ("author", Editor.author st);
    ("description", Editor.description st); ("content", Editor.content st) ].

(** [handleSave()], given how its PUT settles. *)
Definition handleSave (projectId : string) (r : Creator.reply) (st : Editor.state)
  : Editor.state * list effect :=
  let put := Put ("/api/projects/" +:+ projectId) (JObj (saved_fields st)) in
  match r with
  | Creator.Resolved _ =>
      (with_project (spread_with (Editor.project st) (saved_fields st)) st,
       [SetSaving true; put; ToastSuccess "Project saved successfully!";
        SetSaving false])
  | Creator.Rejected _ =>
      (st, [SetSaving true; put; ToastError (JStr "Failed to save project");
            SetSaving false])
  end.

Definition audio_request : jsval :=
  JObj [("voice_style", JStr "narrator"); ("speed", JNum 1)].

(** [handleGenerateAudio()]; [content.trim()] on anything but a string
    throws before the [try]. *)
Definition handleGenerateAudio (projectId : string) (r : Creator.reply)
    (st : Editor.state) : completion (list effect) :=
  match Editor.content st with
  | JStr text =>
      if blank text then
        Normal [ToastError (JStr "Please add content before generating audio")]
      else
        let post := Post ("/api/audio/generate-audiobook/" +:+ projectId)
                         audio_request in
        match r with
        | Creator.Resolved _ =>
            Normal [ SetAudioGenerating true; post;
                     ToastSuccess
                       "Audiobook generation started! Check progress in dashboard.";
                     NavigateTo ("/progress/" +:+ projectId);
                     SetAudioGenerating false ]
        | Creator.Rejected err =>
            Normal [ SetAudioGenerating true; post;
                     ToastError (js_or (Creator.error_detail err)
                                       (JStr "Failed to generate audiobook"));
                     SetAudioGenerating false ]
        end
  | _ => Throws []
  end.

Definition cover_failed (err : jsval) : jsval :=
  js_or (Creator.error_detail err) (JStr "Failed to generate cover art").

(** The body of the cover request; [None] when [project.settings] throws. *)
Definition cover_request (st : Editor.state) : option jsval :=
  match prop (Editor.project st) "settings" with
  | None => None
  | Some settings =>
      Some (JObj [ ("title", Editor.title st);
                   ("genre", js_or (opt_prop settings "genre") (JStr "ebook"));
                   ("description", js_or (Editor.description st)
                                         (JStr "A compelling book cover"));
                   ("style", JStr "professional") ])
  end.

(** [handleGenerateCover()]; [title.trim()] on anything but a string throws
    before the [try], a TypeError inside it is caught like a failed
    request. *)
Definition handleGenerateCover (r : Creator.reply) (st : Editor.state)
  : completion (Editor.state * list effect) :=
  match Editor.title st with
  | JStr text =>
      if blank text then
        Normal (st, [ToastError (JStr "Please add a title before generating cover art")])
      else
        match cover_request st with
        | None =>
            Normal (st, [ SetCoverGenerating true;
                          ToastError (cover_failed Creator.type_error);
                          SetCoverGenerating false ])
        | Some request =>
            let post := Post "/api/images/generate-cover" request in
            match r with
            | Creator.Resolved data =>
                match prop data "success" with
                | None =>
                    Normal (st, [ SetCoverGenerating true; post;
                                  ToastError (cover_failed Creator.type_error);
                                  SetCoverGenerating false ])
                | Some success =>
                    if truthy success then
                      Normal
                        (with_project
                           (spread_with (Editor.project st)
                              [("cover_image_url", opt_prop data "image_url")]) st,
                         [ SetCoverGenerating true; post;
                           ToastSuccess "Cover art generated successfully!";
                           SetCoverGenerating false ])
                    else
                      Normal
                        (st, [ SetCoverGenerating true; post;
                               ToastError
                                 (JStr ("Cover generation failed: "
                                        +:+ to_string (opt_prop data "error")));
                               SetCoverGenerating false ])
                end
            | Creator.Rejected err =>
                Normal (st, [ SetCoverGenerating true; post;
                              ToastError (cover_failed err);
                              SetCoverGenerating false ])
            end
        end
  | _ => Throws (st, [])
  end.

Definition requests (es : list effect) : list (string * jsval) :=
  flat_map (fun e => match e with
                     | Put u b | Post u b => [(u, b)]
                     | _ => []
                     end) es.

Definition navigations (es : list effect) : list string :=
  flat_map (fun e => match e with NavigateTo u => [u] | _ => [] end) es.

(** *** Vocabulary and sample data for the properties below *)

(** The editor on a generated project, with edits not yet saved. *)
Definition edited : Editor.state :=
  {| Editor.project :=
       JObj [ ("id", JStr "p7"); ("title", JStr "My Book");
              ("content", JStr "my notes");
              ("generated_content", JStr "Chapter 1");
              ("settings", JObj [("genre", JStr "novel")]) ];
     Editor.loading := false;
     Editor.content := JStr "Chapter 1, revised";
     Editor.title := JStr "My Better Book";
     Editor.author := JStr "A. Writer";
     Editor.description := JStr "" |}.

End EditorActions.

(* ===================================================================== *)
(** ** ProjectEditor.js: the kids story preview *)
(* ===================================================================== *)

Module Story.
Import JS.

(** White space, for [trim] and for the [\s] of the regular expressions,
    is that of [JS.ws_here]. *)

Definition newline : ascii := ascii_of_nat 10.

(** [text.split('\n')] *)
Fixpoint split_lines (s : string) : list string :=
  match s with
  | EmptyString => [EmptyString]
  | String c s' =>
      if Ascii.eqb c newline then EmptyString :: split_lines s'
      else match split_lines s' with
           | l :: ls => String c l :: ls
           | [] => [String c EmptyString]
           end
  end.

(** [s.startsWith(p)] *)
Definition starts_with (p s : string) : bool :=
  match strip_prefix p s with Some _ => true | None => false end.

(** [s.includes(p)] *)
Fixpoint includes (p s : string) : bool :=
  starts_with p s ||
  match s with
  | EmptyString => false
  | String _ s' => includes p s'
  end.

(** The longest prefix without white space: what [[^\s]*] takes. *)
Fixpoint non_space_run (s : string) : string :=
  match s with
  | EmptyString => EmptyString
  | String c s' => if ws_here s then EmptyString else String c (non_space_run s')
  end.

(** [scheme] followed by [[^\s]+] at the start of [s]. *)
Definition scheme_here (scheme s : string) : option string :=
  match strip_prefix scheme s with
  | Some rest =>
      match non_space_run rest with
      | EmptyString => None
      | run => Some (scheme +:+ run)
      end
  | None => None
  end.

(** [/(https?:\/\/[^\s]+)/] at the start of [s]: the optional s is tried
    first. *)
Definition url_here (s : string) : option string :=
  match scheme_here "https://" s with
  | Some u => Some u
  | None => scheme_here "http://" s
  end.

(** [s.match(/(https?:\/\/[^\s]+)/)]: the leftmost match. *)
Fixpoint find_url (s : string) : option string :=
  match url_here s with
  | Some u => Some u
  | None =>
      match s with
      | EmptyString => None
      | String _ s' => find_url s'
      end
  end.

(** [s.replace(p, r)] for a string [p]: the first occurrence. *)
Fixpoint replace_first (p r s : string) : string :=
  match strip_prefix p s with
  | Some rest => r +:+ rest
  | None =>
      match s with
      | EmptyString => EmptyString
      | String c s' => String c (replace_first p r s')
      end
  end.

Inductive part : Type :=
| Image (content caption : string)
| Title (content : string)
| PageHeader (content : string)
| Text (content : string).

Definition pollinations : string := "https://image.pollinations.ai/".

(** The body of the loop, for a trimmed line: the part it pushes, if any. *)
Definition classify (line : string) : option part :=
  if starts_with pollinations line then
    match strip_prefix pollinations line with
    | Some rest => Some (Image (pollinations +:+ non_space_run rest) "")
    | None => None
    end
  else if includes "https://picsum.photos/" line
          || (includes "http" line
              && (includes ".jpg" line || includes ".png" line
                  || includes ".gif" line)) then
    match find_url line with
    | Some url => Some (Image url (trim (replace_first url "" line)))
    | None => None
    end
  else if starts_with "# " line then
    Some (Title (replace_first "# " "" line))
  else if starts_with "## " line || starts_with "Page " line then
    Some (PageHeader (replace_first "Page " "Page " (replace_first "## " "" line)))
  else if Nat.ltb 0 (String.length line) then Some (Text line)
  else None.

(** [parseStoryContent(text)] *)
Definition parseStoryContent (text : string) : list part :=
  flat_map (fun l => match classify (trim l) with
                     | Some p => [p]
                     | None => []
                     end)
           (split_lines text).

Inductive preview : Type :=
| NoContent              (* No content to preview yet. .. *)
| Processing             (* Story content is being processed... *)
| Pages (parts : list part).

(** [KidsStoryPreview({ content })]; [None] is the TypeError of
    [content.split] on a value that is not a string. *)
Definition KidsStoryPreview (content : jsval) : option preview :=
  if negb (truthy content) then Some NoContent
  else match content with
       | JStr text =>
           match parseStoryContent text with
           | [] => Some Processing
           | parts => Some (Pages parts)
           end
       | _ => None
       end.

(** *** Vocabulary for the properties below *)

(** No white-space character anywhere in [s]. *)
Fixpoint no_space (s : string) : bool :=
  match s with
  | EmptyString => true
  | String c s' => negb (ws_here s) && no_space s'
  end.

(** Bytes below 128 that are no white space. *)
Fixpoint plain_ascii (s : string) : bool :=
  match s with
  | EmptyString => true
  | String c s' =>
      Nat.ltb (nat_of_ascii c) 128 && negb (is_ws c) && plain_ascii s'
  end.


(** A story of two pages. *)
Definition two_pages : string :=
  "# The Owl" +:+ String newline
  ("Page 1" +:+ String newline
  ("https://image.pollinations.ai/owl%20at%20night?width=512 An owl" +:+ String newline
  ("  The owl woke up.  " +:+ String newline
  ("" +:+ String newline
  ("See http://example.com/owl.png the owl"))))).

End Story.

(* ===================================================================== *)
(** ** Dashboard.js: the project list and its statistics *)
(* ===================================================================== *)

Module Dashboard.
Import JS.

Record counts : Type := {
  total : nat;
  completed : nat;
  processing : nat
}.

Record state : Type := {
  projects : jsval;
  loading : bool;
  stats : counts
}.

Definition initial_state : state :=
  {| projects := JArr []; loading := true;
     stats := {| total := 0; completed := 0; processing := 0 |} |}.

Inductive effect : Type :=
| Get (url : string)
| Delete (url : string)
| ToastError (message : string)
| ToastSuccess (message : string).

(** [v === s] against a string. *)
Definition strict_eq_str (v : jsval) (s : string) : bool :=
  match v with JStr t => String.eqb t s | _ => false end.







(** The number of cards on screen. *)
Definition shown (st : state) : nat :=
  match projects st with JArr xs => List.length xs | _ => 0%nat end.

(** *** Sample data *)



End Dashboard.

(* ===================================================================== *)
(** ** useStripe.js and Pricing.js: starting a checkout *)
(* ===================================================================== *)

Module Stripe.
Import JS.

(** The hook's three cells. *)
Record hook : Type := {
  stripeConfig : jsval;
  loading : bool;
  error : jsval
}.

Inductive effect : Type :=
| Post (url : string) (payload : jsval)
| Redirect (href : jsval)          (* window.location.href = href *)
| ToastError (message : jsval)
| OnSelectPlan (plan : jsval).

(** How an async function settles. *)
Inductive outcome : Type :=
| Returned (value : jsval)
| Thrown (err : jsval).

(** [new Error(message)] for a message that is given. *)
Definition new_Error (message : jsval) : jsval :=
  JObj [("message", JStr (to_string message))].

Definition set_error (e : jsval) (h : hook) : hook :=
  {| stripeConfig := stripeConfig h; loading := loading h; error := e |}.

Definition set_loading (b : bool) (h : hook) : hook :=
  {| stripeConfig := stripeConfig h; loading := b; error := error h |}.

(** The [catch] and [finally] blocks of [createCheckoutSession]. The
    handler throws in its turn when [err] is [null] or [undefined];
    [thrown_in_catch] is the TypeError the engine raises then. *)
Definition checkout_catch (thrown_in_catch err : jsval) (h : hook) : hook * outcome :=
  match prop err "response" with
  | None => (set_loading false h, Thrown thrown_in_catch)
  | Some response =>
      (set_loading false
         (set_error (js_or (js_or (opt_prop (opt_prop response "data") "detail")
                                  (opt_prop err "message"))
                           (JStr "Payment initialization failed")) h),
       Thrown err)
  end.

(** [createCheckoutSession(planId, successUrl, cancelUrl)], given how the
    POST settles. [type_error] is what the engine raises for a property
    read on [null], an Error object with a message of its own. *)
Definition createCheckoutSession (type_error : jsval)
    (planId successUrl cancelUrl : jsval) (r : Creator.reply) (h : hook)
  : hook * list effect * outcome :=
  let post := Post "/api/stripe/create-checkout-session"
                (JObj [ ("plan_id", planId); ("success_url", successUrl);
                        ("cancel_url", cancelUrl) ]) in
  let h1 := set_loading true h in
  match r with
  | Creator.Resolved data =>
      match prop data "success" with
      | None =>
          let (h2, out) := checkout_catch type_error type_error h1 in
          (h2, [post], out)
      | Some success =>
          if truthy success then
            (set_loading false h1,
             [post; Redirect (opt_prop data "session_url")], Returned data)
          else
            let (h2, out) :=
              checkout_catch type_error
                (new_Error (js_or (opt_prop data "error")
                                  (JStr "Failed to create checkout session"))) h1 in
            (h2, [post], out)
      end
  | Creator.Rejected err =>
      let (h2, out) := checkout_catch type_error err h1 in
      (h2, [post], out)
  end.

(** The Pricing page: its two cells and the hook it uses. *)
Record page : Type := {
  selectedPlan : jsval;
  processingPlan : jsval;
  stripe : hook
}.

(** [handleSelectPlan(plan)] as rendered from [pg]: the [error] it names
    is the one of that render. [origin] is [window.location.origin],
    [onSelectPlan] tells whether the prop was passed. *)
Definition handleSelectPlan (type_error : jsval) (origin : string)
    (onSelectPlan : bool) (user plan : jsval) (r : Creator.reply) (pg : page)
  : completion (page * list effect) :=
  if negb (truthy user) then
    Normal (pg, [ToastError (JStr "Please sign in to select a plan")])
  else
    match prop plan "id" with
    | None => Throws (pg, [])
    | Some id =>
        let '(h, es, out) :=
          createCheckoutSession type_error id
            (JStr (origin +:+ "/payment/success")) (JStr (origin +:+ "/pricing"))
            r (set_error JNull (stripe pg)) in
        Normal
          ({| selectedPlan := id; processingPlan := JNull; stripe := h |},
           match out with
           | Returned _ =>
               (es ++ if onSelectPlan then [OnSelectPlan plan] else [])%list
           | Thrown _ =>
               (es ++ [ToastError (js_or (error (stripe pg))
                                         (JStr "Failed to start checkout process"))])%list
           end)
    end.

(** *** Vocabulary and sample data for the properties below *)

(** The reply is not a report of success. *)
Definition fails (r : Creator.reply) : bool :=
  match r with
  | Creator.Resolved data => negb (truthy (opt_prop data "success"))
  | Creator.Rejected _ => true
  end.

(** What the reply carries as an error is an Error object, as is what the
    engine raises. *)
Definition errors_are_objects (type_error : jsval) (r : Creator.reply) : Prop :=
  (exists fs, type_error = JObj fs) /\
  match r with
  | Creator.Rejected err => exists fs, err = JObj fs
  | Creator.Resolved _ => True
  end.

Definition checkout_request (planId : jsval) (origin : string) : effect :=
  Post "/api/stripe/create-checkout-session"
    (JObj [ ("plan_id", planId);
            ("success_url", JStr (origin +:+ "/payment/success"));
            ("cancel_url", JStr (origin +:+ "/pricing")) ]).

Definition fresh_page : page :=
  {| selectedPlan := JNull; processingPlan := JNull;
     stripe := {| stripeConfig := JNull; loading := false; error := JNull |} |}.

Definition monthly_plan : jsval :=
  JObj [("id", JStr "monthly"); ("name", JStr "Monthly Plan"); ("price", JNum 39)].

Definition signed_in_user : jsval := JObj [("email", JStr "a@b.com")].

(** The error axios rejects with when the server answers with a detail. *)
Definition declined (detail : string) : jsval :=
  JObj [ ("message", JStr "Request failed with status code 402");
         ("response", JObj [("data", JObj [("detail", JStr detail)])]) ].

Definition engine_error : jsval :=
  JObj [("message", JStr "Cannot read properties of null")].

End Stripe.

(* ===================================================================== *)
(** ** PaymentSuccess.js: verifying a payment *)
(* ===================================================================== *)

Module Payment.
Import JS.

Record state : Type := {
  sessionData : jsval;
  loading : bool;
  error : jsval
}.

Definition initial_state : state :=
  {| sessionData := JNull; loading := true; error := JNull |}.

Inductive effect : Type :=
| Get (url : string).

(** [fetchStripeConfig()] after its [await]: the hook's mount effect,
    which every component that calls [useStripe()] runs. *)
Definition config_settle (r : Creator.reply) (h : Stripe.hook) : Stripe.hook :=
  match r with
  | Creator.Resolved data =>
      {| Stripe.stripeConfig := data; Stripe.loading := false;
         Stripe.error := JNull |}
  | Creator.Rejected _ =>
      Stripe.set_loading false
        (Stripe.set_error (JStr "Failed to load payment configuration") h)
  end.

Definition config_request : effect := Get "/api/stripe/config".

(** [fetchStripeConfig()], given how its GET settles. *)
Definition fetchStripeConfig (r : Creator.reply) (h : Stripe.hook)
  : Stripe.hook * list effect :=
  (config_settle r (Stripe.set_loading true h), [config_request]).

(** The [catch] and [finally] blocks of the hook's [retrieveSession]. *)
Definition retrieve_catch (thrown_in_catch err : jsval) (h : Stripe.hook)
  : Stripe.hook * Stripe.outcome :=
  match prop err "response" with
  | None => (Stripe.set_loading false h, Stripe.Thrown thrown_in_catch)
  | Some response =>
      (Stripe.set_loading false
         (Stripe.set_error
            (js_or (js_or (opt_prop (opt_prop response "data") "detail")
                          (opt_prop err "message"))
                   (JStr "Failed to retrieve payment session")) h),
       Stripe.Thrown err)
  end.

Definition session_request (sessionId : jsval) : effect :=
  Get ("/api/stripe/session/" +:+ to_string sessionId).

(** The hook's [retrieveSession] after its [await]. *)
Definition retrieve_settle (type_error : jsval) (r : Creator.reply)
    (h : Stripe.hook) : Stripe.hook * Stripe.outcome :=
  match r with
  | Creator.Resolved data =>
      match prop data "success" with
      | None => retrieve_catch type_error type_error h
      | Some success =>
          if truthy success then
            (Stripe.set_loading false h, Stripe.Returned (opt_prop data "session"))
          else
            retrieve_catch type_error
              (Stripe.new_Error (js_or (opt_prop data "error")
                                       (JStr "Failed to retrieve session"))) h
      end
  | Creator.Rejected err => retrieve_catch type_error err h
  end.

(** The hook's [retrieveSession(sessionId)], given how the GET settles. *)
Definition retrieveSession (type_error sessionId : jsval) (r : Creator.reply)
    (h : Stripe.hook) : Stripe.hook * list effect * Stripe.outcome :=
  let (h', out) := retrieve_settle type_error r (Stripe.set_loading true h) in
  (h', [session_request sessionId], out).


Inductive view : Type :=
| Verifying                   (* Verifying your payment... *)
| Failed (message : jsval)    (* Payment Verification Failed *)
| Paid                        (* Payment Successful! *)
| Pending.                    (* the payment is not complete *)

(** Which of the four screens the component returns; their contents are
    left out. *)
Definition render (st : state) : view :=
  if loading st then Verifying
  else if truthy (error st) then Failed (error st)
  else if Dashboard.strict_eq_str (opt_prop (sessionData st) "payment_status") "paid"
       then Paid
       else Pending.

(** *** Sample data *)



End Payment.

(* ===================================================================== *)
(** ** AuthModal.js: signing in and registering *)
(* ===================================================================== *)

Module AuthModal.
Import JS.

Record form : Type := {
  email : string;
  password : string;
  full_name : string
}.

Inductive effect : Type :=
| SetLoading (b : bool)
| Post (url : string) (payload : jsval)
| ToastError (message : jsval)
| ToastSuccess (message : string).

(** [handleSubmit(e)], given how the POST settles; [onLogin] is the
    application's [handleLogin], called inside the [try], so what it
    throws is caught here. *)
Definition handleSubmit (isLogin : bool) (fd : form) (r : Creator.reply)
    (b : Session.browser) : Session.browser * list effect :=
  let post :=
    if isLogin then
      Post "/api/auth/login"
           (JObj [("email", JStr (email fd)); ("password", JStr (password fd))])
    else
      Post "/api/auth/register"
           (JObj [("email", JStr (email fd)); ("password", JStr (password fd));
                  ("full_name", JStr (full_name fd))]) in
  let failed (err : jsval) :=
    [ SetLoading true; post;
      ToastError (js_or (Creator.error_detail err) (JStr "Authentication failed"));
      SetLoading false ] in
  match r with
  | Creator.Resolved data =>
      match Session.handleLogin data b with
      | Normal b' =>
          (b', [ SetLoading true; post;
                 ToastSuccess (if isLogin then "Successfully logged in!"
                               else "Account created successfully!");
                 SetLoading false ])
      | Throws b' => (b', failed Creator.type_error)
      end
  | Creator.Rejected err => (b, failed err)
  end.

End AuthModal.

(* ===================================================================== *)
(** ** Dashboard.js: the colours of the project cards *)
(* ===================================================================== *)

Module ProjectCard.
Import JS.

(** [getGenreColor(genre)] *)
Definition getGenreColor (genre : jsval) : string :=
  match genre with
  | JStr g =>
      if String.eqb g "ebook" then "bg-blue-500"
      else if String.eqb g "novel" then "bg-purple-500"
      else if String.eqb g "kids_story" then "bg-green-500"
      else if String.eqb g "coloring_book" then "bg-orange-500"
      else "bg-gray-500"
  | _ => "bg-gray-500"
  end.

End ProjectCard.

(* ===================================================================== *)
(** * Properties *)
(* ===================================================================== *)

(** ** JSON: what [JSON.stringify] writes, [JSON.parse] reads back *)

Module JSFacts.
Import JS.

Lemma append_cons (x : ascii) (a b : string) :
  String x a +:+ b = String x (a +:+ b).
Proof. reflexivity. Qed.

Lemma append_nil_l (b : string) : "" +:+ b = b.
Proof. reflexivity. Qed.

Lemma append_assoc (a b c : string) : (a +:+ b) +:+ c = a +:+ (b +:+ c).
Proof.
  induction a as [|x a IH]; [reflexivity|].
  rewrite !append_cons. now rewrite IH.
Qed.

Lemma append_nil_r (a : string) : a +:+ "" = a.
Proof.
  induction a as [|x a IH]; [reflexivity|]. rewrite append_cons. now rewrite IH.
Qed.

Lemma length_append (a b : string) :
  String.length (a +:+ b) = (String.length a + String.length b)%nat.
Proof.
  induction a as [|x a IH]; [reflexivity|].
  rewrite append_cons. simpl. now rewrite IH.
Qed.

Lemma escape_char_plain (c : ascii) :
  (32 <= nat_of_ascii c)%nat -> nat_of_ascii c <> 34%nat -> nat_of_ascii c <> 92%nat ->
  escape_char c = String c "".
Proof.
  intros H1 H2 H3. unfold escape_char.
  destruct (Nat.eqb_spec (nat_of_ascii c) 34); [contradiction|].
  destruct (Nat.eqb_spec (nat_of_ascii c) 92); [contradiction|].
  destruct (Nat.eqb_spec (nat_of_ascii c) 8); [lia|].
  destruct (Nat.eqb_spec (nat_of_ascii c) 9); [lia|].
  destruct (Nat.eqb_spec (nat_of_ascii c) 10); [lia|].
  destruct (Nat.eqb_spec (nat_of_ascii c) 12); [lia|].
  destruct (Nat.eqb_spec (nat_of_ascii c) 13); [lia|].
  destruct (Nat.ltb_spec (nat_of_ascii c) 32); [lia|]. reflexivity.
Qed.

Lemma parse_chars_plain (c : ascii) (s : string) :
  (32 <= nat_of_ascii c)%nat -> nat_of_ascii c <> 34%nat -> nat_of_ascii c <> 92%nat ->
  parse_chars (String c s)
  = match parse_chars s with
    | Some (t, r) => Some (String c t, r)
    | None => None
    end.
Proof.
  intros H1 H2 H3. cbn [parse_chars].
  destruct (Nat.eqb_spec (nat_of_ascii c) 34); [contradiction|].
  destruct (Nat.ltb_spec (nat_of_ascii c) 32); [lia|].
  destruct (Nat.eqb_spec (nat_of_ascii c) 92); [contradiction|]. reflexivity.
Qed.

Lemma parse_escape_char (c : ascii) (s' : string) :
  parse_chars (escape_char c +:+ s')
  = match parse_chars s' with
    | Some (t, r) => Some (String c t, r)
    | None => None
    end.
Proof.
  destruct (le_lt_dec 32 (nat_of_ascii c)) as [Hge|Hlt].
  - destruct (Nat.eq_dec (nat_of_ascii c) 34) as [E|N1].
    { assert (c = ascii_of_nat 34) as -> by (rewrite <- E; now rewrite ascii_nat_embedding).
      cbv - [parse_chars]; simpl. destruct (parse_chars s') as [[t r]|]; reflexivity. }
    destruct (Nat.eq_dec (nat_of_ascii c) 92) as [E|N2].
    { assert (c = ascii_of_nat 92) as -> by (rewrite <- E; now rewrite ascii_nat_embedding).
      cbv - [parse_chars]; simpl. destruct (parse_chars s') as [[t r]|]; reflexivity. }
    rewrite escape_char_plain by assumption.
    change (String c "" +:+ s') with (String c s').
    now apply parse_chars_plain.
  - assert (exists n, (n < 32)%nat /\ c = ascii_of_nat n) as (n & Hn & ->).
    { exists (nat_of_ascii c). split; [lia|]. now rewrite ascii_nat_embedding. }
    do 32 (destruct n as [|n]; [cbv - [parse_chars]; simpl; destruct (parse_chars s') as [[t r]|]; reflexivity|]).
    lia.
Qed.

Lemma parse_escape (s r : string) :
  parse_chars (escape s +:+ String dquote r) = Some (s, r).
Proof.
  induction s as [|c s IH]; [reflexivity|].
  cbn [escape]. rewrite append_assoc, parse_escape_char, IH. reflexivity.
Qed.

Lemma pretty_char_digit (x : N) :
  (x < 10)%N ->
  is_digit (pretty_N_char x) = true /\
  Z.of_nat (nat_of_ascii (pretty_N_char x) - 48) = Z.of_N x /\
  (x <> 0%N -> nat_of_ascii (pretty_N_char x) <> 48%nat).
Proof.
  intros H.
  assert (x = 0 \/ x = 1 \/ x = 2 \/ x = 3 \/ x = 4 \/ x = 5 \/ x = 6 \/ x = 7
          \/ x = 8 \/ x = 9)%N as Hx by lia.
  repeat (destruct Hx as [->|Hx]); try subst x; cbn; repeat split; try lia; discriminate.
Qed.

Lemma go_app (x : N) (s : string) : pretty_N_go x s = pretty_N_go x "" +:+ s.
Proof.
  revert s. induction (N.lt_wf_0 x) as [x _ IH]; intros s.
  destruct (N.eq_dec x 0) as [->|Hx]; [reflexivity|].
  rewrite (pretty_N_go_step x s), (pretty_N_go_step x "") by lia.
  assert (x `div` 10 < x)%N as Hlt by (apply N.div_lt; lia).
  rewrite (IH _ Hlt (String _ s)), (IH _ Hlt (String _ "")).
  now rewrite append_assoc.
Qed.

Lemma all_digits_app (a b : string) :
  all_digits (a +:+ b) = all_digits a && all_digits b.
Proof.
  induction a as [|c a IH]; [reflexivity|].
  rewrite append_cons. simpl. rewrite IH. now rewrite andb_assoc.
Qed.

Lemma go_digits (x : N) : all_digits (pretty_N_go x "") = true.
Proof.
  induction (N.lt_wf_0 x) as [x _ IH].
  destruct (N.eq_dec x 0) as [->|Hx]; [reflexivity|].
  rewrite pretty_N_go_step by lia. rewrite go_app, all_digits_app.
  rewrite IH by (apply N.div_lt; lia). simpl.
  destruct (pretty_char_digit (x `mod` 10)%N) as (-> & _); [|reflexivity].
  apply N.mod_lt. lia.
Qed.

Lemma digits_value_app (acc : Z) (a b : string) :
  digits_value acc (a +:+ b) = digits_value (digits_value acc a) b.
Proof.
  revert acc. induction a as [|c a IH]; intros acc; [reflexivity|].
  rewrite append_cons. simpl. apply IH.
Qed.

Lemma go_value (x : N) : digits_value 0 (pretty_N_go x "") = Z.of_N x.
Proof.
  induction (N.lt_wf_0 x) as [x _ IH].
  destruct (N.eq_dec x 0) as [->|Hx]; [reflexivity|].
  rewrite pretty_N_go_step by lia. rewrite go_app, digits_value_app.
  rewrite IH by (apply N.div_lt; lia). simpl.
  destruct (pretty_char_digit (x `mod` 10)%N) as (_ & -> & _).
  { apply N.mod_lt. lia. }
  rewrite (N.div_mod x 10) at 3 by lia. lia.
Qed.

Lemma go_head (x : N) :
  (0 < x)%N ->
  exists c D, pretty_N_go x "" = String c D /\ is_digit c = true
              /\ nat_of_ascii c <> 48%nat.
Proof.
  induction (N.lt_wf_0 x) as [x _ IH]. intros Hx.
  rewrite pretty_N_go_step by lia.
  destruct (N.eq_dec (x `div` 10) 0) as [E|Hd].
  - rewrite E, pretty_N_go_0.
    assert (x < 10)%N.
    { assert (10 <> 0)%N as Hten by discriminate.
      pose proof (N.div_mod x 10 Hten) as H1.
      pose proof (N.mod_lt x 10 Hten) as H2. rewrite E in H1. lia. }
    rewrite N.mod_small by lia.
    destruct (pretty_char_digit x) as (H1 & _ & H3); [lia|].
    do 2 eexists. split; [reflexivity|]. split; [exact H1|]. apply H3. lia.
  - rewrite go_app.
    destruct (IH (x `div` 10)%N) as (c & D & -> & H1 & H2);
      [apply N.div_lt; lia | now apply N.neq_0_lt_0 |].
    rewrite append_cons. eauto.
Qed.

Lemma span_digits_app (D rest : string) :
  all_digits D = true -> delimited rest = true ->
  span_digits (D +:+ rest) = (D, rest).
Proof.
  intros HD Hr. induction D as [|c D IH].
  - rewrite append_nil_l. destruct rest as [|c r]; [reflexivity|].
    simpl in *. unfold is_digit.
    apply orb_true_iff in Hr as [Hr|Hr]; [apply orb_true_iff in Hr as [Hr|Hr]|];
      apply Nat.eqb_eq in Hr; rewrite Hr; reflexivity.
  - rewrite append_cons. simpl in *. apply andb_true_iff in HD as [Hc HD].
    rewrite Hc, (IH HD). reflexivity.
Qed.

Lemma parse_nat_digits (c : ascii) (D rest : string) :
  all_digits (String c D) = true ->
  (nat_of_ascii c = 48%nat -> D = "") ->
  delimited rest = true ->
  parse_nat (String c D +:+ rest) = Some (digits_value 0 (String c D), rest).
Proof.
  intros HD Hz Hr. unfold parse_nat. rewrite span_digits_app by assumption.
  assert ((Nat.eqb (nat_of_ascii c) 48 && negb (String.eqb D "")) = false) as ->.
  { destruct (Nat.eqb_spec (nat_of_ascii c) 48) as [E|]; [|reflexivity].
    rewrite (Hz E). reflexivity. }
  destruct rest as [|d r]; [reflexivity|].
  simpl in Hr.
  apply orb_true_iff in Hr as [Hr|Hr]; [apply orb_true_iff in Hr as [Hr|Hr]|];
    apply Nat.eqb_eq in Hr; rewrite Hr; reflexivity.
Qed.

Lemma pretty_N_text (x : N) :
  exists c D, pretty x = String c D /\ all_digits (String c D) = true /\
              (nat_of_ascii c = 48%nat -> D = "") /\
              digits_value 0 (String c D) = Z.of_N x.
Proof.
  unfold pretty, pretty_N. destruct (decide (x = 0%N)) as [->|Hx].
  - exists "0"%char, "". repeat split; reflexivity.
  - destruct (go_head x) as (c & D & E & H1 & H2); [lia|].
    exists c, D. split; [exact E|]. rewrite <- E.
    split; [apply go_digits|]. split; [intros; contradiction|apply go_value].
Qed.

Lemma digit_dispatch (c : ascii) :
  is_digit c = true ->
  let n := nat_of_ascii c in
  is_json_ws c = false /\ Nat.eqb n 110 = false /\ Nat.eqb n 116 = false /\
  Nat.eqb n 102 = false /\ Nat.eqb n 34 = false /\ Nat.eqb n 45 = false.
Proof.
  unfold is_digit, is_json_ws. intros H. apply andb_true_iff in H as [H1 H2].
  apply Nat.leb_le in H1, H2. cbv zeta.
  repeat split; rewrite ?orb_false_iff; repeat split; apply Nat.eqb_neq; lia.
Qed.

Lemma parse_value_digits (fuel : nat) (c : ascii) (D rest : string) :
  all_digits (String c D) = true ->
  (nat_of_ascii c = 48%nat -> D = "") ->
  delimited rest = true ->
  parse_value (S fuel) (String c D +:+ rest)
  = Some (JNum (digits_value 0 (String c D)), rest).
Proof.
  intros HD Hz Hr.
  assert (is_digit c = true) as Hc by (simpl in HD; now apply andb_true_iff in HD).
  destruct (digit_dispatch c Hc) as (W & E1 & E2 & E3 & E4 & E5).
  rewrite append_cons. cbn [parse_value skip_ws]. rewrite W.
  cbv zeta. rewrite E1, E2, E3, E4, E5, Hc.
  rewrite <- append_cons, parse_nat_digits by assumption. reflexivity.
Qed.

Lemma parse_value_number (fuel : nat) (n : Z) (rest : string) :
  delimited rest = true ->
  parse_value (S fuel) (pretty n +:+ rest) = Some (JNum n, rest).
Proof.
  intros Hr. destruct n as [|p|p].
  - apply (parse_value_digits fuel "0"%char ""); auto.
  - change (pretty (Z.pos p)) with (pretty (N.pos p)).
    destruct (pretty_N_text (N.pos p)) as (c & D & -> & HD & Hz & Hv).
    rewrite parse_value_digits by assumption. now rewrite Hv.
  - change (pretty (Z.neg p)) with ("-" +:+ pretty (N.pos p)).
    destruct (pretty_N_text (N.pos p)) as (c & D & -> & HD & Hz & Hv).
    change ("-" +:+ String c D) with (String "-"%char (String c D)).
    rewrite append_cons. cbn [parse_value skip_ws].
    change (is_json_ws "-") with false. cbv iota zeta.
    change (nat_of_ascii "-") with 45%nat. cbn [Nat.eqb].
    rewrite parse_nat_digits by assumption.
    rewrite Hv. reflexivity.
Qed.

Lemma strip_prefix_app (p r : string) : strip_prefix p (p +:+ r) = Some r.
Proof.
  induction p as [|c p IH]; [reflexivity|].
  rewrite append_cons. cbn [strip_prefix]. now rewrite Ascii.eqb_refl.
Qed.

Lemma parse_value_S (f : nat) (c : ascii) (s' : string) :
  is_json_ws c = false ->
  parse_value (S f) (String c s')
  = let n := nat_of_ascii c in
    if Nat.eqb n 110 then
      option_map (fun r => (JNull, r)) (strip_prefix "ull" s')
    else if Nat.eqb n 116 then
      option_map (fun r => (JBool true, r)) (strip_prefix "rue" s')
    else if Nat.eqb n 102 then
      option_map (fun r => (JBool false, r)) (strip_prefix "alse" s')
    else if Nat.eqb n 34 then
      option_map (fun tr => (JStr (fst tr), snd tr)) (parse_chars s')
    else if Nat.eqb n 45 then
      option_map (fun zr => (JNum (- fst zr), snd zr)) (parse_nat s')
    else if is_digit c then
      option_map (fun zr => (JNum (fst zr), snd zr)) (parse_nat (String c s'))
    else if Nat.eqb n 91 then
      match skip_ws s' with
      | String c2 s2 =>
          if Nat.eqb (nat_of_ascii c2) 93 then Some (JArr [], s2)
          else option_map (fun xr => (JArr (fst xr), snd xr))
                 (parse_elements f [] s')
      | EmptyString => None
      end
    else if Nat.eqb n 123 then
      match skip_ws s' with
      | String c2 s2 =>
          if Nat.eqb (nat_of_ascii c2) 125 then Some (JObj [], s2)
          else option_map (fun fr => (JObj (fst fr), snd fr))
                 (parse_members f [] s')
      | EmptyString => None
      end
    else None.
Proof. intros W. cbn [parse_value skip_ws]. rewrite W. reflexivity. Qed.

Lemma parse_elements_S (f : nat) (acc : list jsval) (s : string) :
  parse_elements (S f) acc s
  = match parse_value f s with
    | Some (v, r) =>
        match skip_ws r with
        | String c r' =>
            if Nat.eqb (nat_of_ascii c) 44 then parse_elements f (acc ++ [v])%list r'
            else if Nat.eqb (nat_of_ascii c) 93 then Some ((acc ++ [v])%list, r')
            else None
        | EmptyString => None
        end
    | None => None
    end.
Proof. reflexivity. Qed.

Lemma parse_members_S (f : nat) (acc : list (string * jsval)) (s : string) :
  parse_members (S f) acc s
  = match skip_ws s with
    | String q s1 =>
        if Nat.eqb (nat_of_ascii q) 34 then
          match parse_chars s1 with
          | Some (k, r1) =>
              match skip_ws r1 with
              | String colon r2 =>
                  if Nat.eqb (nat_of_ascii colon) 58 then
                    match parse_value f r2 with
                    | Some (v, r3) =>
                        match skip_ws r3 with
                        | String c r4 =>
                            if Nat.eqb (nat_of_ascii c) 44
                            then parse_members f (obj_set k v acc) r4
                            else if Nat.eqb (nat_of_ascii c) 125
                            then Some (obj_set k v acc, r4)
                            else None
                        | EmptyString => None
                        end
                    | None => None
                    end
                  else None
              | EmptyString => None
              end
          | None => None
          end
        else None
    | EmptyString => None
    end.
Proof. reflexivity. Qed.

(** Evaluates the tests on a known first character. *)
Ltac dispatch :=
  repeat match goal with
         | |- context [Nat.eqb (nat_of_ascii ?c) ?k] =>
             let b := eval vm_compute in (Nat.eqb (nat_of_ascii c) k) in
             change (Nat.eqb (nat_of_ascii c) k) with b; cbv iota
         | |- context [is_digit ?c] =>
             let b := eval vm_compute in (is_digit c) in
             change (is_digit c) with b; cbv iota
         end.

Lemma round_trips_null : round_trips JNull.
Proof.
  exists "null". split; [reflexivity|]. split.
  { exists "n"%char, "ull". repeat split; vm_compute; congruence. }
  intros [|f] rest Hf Hr; [simpl in Hf; lia|].
  change ("null" +:+ rest) with (String "n"%char ("ull" +:+ rest)).
  rewrite parse_value_S by reflexivity. cbv zeta. dispatch.
  now rewrite strip_prefix_app.
Qed.

Lemma round_trips_bool b : round_trips (JBool b).
Proof.
  destruct b.
  - exists "true". split; [reflexivity|]. split.
    { exists "t"%char, "rue". repeat split; vm_compute; congruence. }
    intros [|f] rest Hf Hr; [simpl in Hf; lia|].
    change ("true" +:+ rest) with (String "t"%char ("rue" +:+ rest)).
    rewrite parse_value_S by reflexivity. cbv zeta. dispatch.
    now rewrite strip_prefix_app.
  - exists "false". split; [reflexivity|]. split.
    { exists "f"%char, "alse". repeat split; vm_compute; congruence. }
    intros [|f] rest Hf Hr; [simpl in Hf; lia|].
    change ("false" +:+ rest) with (String "f"%char ("alse" +:+ rest)).
    rewrite parse_value_S by reflexivity. cbv zeta. dispatch.
    now rewrite strip_prefix_app.
Qed.

Lemma round_trips_num n : round_trips (JNum n).
Proof.
  exists (pretty n). split; [reflexivity|]. split.
  { destruct n as [|p|p].
    - exists "0"%char, "". repeat split; vm_compute; congruence.
    - change (pretty (Z.pos p)) with (pretty (N.pos p)).
      destruct (pretty_N_text (N.pos p)) as (c & D & -> & HD & _).
      assert (is_digit c = true) as Hc by (simpl in HD; now apply andb_true_iff in HD).
      exists c, D. split; [reflexivity|].
      split; [apply (digit_dispatch c Hc)|].
      unfold is_digit in Hc. apply andb_true_iff in Hc as [_ Hc].
      apply Nat.leb_le in Hc. lia.
    - exists "-"%char, (pretty (N.pos p)). repeat split; vm_compute; congruence. }
  intros [|f] rest Hf Hr.
  - exfalso. destruct n as [|p|p]; try (simpl in Hf; lia).
    change (pretty (Z.pos p)) with (pretty (N.pos p)) in Hf.
    destruct (pretty_N_text (N.pos p)) as (c & D & E & _). rewrite E in Hf.
    simpl in Hf. lia.
  - now apply parse_value_number.
Qed.

Lemma round_trips_str s : round_trips (JStr s).
Proof.
  exists (quote s). split; [reflexivity|]. split.
  { exists dquote, (escape s +:+ String dquote ""). repeat split; vm_compute; congruence. }
  intros [|f] rest Hf Hr; [simpl in Hf; lia|].
  unfold quote. rewrite append_cons, append_assoc.
  rewrite parse_value_S by reflexivity. cbv zeta. dispatch.
  change (String dquote "" +:+ rest) with (String dquote rest).
  now rewrite parse_escape.
Qed.

Lemma stringify_array xs :
  JSON_stringify (JArr xs)
  = Some ("[" +:+ join_strings "," (map text_of xs) +:+ "]").
Proof. reflexivity. Qed.

Lemma join_cons2 sep (a b : string) (l : list string) :
  join_strings sep (a :: b :: l) = a +:+ sep +:+ join_strings sep (b :: l).
Proof. reflexivity. Qed.

Lemma delimited_cons (c : ascii) (r : string) :
  (nat_of_ascii c = 44 \/ nat_of_ascii c = 93 \/ nat_of_ascii c = 125)%nat ->
  delimited (String c r) = true.
Proof. intros [H|[H|H]]; simpl; rewrite H; reflexivity. Qed.

Lemma parse_elements_round (xs : list jsval) :
  xs <> [] ->
  Forall (fun x => json_clean x = true -> round_trips x) xs ->
  forallb json_clean xs = true ->
  forall fuel acc rest,
    (String.length (join_strings "," (map text_of xs)) + 1 <= fuel)%nat ->
    parse_elements fuel acc
      (join_strings "," (map text_of xs) +:+ String "]"%char rest)
    = Some ((acc ++ xs)%list, rest).
Proof.
  induction xs as [|x xs IH]; [congruence|].
  intros _ HP Hc fuel acc rest Hf.
  apply Forall_cons in HP as [Hx HP]. simpl in Hc.
  apply andb_true_iff in Hc as [Hcx Hc].
  destruct (Hx Hcx) as (t & Ht & Ho & Hparse).
  assert (text_of x = t) as Et by (unfold text_of; now rewrite Ht).
  destruct fuel as [|f]; [lia|]. rewrite parse_elements_S.
  destruct xs as [|y l].
  - cbn [map join_strings String.concat] in *. rewrite Et in *.
    rewrite Hparse; [|lia|now apply delimited_cons; auto].
    cbn [skip_ws]. change (is_json_ws "]") with false. cbv iota. dispatch.
    reflexivity.
  - cbn [map] in *. rewrite join_cons2 in *. rewrite Et in *.
    rewrite !length_append in Hf. cbn [String.length] in Hf.
    rewrite !append_assoc.
    change ("," +:+ ?r) with (String ","%char r).
    rewrite Hparse; [|lia|now apply delimited_cons; auto].
    cbn [skip_ws]. change (is_json_ws ",") with false. cbv iota. dispatch.
    rewrite (IH ltac:(congruence) HP Hc f (acc ++ [x])%list rest) by lia.
    now rewrite <- app_assoc.
Qed.

Lemma obj_set_fresh (k : string) (v : jsval) (acc : list (string * jsval)) :
  existsb (String.eqb k) (map fst acc) = false ->
  obj_set k v acc = (acc ++ [(k, v)])%list.
Proof.
  induction acc as [|[k' v'] acc IH]; [reflexivity|].
  simpl. intros H. apply orb_false_iff in H as [H1 H2].
  rewrite H1. now rewrite IH.
Qed.

Lemma fresh_keys_middle (A B : list string) (k : string) :
  fresh_keys (A ++ k :: B) = true -> existsb (String.eqb k) A = false.
Proof.
  induction A as [|a A IH]; [reflexivity|].
  simpl. intros H. apply andb_true_iff in H as [H1 H2].
  apply negb_true_iff in H1. rewrite existsb_app in H1.
  apply orb_false_iff in H1 as [_ H1]. simpl in H1.
  apply orb_false_iff in H1 as [H1 _].
  rewrite String.eqb_sym, H1. now apply IH.
Qed.

Lemma stringify_members (fs : list (string * jsval)) :
  Forall (fun kv => json_clean (snd kv) = true -> round_trips (snd kv)) fs ->
  forallb (fun kv => json_clean (snd kv)) fs = true ->
  flat_map (fun kv => match JSON_stringify (snd kv) with
                      | Some t => [quote (fst kv) +:+ ":" +:+ t]
                      | None => []
                      end) fs
  = map member_text fs.
Proof.
  induction fs as [|[k v] fs IH]; [reflexivity|].
  intros HP Hc. apply Forall_cons in HP as [Hx HP]. simpl in Hc.
  apply andb_true_iff in Hc as [Hcx Hc].
  destruct (Hx Hcx) as (t & Ht & _). cbn [snd] in Ht.
  cbn [flat_map map fst snd]. rewrite (IH HP Hc), Ht.
  change ([?a] ++ ?l)%list with (a :: l). f_equal.
  unfold member_text, text_of. cbn [fst snd]. now rewrite Ht.
Qed.

Lemma parse_members_round (fs : list (string * jsval)) :
  fs <> [] ->
  Forall (fun kv => json_clean (snd kv) = true -> round_trips (snd kv)) fs ->
  forallb (fun kv => json_clean (snd kv)) fs = true ->
  forall fuel acc rest,
    fresh_keys (map fst acc ++ map fst fs) = true ->
    (String.length (join_strings "," (map member_text fs)) + 1 <= fuel)%nat ->
    parse_members fuel acc
      (join_strings "," (map member_text fs) +:+ String "}"%char rest)
    = Some ((acc ++ fs)%list, rest).
Proof.
  induction fs as [|[k v] fs IH]; [congruence|].
  intros _ HP Hc fuel acc rest Hk Hf.
  apply Forall_cons in HP as [Hx HP]. simpl in Hc.
  apply andb_true_iff in Hc as [Hcx Hc].
  destruct (Hx Hcx) as (t & Ht & Ho & Hparse). cbn [snd] in Ht, Hparse.
  assert (member_text (k, v) = String dquote (escape k +:+ String dquote (String ":"%char t)))
    as Em.
  { unfold member_text, text_of, quote. cbn [fst snd]. rewrite Ht.
    rewrite append_cons, append_assoc. reflexivity. }
  assert (obj_set k v acc = (acc ++ [(k, v)])%list) as Eset.
  { apply obj_set_fresh. cbn [map fst] in Hk. now apply fresh_keys_middle in Hk. }
  destruct fuel as [|f]; [lia|]. rewrite parse_members_S.
  destruct fs as [|kv2 l].
  - cbn [map join_strings String.concat] in *. rewrite Em in *.
    rewrite !append_cons, append_assoc, !append_cons.
    cbn [skip_ws]. change (is_json_ws dquote) with false. cbv iota. dispatch.
    rewrite parse_escape.
    cbn [skip_ws]. change (is_json_ws ":") with false. cbv iota. dispatch.
    cbn [String.length] in Hf. rewrite length_append in Hf. cbn [String.length] in Hf.
    rewrite Hparse; [|lia|now apply delimited_cons; auto].
    cbn [skip_ws]. change (is_json_ws "}") with false. cbv iota. dispatch.
    now rewrite Eset.
  - cbn [map] in *. rewrite join_cons2 in *. rewrite Em in *.
    rewrite !append_cons, !append_assoc, !append_cons, !append_assoc.
    change ("," +:+ ?r) with (String ","%char r).
    cbn [skip_ws]. change (is_json_ws dquote) with false. cbv iota. dispatch.
    rewrite parse_escape.
    cbn [skip_ws]. change (is_json_ws ":") with false. cbv iota. dispatch.
    cbn [String.length] in Hf. rewrite !length_append in Hf.
    cbn [String.length] in Hf. rewrite !length_append in Hf.
    cbn [String.length] in Hf.
    rewrite Hparse; [|lia|now apply delimited_cons; auto].
    cbn [skip_ws]. change (is_json_ws ",") with false. cbv iota. dispatch.
    rewrite Eset, ?append_nil_l.
    rewrite (IH ltac:(congruence) HP Hc f (acc ++ [(k, v)])%list rest).
    + now rewrite <- app_assoc.
    + rewrite map_app, <- app_assoc. exact Hk.
    + lia.
Qed.

Lemma join_opens (xs : list string) (x : string) :
  opens_value x -> opens_value (join_strings "," (x :: xs)).
Proof.
  intros (c & t' & -> & H). destruct xs as [|y l].
  - exists c, t'. auto.
  - rewrite join_cons2, append_cons. exists c. eauto.
Qed.

Theorem clean_round_trips (v : jsval) : json_clean v = true -> round_trips v.
Proof.
  induction v as [| |b|n|s|xs IH|fs IH] using jsval_nested_ind; intros Hc.
  - discriminate.
  - apply round_trips_null.
  - apply round_trips_bool.
  - apply round_trips_num.
  - apply round_trips_str.
  - eexists. split; [apply stringify_array|]. split.
    { exists "["%char. eexists. repeat split; vm_compute; congruence. }
    intros [|f] rest Hf Hr; [simpl in Hf; lia|].
    simpl in Hc. rewrite !append_cons, append_nil_l, append_assoc.
    rewrite append_cons in Hf. cbn [String.length] in Hf.
    rewrite append_nil_l, length_append in Hf. cbn [String.length] in Hf.
    change ("]" +:+ rest) with (String "]"%char rest).
    rewrite parse_value_S by reflexivity. cbv zeta. dispatch.
    destruct xs as [|x xs].
    + reflexivity.
    + assert (opens_value (join_strings "," (map text_of (x :: xs))))
        as (c & t' & Ej & W & N1 & _).
      { cbn [map]. apply join_opens.
        apply Forall_cons in IH as [Hx _]. simpl in Hc.
        apply andb_true_iff in Hc as [Hcx _].
        destruct (Hx Hcx) as (t & Ht & Ho & _).
        unfold text_of. now rewrite Ht. }
      rewrite (parse_elements_round (x :: xs) ltac:(congruence) IH Hc) by lia.
      rewrite Ej, append_cons. cbn [skip_ws]. rewrite W.
      apply Nat.eqb_neq in N1. rewrite N1. reflexivity.
  - simpl in Hc. apply andb_true_iff in Hc as [Hc Hk].
    eexists. split.
    { cbn [JSON_stringify]. rewrite (stringify_members fs IH Hc). reflexivity. }
    split.
    { exists "{"%char. eexists. repeat split; vm_compute; congruence. }
    intros [|f] rest Hf Hr; [simpl in Hf; lia|].
    rewrite !append_cons, append_nil_l, append_assoc.
    rewrite append_cons in Hf. cbn [String.length] in Hf.
    rewrite append_nil_l, length_append in Hf. cbn [String.length] in Hf.
    change ("}" +:+ rest) with (String "}"%char rest).
    rewrite parse_value_S by reflexivity. cbv zeta. dispatch.
    destruct fs as [|[k v] fs].
    + reflexivity.
    + rewrite (parse_members_round ((k, v) :: fs) ltac:(congruence) IH Hc) by (auto; lia).
      cbn [map]. destruct (map member_text fs) as [|m ms].
      * cbn [join_strings String.concat]. unfold member_text, quote.
        rewrite !append_cons. cbn [skip_ws].
        change (is_json_ws dquote) with false. cbv iota. dispatch. reflexivity.
      * rewrite join_cons2. unfold member_text at 1, quote.
        rewrite !append_cons. cbn [skip_ws].
        change (is_json_ws dquote) with false. cbv iota. dispatch. reflexivity.
Qed.

Theorem JSON_round_trip (v : jsval) :
  json_clean v = true ->
  exists t, JSON_stringify v = Some t /\ JSON_parse t = Some v.
Proof.
  intros Hc. destruct (clean_round_trips v Hc) as (t & Ht & _ & Hp).
  exists t. split; [exact Ht|]. unfold JSON_parse.
  rewrite <- (append_nil_r t) at 2.
  rewrite Hp; [reflexivity|lia|reflexivity].
Qed.

End JSFacts.

(** ** The progress tracker *)

Module TrackerFacts.
Import JS Tracker.

Lemma rev_polls pid t0 n :
  rev (polls pid t0 n)
  = map (fun k => (t0 + 2000 * Z.of_nat k, Get (progress_url pid))) (seq 0 n).
Proof.
  induction n as [|n IH]; [reflexivity|].
  rewrite seq_S, map_app. simpl. now rewrite IH.
Qed.

(** A property kept by every turn of the loop is kept by every run. *)
Lemma run_preserves (P : world -> Prop) :
  (forall e w w', step e w = Some w' -> P w -> P w') ->
  forall evs w w', run evs w = Some w' -> P w -> P w'.
Proof.
  intros Hstep evs. induction evs as [|e evs IH]; intros w w' Hrun HP; simpl in Hrun.
  - now inversion Hrun; subst.
  - destruct (step e w) as [w1|] eqn:He; [|discriminate].
    eapply IH; [exact Hrun|]. eapply Hstep; eauto.
Qed.

(** *** The polling schedule *)

Lemma resume_log_gets r w :
  List.filter is_get (log (fetchProgress_resume r w)) = List.filter is_get (log w).
Proof.
  unfold fetchProgress_resume, fetchProgress_catch, schedule_navigation.
  destruct r as [data|[[|p|p]|]]; simpl;
    repeat match goal with
           | |- context [match ?x with _ => _ end] => destruct x; simpl
           end; reflexivity.
Qed.

Lemma resume_frame r w :
  projectId (fetchProgress_resume r w) = projectId w /\
  stage (fetchProgress_resume r w) = stage w /\
  interval (fetchProgress_resume r w) = interval w /\
  now (fetchProgress_resume r w) = now w /\
  inflight (fetchProgress_resume r w) = inflight w.
Proof.
  unfold fetchProgress_resume, fetchProgress_catch, schedule_navigation.
  destruct r as [data|[[|p|p]|]]; simpl;
    repeat match goal with
           | |- context [match ?x with _ => _ end] => destruct x; simpl
           end; auto.
Qed.

Lemma resume_log_incl r w x :
  In x (log w) -> In x (log (fetchProgress_resume r w)).
Proof.
  unfold fetchProgress_resume, fetchProgress_catch, schedule_navigation.
  destruct r as [data|[[|p|p]|]]; simpl;
    repeat match goal with
           | |- context [match ?x with _ => _ end] => destruct x; simpl
           end; auto.
Qed.

Lemma step_on_schedule pid t0 e w w' :
  step e w = Some w' -> on_schedule pid t0 w -> on_schedule pid t0 w'.
Proof.
  unfold on_schedule. intros Hs (Hpid & n & Hn & Hlog & Hst).
  destruct e; simpl in Hs.
  - (* Mount *) destruct (stage w); try discriminate. contradiction.
  - (* Unmount *)
    destruct (stage w) eqn:St; try discriminate. injection Hs as <-.
    destruct Hst as [Hi _]. unfold unmount; simpl. rewrite Hi. simpl.
    split; [exact Hpid|]. exists n. repeat split; auto.
    exists (now w). now left.
  - (* Wait *)
    destruct (_ && _) eqn:G; [|discriminate]. injection Hs as <-.
    apply andb_true_iff in G as [G1 G2]. apply Z.leb_le in G1.
    split; [exact Hpid|]. exists n. simpl. repeat split; auto.
    destruct (stage w); auto. destruct Hst as [Hi Hb]. split; [exact Hi|].
    unfold timers in G2. rewrite Hi in G2. simpl in G2.
    apply andb_true_iff in G2 as [G2 _]. apply Z.leb_le in G2. lia.
  - (* TickInterval *)
    destruct (interval w) as [due|] eqn:Hi; [|discriminate].
    destruct (due <=? now w) eqn:G; [|discriminate]. injection Hs as <-.
    apply Z.leb_le in G.
    destruct (stage w) eqn:St; [contradiction| |destruct Hst; congruence].
    destruct Hst as [Hi' Hb]. injection Hi' as ->.
    split; [exact Hpid|]. exists (S n). simpl. rewrite St, Hlog, Hpid.
    assert (now w = t0 + 2000 * Z.of_nat n) as Hnow by (clear - G Hb; lia). rewrite Hnow.
    rewrite ?Zpos_P_of_succ_nat.
    repeat split; auto; try lia. f_equal. lia.
  - (* TickTimeout *)
    destruct (timeouts w) as [|due rest] eqn:Ht; [discriminate|].
    destruct (due <=? now w) eqn:G; [|discriminate]. injection Hs as <-.
    unfold navigate, unmount; simpl.
    destruct (stage w) eqn:St; [contradiction| |]; simpl.
    + destruct Hst as [Hi Hb]. rewrite Hi. simpl. split; [exact Hpid|].
      exists n. repeat split; auto. exists (now w). now left.
    + split; [exact Hpid|]. exists n. simpl. rewrite St. repeat split; auto.
      * tauto.
      * destruct Hst as [_ [t Ht']]. exists t. now right.
  - (* Settle *)
    destruct (inflight w) as [|k] eqn:Hf; [discriminate|].
    injection Hs as <-.
    destruct (resume_frame r (with_inflight k w)) as (F1 & F2 & F3 & F4 & _).
    split; [now rewrite F1|]. exists n. rewrite resume_log_gets, F2, F3, F4. simpl.
    repeat split; auto.
    destruct (stage w); auto. destruct Hst as [Hi [t Ht]]. split; [exact Hi|].
    exists t. now apply resume_log_incl.
Qed.

Lemma mount_on_schedule pid t0 :
  has_id pid = true -> on_schedule pid t0 (mount (fresh pid t0)).
Proof.
  intros Hid. unfold mount. simpl. rewrite Hid. simpl.
  split; [reflexivity|]. exists 1%nat. simpl. repeat split; auto; try lia.
  f_equal. f_equal. lia.
Qed.

(** Once the tracker is off screen no request leaves any more. *)
Lemma step_unmounted_quiet e w w' :
  step e w = Some w' -> stage w = Unmounted -> interval w = None ->
  stage w' = Unmounted /\ interval w' = None /\
  List.filter is_get (log w') = List.filter is_get (log w).
Proof.
  intros Hs St Hi. destruct e; simpl in Hs.
  - rewrite St in Hs. discriminate.
  - rewrite St in Hs. discriminate.
  - destruct (_ && _); [|discriminate]. injection Hs as <-. simpl. auto.
  - rewrite Hi in Hs. discriminate.
  - destruct (timeouts w) as [|due rest]; [discriminate|].
    destruct (due <=? now w); [|discriminate]. injection Hs as <-.
    unfold navigate. simpl. rewrite St. simpl. auto.
  - destruct (inflight w) as [|k]; [discriminate|]. injection Hs as <-.
    destruct (resume_frame r (with_inflight k w)) as (_ & F2 & F3 & _).
    rewrite resume_log_gets, F2, F3. simpl. auto.
Qed.

Lemma run_unmounted_quiet evs w w' :
  run evs w = Some w' -> stage w = Unmounted -> interval w = None ->
  List.filter is_get (log w') = List.filter is_get (log w).
Proof.
  revert w. induction evs as [|e evs IH]; intros w Hrun St Hi; simpl in Hrun.
  - now inversion Hrun.
  - destruct (step e w) as [w1|] eqn:He; [|discriminate].
    destruct (step_unmounted_quiet _ _ _ He St Hi) as (St1 & Hi1 & Hl).
    rewrite <- Hl. now apply IH.
Qed.

(** *** Scheduled navigations *)

Lemma resume_cases r w :
  (completes r = true /\
   log (fetchProgress_resume r w) = (now w, SetTimeout 2000) :: log w /\
   timeouts (fetchProgress_resume r w) = (timeouts w ++ [now w + 2000])%list)
  \/
  (completes r = false /\
   log (fetchProgress_resume r w) = log w /\
   timeouts (fetchProgress_resume r w) = timeouts w).
Proof.
  unfold fetchProgress_resume, fetchProgress_catch, schedule_navigation, completes.
  destruct r as [data|[[|p|p]|]]; simpl;
    repeat match goal with
           | |- context [match ?x with _ => _ end] => destruct x eqn:?; simpl
           end; auto.
Qed.



(** *** What a failed fetch leaves behind *)

Lemma resume_fail status w :
  fetchProgress_resume (Fail status) w
  = finally_loaded (set_error (Some (failure_message status)) w).
Proof.
  unfold fetchProgress_resume, fetchProgress_catch, failure_message.
  destruct status as [[|p|p]|]; try reflexivity.
  do 9 (destruct p as [p|p|]; try reflexivity).
Qed.

(** *** Concrete runs *)

(** *** Navigation, polling, failures and the percentage shown *)




(** C2: a tracker mounted at time t0 with a project identifier issues its
    first fetch in the mount itself, at t0, and after any run of the event
    loop the fetches issued are exactly those of t0, t0 + 2000, ...,
    t0 + 2000 (n - 1), all for /api/progress/{projectId}. While it is
    mounted the interval is armed for t0 + 2000 n and the clock has not
    passed it; once it is unmounted the interval has been cleared and no
    later event issues a fetch. *)
Theorem C2_polling_schedule
    (pid : option string) (t0 : Z) (evs : list event) (w : world) :
  has_id pid = true ->
  run (Mount :: evs) (fresh pid t0) = Some w ->
  requests (mount (fresh pid t0)) = [(t0, Get (progress_url pid))] /\
  exists n : nat,
    (1 <= n)%nat /\
    requests w
    = map (fun k => (t0 + 2000 * Z.of_nat k, Get (progress_url pid))) (seq 0 n) /\
    match stage w with
    | Fresh => False
    | Mounted =>
        interval w = Some (t0 + 2000 * Z.of_nat n) /\
        t0 + 2000 * (Z.of_nat n - 1) <= now w <= t0 + 2000 * Z.of_nat n
    | Unmounted =>
        interval w = None /\
        (exists t, In (t, ClearInterval) (log w)) /\
        forall evs' w', run evs' w = Some w' -> requests w' = requests w
    end.
Proof.
  intros Hid Hrun. split.
  { unfold requests, mount. simpl. rewrite Hid. reflexivity. }
  simpl in Hrun.
  assert (on_schedule pid t0 w) as (_ & n & Hn & Hlog & Hst).
  { eapply (run_preserves (on_schedule pid t0)); [|exact Hrun|].
    - intros e w1 w2. apply step_on_schedule.
    - now apply mount_on_schedule. }
  exists n. split; [exact Hn|]. split.
  { unfold requests. rewrite Hlog. apply rev_polls. }
  destruct (stage w) eqn:St; auto.
  destruct Hst as [Hi Hc]. repeat split; auto.
  intros evs' w' Hrun'. unfold requests.
  now rewrite (run_unmounted_quiet _ _ _ Hrun' St Hi).
Qed.

(** C2 on the run that mounts at 0, ticks twice and leaves at 4500 ms. *)
Lemma C2_polling_schedule_witness :
  requests (mount (fresh (Some "p1") 0)) = [(0, Get "/api/progress/p1")] /\
  exists n : nat,
    (1 <= n)%nat /\
    requests after_leaving
    = map (fun k => (0 + 2000 * Z.of_nat k, Get "/api/progress/p1")) (seq 0 n) /\
    interval after_leaving = None /\
    (exists t, In (t, ClearInterval) (log after_leaving)) /\
    forall evs' w', run evs' after_leaving = Some w' ->
                    requests w' = requests after_leaving.
Proof.
  apply (C2_polling_schedule (Some "p1") 0 two_ticks_then_leave after_leaving).
  - reflexivity.
  - vm_compute. reflexivity.
Defined.

(** *** What the progress screen shows *)

Lemma step_rows_rowable (steps : list jsval) :
  forallb rowable steps = true -> exists rows, step_rows steps = Some rows.
Proof.
  induction steps as [|step steps IH]; simpl; [eauto|].
  intros H. apply andb_true_iff in H as [Hs Hr].
  destruct (IH Hr) as [rows ->].
  unfold rowable in Hs. unfold step_row, getStepIcon.
  destruct (prop step "status"); [|discriminate]. rewrite Hs. eauto.
Qed.

Lemma presentable_steps (data : jsval) :
  presentable data = true -> exists block, render_steps data = Some (Some block).
Proof.
  unfold presentable, render_steps. intros H.
  apply andb_true_iff in H as [_ H].
  destruct (truthy (opt_prop data "steps")) eqn:Ht; simpl in *; [|eauto].
  destruct (opt_prop data "steps") as [| | | | |steps|]; try discriminate.
  simpl. destruct steps as [|step steps]; simpl; [eauto|].
  destruct (step_rows_rowable (step :: steps) H) as [rows Hr].
  simpl in Hr. rewrite Hr. eauto.
Qed.

Lemma js_or_react_child (a b : jsval) :
  react_child a = true -> react_child b = true -> react_child (js_or a b) = true.
Proof. unfold js_or. now destruct (truthy a). Qed.

Lemma js_or_plain_numbers (a b : jsval) :
  plain_numbers a = true -> plain_numbers b = true ->
  plain_numbers (js_or a b) = true.
Proof. unfold js_or. now destruct (truthy a). Qed.

(** A body that is presentable is shown. *)
Lemma presentable_shows (h : hooks) :
  presentable (progress h) = true ->
  exists block,
    render_progress h
    = Screen (ProgressView (shown_percent h)
                (to_string (shown_percent h) +:+ "%") (shown_label h) block
                (strict_eq_num (opt_prop (progress h) "overall_progress") 100)).
Proof.
  intros H. destruct (presentable_steps _ H) as [block Hb].
  unfold presentable in H.
  apply andb_true_iff in H as [H _]. apply andb_true_iff in H as [H Hl].
  apply andb_true_iff in H as [Hc Hn].
  unfold render_progress. rewrite Hb.
  assert (react_child (shown_percent h) = true) as ->
    by (now apply js_or_react_child).
  assert (react_child (shown_label h) = true) as ->
    by (now apply js_or_react_child).
  assert (plain_numbers (shown_percent h) = true) as ->
    by (now apply js_or_plain_numbers).
  simpl. eauto.
Qed.

(** Whatever the body, a screen that is shown is the progress screen with
    the percentage as reported. *)
Lemma render_progress_shape (h : hooks) (v : view) :
  render_progress h = Screen v ->
  exists block,
    v = ProgressView (shown_percent h)
          (to_string (shown_percent h) +:+ "%") (shown_label h) block
          (strict_eq_num (opt_prop (progress h) "overall_progress") 100).
Proof.
  unfold render_progress.
  destruct (render_steps (progress h)) as [[block|]|]; try discriminate;
    destruct (negb _); try discriminate.
  destruct (plain_numbers (shown_percent h)); [|discriminate].
  intros H. injection H as <-. eauto.
Qed.






End TrackerFacts.

(** ** The session store *)

Module SessionFacts.
Import JS Session.

Lemma token_makes_record_truthy (userData token : jsval) :
  prop userData "access_token" = Some token -> truthy token = true ->
  truthy userData = true.
Proof.
  destruct userData; simpl; intros H Ht; try discriminate;
    try (injection H as <-; discriminate); reflexivity.
Qed.

(** C5: for every user record that carries a bearer token (any value JSON
    can carry, such as the body of the login response), login stores the
    serialised record under the one key manuscriptify_user, leaving every
    other key as it was, and configures Authorization: Bearer <token> on
    every request; re-opening the application restores the same user and
    the same header and ends the loading state; logout, after login or
    after the restore, removes the stored record and the header, so a later
    request carries no Authorization header. *)
Theorem C5_session_lifecycle (userData token : jsval) (b : browser) :
  json_clean userData = true ->
  prop userData "access_token" = Some token ->
  truthy token = true ->
  exists text b1 b2,
    JSON_stringify userData = Some text /\
    handleLogin userData b = Normal b1 /\
    storage b1 = <[session_key := text]> (storage b) /\
    user b1 = userData /\
    request_headers b1 !! "Authorization" = Some ("Bearer " +:+ to_string token) /\
    reload b1 = Normal b2 /\
    user b2 = userData /\ authenticated b2 = true /\ loading b2 = false /\
    request_headers b2 !! "Authorization" = Some ("Bearer " +:+ to_string token) /\
    storage (handleLogout b1) !! session_key = None /\
    request_headers (handleLogout b1) !! "Authorization" = None /\
    storage (handleLogout b2) !! session_key = None /\
    request_headers (handleLogout b2) !! "Authorization" = None.
Proof.
  intros Hclean Htok Htruthy.
  destruct (JSFacts.JSON_round_trip userData Hclean) as (text & Htext & Hparse).
  assert (text <> "") as Hne.
  { intros ->. vm_compute in Hparse. discriminate. }
  unfold handleLogin. rewrite Htok, Htruthy, Htext.
  exists text. eexists. eexists. split; [reflexivity|].
  split; [reflexivity|]. simpl.
  split; [reflexivity|]. split; [reflexivity|].
  split; [unfold request_headers; simpl; apply lookup_insert_eq|].
  unfold reload, restore, page_load. simpl.
  rewrite lookup_insert_eq.
  destruct (String.eqb_spec text "") as [E|_]; [contradiction|].
  rewrite Hparse, Htok, Htruthy.
  split; [reflexivity|]. simpl.
  split; [reflexivity|].
  split; [unfold authenticated; simpl; eapply token_makes_record_truthy; eauto|].
  split; [reflexivity|].
  split; [unfold request_headers; simpl; apply lookup_insert_eq|].
  unfold request_headers, handleLogout. simpl.
  rewrite !lookup_delete_eq. auto.
Qed.

(** C5 on the spec's example record, from a fresh page load. *)
Lemma C5_session_lifecycle_witness :
  exists text b1 b2,
    JSON_stringify demo_user = Some text /\
    handleLogin demo_user (page_load ∅) = Normal b1 /\
    storage b1 = <[session_key := text]> (storage (page_load ∅)) /\
    user b1 = demo_user /\
    request_headers b1 !! "Authorization" = Some "Bearer t" /\
    reload b1 = Normal b2 /\
    user b2 = demo_user /\ authenticated b2 = true /\ loading b2 = false /\
    request_headers b2 !! "Authorization" = Some "Bearer t" /\
    storage (handleLogout b1) !! session_key = None /\
    request_headers (handleLogout b1) !! "Authorization" = None /\
    storage (handleLogout b2) !! session_key = None /\
    request_headers (handleLogout b2) !! "Authorization" = None.
Proof.
  apply (C5_session_lifecycle demo_user (JStr "t") (page_load ∅));
    reflexivity.
Defined.

End SessionFacts.

(** ** The project creator *)

Module CreatorFacts.
Import JS Creator.

Lemma posts_app (xs ys : list effect) : posts (xs ++ ys) = (posts xs ++ posts ys)%list.
Proof. unfold posts. apply flat_map_app. Qed.

Lemma submit_catch_posts err done :
  posts (settled (submit_catch err done)) = posts done.
Proof.
  unfold submit_catch. destruct (error_message err); simpl;
    rewrite posts_app; simpl; apply app_nil_r.
Qed.






(** *** The upload zone *)

Lemma accepted_of_dropped (o : dropzone_options) (dropped : list file) (f : file) :
  In f (acceptedFiles o dropped) ->
  In f dropped /\ type_listed o f = true /\ size_allowed o f = true.
Proof.
  unfold acceptedFiles.
  destruct (negb (multiple o) && _); [intros []|].
  intros H. apply filter_In in H as [Hin Hok].
  apply andb_true_iff in Hok. tauto.
Qed.

Lemma onDrop_posts files be st :
  posts (snd (settled (onDrop files be st)))
  = match files with
    | [] => []
    | f :: _ => [("/api/files/upload", Multipart f)]
    end.
Proof.
  unfold onDrop. destruct files as [|f rest]; [reflexivity|].
  destruct (be _ _) as [data|err]; [destruct (prop data _)|]; reflexivity.
Qed.

(** C7: the zone is configured with a cap of 25 * 1024 * 1024 bytes and
    the three listed types. A file above the cap, or of a type that is not
    listed, never reaches onDrop as an accepted file: the drop changes
    nothing and sends nothing. A file within the cap and of a listed type
    triggers exactly one request, POST /api/files/upload with that file.
    Whatever is dropped, every request the zone sends is such an upload of
    a dropped file that passes both checks. *)
Theorem C7_upload_gate (f : file) (be : backend) (st : state) :
  maxSize upload_options = 26214400 /\
  map fst (accept upload_options)
  = [ "text/plain"; "application/pdf";
      "application/vnd.openxmlformats-officedocument.wordprocessingml.document" ] /\
  concat (map snd (accept upload_options)) = [".txt"; ".pdf"; ".docx"] /\
  (26214400 < file_size f \/ type_listed upload_options f = false ->
   drop [f] be st = Normal (st, [])) /\
  (file_size f <= 26214400 -> type_listed upload_options f = true ->
   posts (snd (settled (drop [f] be st))) = [("/api/files/upload", Multipart f)]) /\
  (forall dropped url payload,
     In (url, payload) (posts (snd (settled (drop dropped be st)))) ->
     url = "/api/files/upload" /\
     exists g, payload = Multipart g /\ In g dropped /\
               file_size g <= 26214400 /\ type_listed upload_options g = true).
Proof.
  split; [reflexivity|]. split; [reflexivity|]. split; [reflexivity|].
  split; [|split].
  - intros H. unfold drop, acceptedFiles. simpl.
    assert (type_listed upload_options f && size_allowed upload_options f = false) as ->.
    { destruct H as [H|H].
      - apply andb_false_iff. right. unfold size_allowed.
        apply Z.leb_gt. exact H.
      - now rewrite H. }
    reflexivity.
  - intros Hs Ht. unfold drop, acceptedFiles. simpl.
    assert (size_allowed upload_options f = true) as Hs'
      by (unfold size_allowed; apply Z.leb_le; exact Hs).
    rewrite Ht, Hs'. simpl. apply (onDrop_posts [f]).
  - intros dropped url payload Hin. unfold drop in Hin.
    rewrite onDrop_posts in Hin.
    destruct (acceptedFiles upload_options dropped) as [|g rest] eqn:Hacc;
      [destruct Hin|].
    destruct Hin as [Heq|[]]. injection Heq as <- <-.
    split; [reflexivity|]. exists g.
    destruct (accepted_of_dropped upload_options dropped g) as (Hd & Ht & Hs).
    { rewrite Hacc. now left. }
    repeat split; auto. unfold size_allowed in Hs. apply Z.leb_le in Hs. exact Hs.
Qed.

(** C7 on the three sample files. *)
Lemma C7_upload_gate_witness :
  drop [oversized] accepting_backend initial_state = Normal (initial_state, []) /\
  drop [picture] accepting_backend initial_state = Normal (initial_state, []) /\
  posts (snd (settled (drop [manuscript] accepting_backend initial_state)))
  = [("/api/files/upload", Multipart manuscript)].
Proof.
  split; [|split].
  - apply (C7_upload_gate oversized accepting_backend initial_state).
    left. reflexivity.
  - apply (C7_upload_gate picture accepting_backend initial_state).
    right. reflexivity.
  - apply (C7_upload_gate manuscript accepting_backend initial_state).
    + discriminate.
    + reflexivity.
Defined.

(** *** Error payloads *)

Lemma field_message_string (e : jsval) :
  field_error e = true -> exists s, field_message e = Some (JStr s).
Proof.
  destruct e as [| | | |s|xs|fs]; simpl; try discriminate.
  - intros _. now exists s.
  - intros Hloc. unfold field_message, opt_prop. simpl.
    destruct (truthy (default JUndefined (assoc "msg" fs))).
    + destruct (assoc "loc" fs) as [[| | | | |ys|]|]; simpl in *;
        try discriminate; eauto.
    + eauto.
Qed.

Lemma map_messages_strings (errs : list jsval) :
  forallb field_error errs = true ->
  exists parts, map_messages errs = Some (map JStr parts).
Proof.
  induction errs as [|e errs IH]; simpl.
  - intros _. now exists [].
  - intros H. apply andb_true_iff in H as [He Hr].
    destruct (field_message_string e He) as [s ->].
    destruct (IH Hr) as [parts ->]. now exists (s :: parts).
Qed.

Lemma join_of_strings sep (parts : list string) :
  array_join sep (map JStr parts) = join_strings sep parts.
Proof.
  unfold array_join. f_equal. rewrite map_map. simpl.
  induction parts as [|s parts IH]; simpl; [reflexivity|]. now rewrite IH.
Qed.

(** C9: whatever the request already did, the catch block ends in exactly
    one error notice, and its text is a single string: the detail itself
    when it is a string (the default text if that string is empty), the
    comma-separated per-field messages when it is an array of field-level
    errors, the JSON text of the detail when it is any other object, and
    the default Failed to create project when the payload has no detail. *)
Theorem C9_error_normalisation (err : jsval) (done : list effect) :
  (forall s, error_detail err = JStr s ->
     submit_catch err done
     = Normal (done ++ [ToastError (JStr (if String.eqb s ""
                                          then "Failed to create project" else s));
                        SetLoading false])%list) /\
  (forall errs, error_detail err = JArr errs ->
     forallb field_error errs = true ->
     exists parts,
       map_messages errs = Some (map JStr parts) /\
       submit_catch err done
       = Normal (done ++ [ToastError (JStr (join_strings ", " parts));
                          SetLoading false])%list) /\
  (forall fs, error_detail err = JObj fs ->
     exists text,
       JSON_stringify (JObj fs) = Some text /\
       submit_catch err done
       = Normal (done ++ [ToastError (JStr text); SetLoading false])%list) /\
  (error_detail err = JUndefined ->
     submit_catch err done
     = Normal (done ++ [ToastError (JStr "Failed to create project");
                        SetLoading false])%list).
Proof.
  unfold submit_catch, error_message. repeat split.
  - intros s ->. simpl. destruct (String.eqb s ""); reflexivity.
  - intros errs -> Hok. simpl.
    destruct (map_messages_strings errs Hok) as [parts Hp].
    exists parts. split; [exact Hp|]. now rewrite Hp, join_of_strings.
  - intros fs ->.
    destruct (JSON_stringify (JObj fs)) as [text|] eqn:Ht; [|discriminate].
    exists text. split; [reflexivity|]. reflexivity.
  - intros ->. reflexivity.
Qed.

(** C9 on one payload of each shape. *)
Lemma C9_error_normalisation_witness :
  submit_catch (rejection (JStr "Title already taken")) []
  = Normal [ToastError (JStr "Title already taken"); SetLoading false] /\
  submit_catch (rejection validation_errors) []
  = Normal [ToastError (JStr "body.title: field required, genre is not supported");
            SetLoading false] /\
  (exists text,
     JSON_stringify (JObj [("code", JNum 7)]) = Some text /\
     submit_catch (rejection (JObj [("code", JNum 7)])) []
     = Normal [ToastError (JStr text); SetLoading false]) /\
  submit_catch type_error []
  = Normal [ToastError (JStr "Failed to create project"); SetLoading false].
Proof.
  split; [|split; [|split]].
  - destruct (C9_error_normalisation (rejection (JStr "Title already taken")) [])
      as (H & _).
    exact (H _ eq_refl).
  - destruct (C9_error_normalisation (rejection validation_errors) [])
      as (_ & H & _).
    destruct (H _ eq_refl eq_refl) as (parts & Hp & Hc).
    destruct parts as [|a [|b [|c parts]]]; try discriminate Hp.
    injection Hp as <- <-. exact Hc.
  - destruct (C9_error_normalisation (rejection (JObj [("code", JNum 7)])) [])
      as (_ & _ & H & _).
    exact (H _ eq_refl).
  - destruct (C9_error_normalisation type_error []) as (_ & _ & _ & H).
    exact (H eq_refl).
Defined.

End CreatorFacts.

(** ** The project store *)

Module StoreFacts.
Import JS.

(** C8 (where the code departs from it): audiobook is one of the five
    genres the creator offers, and a submission with that card selected
    carries genre audiobook in the body of POST /api/projects; but the
    CHECK constraint on projects.genre lists only ebook, novel, kids_story
    and coloring_book. So the four other genres pass the constraint, and a
    row with genre audiobook is refused by the store whatever it holds. *)
Theorem C8_audiobook_refused_by_store :
  Creator.selectable_genres
  = ["ebook"; "novel"; "kids_story"; "coloring_book"; "audiobook"] /\
  (forall g, In g Creator.selectable_genres ->
             Store.genre_check g = negb (String.eqb g "audiobook")) /\
  prop (Creator.projectData Store.audiobook_submission) "genre"
  = Some (JStr "audiobook") /\
  Store.genre_check "audiobook" = false /\
  (forall table,
     Store.insert (Store.row_of_submission Store.audiobook_submission) table
     = None).
Proof.
  split; [reflexivity|]. split.
  - intros g Hg. simpl in Hg.
    destruct Hg as [<-|[<-|[<-|[<-|[<-|[]]]]]]; reflexivity.
  - repeat split; reflexivity.
Qed.

End StoreFacts.

(** ** The project editor *)

Module EditorFacts.
Import JS Editor.

Lemma truthy_string (s : string) : truthy (JStr s) = true <-> s <> "".
Proof.
  simpl. destruct (String.eqb_spec s ""); simpl; split; congruence.
Qed.

(** C10: when the project loads, the editable content is the project's
    generated_content if that is non-empty (truthy), whatever the original
    content is; otherwise the project's content if that is non-empty;
    otherwise the empty string. For a text, truthy means non-empty. *)
Theorem C10_editor_content
    (projectId : string) (projectData generated : jsval) (st : state) :
  prop projectData "generated_content" = Some generated ->
  let original := opt_prop projectData "content" in
  let shown := content (fst (fetchProject projectId (Resolved projectData) st)) in
  (truthy generated = true -> shown = generated) /\
  (truthy generated = false -> truthy original = true -> shown = original) /\
  (truthy generated = false -> truthy original = false -> shown = JStr "") /\
  (forall s, truthy (JStr s) = true <-> s <> "") /\
  project (fst (fetchProject projectId (Resolved projectData) st)) = projectData /\
  loading (fst (fetchProject projectId (Resolved projectData) st)) = false.
Proof.
  intros Hg. cbv zeta. unfold fetchProject. rewrite Hg. simpl. unfold js_or.
  split; [intros H; now rewrite !H|].
  split; [intros H1 H2; now rewrite H1, H2|].
  split; [intros H1 H2; now rewrite H1, H2|].
  split; [apply truthy_string|]. split; reflexivity.
Qed.

(** C10 on the three sample projects. *)
Lemma C10_editor_content_witness :
  content (fst (fetchProject "p7" (Resolved generated_project) initial_state))
  = JStr "Chapter 1" /\
  content (fst (fetchProject "p7" (Resolved draft_project) initial_state))
  = JStr "my notes" /\
  content (fst (fetchProject "p7" (Resolved empty_project) initial_state))
  = JStr "".
Proof.
  split; [|split].
  - apply (C10_editor_content "p7" generated_project (JStr "Chapter 1")
             initial_state eq_refl). reflexivity.
  - apply (C10_editor_content "p7" draft_project (JStr "") initial_state eq_refl);
      reflexivity.
  - apply (C10_editor_content "p7" empty_project JUndefined initial_state eq_refl);
      reflexivity.
Defined.

End EditorFacts.

(** ** The progress tracker before the job is done *)

Module TrackerRunFacts.
Import JS Tracker TrackerRuns.

Lemma resume_loading r w : loading (cells (fetchProgress_resume r w)) = false.
Proof. reflexivity. Qed.

Lemma step_loading e w w' :
  step e w = Some w' ->
  loading (cells w') = loading (cells w) && negb (is_settle e).
Proof.
  destruct e; simpl; intros Hs.
  - destruct (stage w); try discriminate. injection Hs as <-.
    unfold mount. simpl. destruct (has_id (projectId w)); simpl;
      now rewrite andb_true_r.
  - destruct (stage w); try discriminate. injection Hs as <-.
    unfold unmount. simpl. destruct (interval w); simpl; now rewrite andb_true_r.
  - destruct (_ && _); [|discriminate]. injection Hs as <-. simpl.
    now rewrite andb_true_r.
  - destruct (interval w) as [due|]; [|discriminate].
    destruct (due <=? now w); [|discriminate]. injection Hs as <-. simpl.
    now rewrite andb_true_r.
  - destruct (timeouts w) as [|due rest]; [discriminate|].
    destruct (due <=? now w); [|discriminate]. injection Hs as <-.
    unfold navigate, unmount. simpl.
    destruct (stage w); simpl; try destruct (interval w); simpl;
      now rewrite andb_true_r.
  - destruct (inflight w) as [|k]; [discriminate|]. injection Hs as <-.
    rewrite resume_loading. now rewrite andb_false_r.
Qed.

Lemma run_loading evs w w' :
  run evs w = Some w' ->
  loading (cells w') = loading (cells w) && negb (existsb is_settle evs).
Proof.
  revert w. induction evs as [|e evs IH]; intros w Hrun; simpl in Hrun.
  - injection Hrun as <-. simpl. now rewrite andb_true_r.
  - destruct (step e w) as [w1|] eqn:He; [|discriminate].
    rewrite (IH _ Hrun), (step_loading _ _ _ He). simpl.
    rewrite negb_orb. now rewrite andb_assoc.
Qed.

(** X1: the loading screen is up exactly until the first request settles,
    with a body or with a failure, and it never comes back afterwards. *)
Theorem loading_ends_with_first_reply
    (pid : option string) (t0 : Z) (evs : list event) (w : world) :
  run evs (fresh pid t0) = Some w ->
  loading (cells w) = negb (existsb is_settle evs) /\
  (render (cells w) = Screen LoadingView <-> existsb is_settle evs = false).
Proof.
  intros Hrun. pose proof (run_loading _ _ _ Hrun) as Hl. simpl in Hl.
  split; [exact Hl|]. unfold render. rewrite Hl.
  destruct (existsb is_settle evs); simpl.
  - split; [|discriminate].
    assert (render_progress (cells w) <> Screen LoadingView) as Hp.
    { intros H. apply TrackerFacts.render_progress_shape in H as [block H].
      discriminate. }
    destruct (error (cells w)) as [m|]; [|intros H; now apply Hp in H].
    destruct (negb (String.eqb m "")); [discriminate|intros H; now apply Hp in H].
  - tauto.
Qed.

Lemma loading_ends_with_first_reply_witness :
  loading (cells after_stuck_job) = negb (existsb is_settle (Mount :: stuck_job)) /\
  (render (cells after_stuck_job) = Screen LoadingView
   <-> existsb is_settle (Mount :: stuck_job) = false).
Proof.
  apply (loading_ends_with_first_reply (Some "p1") 0 (Mount :: stuck_job)).
  vm_compute. reflexivity.
Defined.

Lemma resume_unfinished r w :
  completes r = false ->
  timeouts (fetchProgress_resume r w) = timeouts w /\
  log (fetchProgress_resume r w) = log w.
Proof.
  intros Hc. destruct (TrackerFacts.resume_cases r w) as [(C & _)|(_ & L & T)].
  - congruence.
  - auto.
Qed.

Lemma step_still_polling pid e w w' :
  unfinished e = true -> step e w = Some w' ->
  still_polling pid w -> still_polling pid w'.
Proof.
  unfold still_polling. intros Hq Hs (Hp & St & Ht & Hn & due & Hi & Hd).
  destruct e; simpl in Hs, Hq; try discriminate.
  - rewrite St in Hs. discriminate.
  - destruct (_ && _) eqn:G; [|discriminate]. injection Hs as <-. simpl.
    repeat split; auto. exists due. split; [exact Hi|].
    apply andb_true_iff in G as [_ G]. unfold timers in G. rewrite Hi in G.
    simpl in G. apply andb_true_iff in G as [G _]. now apply Z.leb_le in G.
  - rewrite Hi in Hs. destruct (due <=? now w); [|discriminate].
    injection Hs as <-. simpl. repeat split; auto.
    exists (due + 2000). split; [reflexivity|lia].
  - rewrite Ht in Hs. discriminate.
  - destruct (inflight w) as [|k]; [discriminate|]. injection Hs as <-.
    apply negb_true_iff in Hq.
    destruct (TrackerFacts.resume_frame r (with_inflight k w))
      as (F1 & F2 & F3 & F4 & _).
    destruct (resume_unfinished r (with_inflight k w) Hq) as [T L].
    rewrite F1, F2, F3, F4, T, L. simpl. repeat split; auto. now exists due.
Qed.

Lemma run_still_polling pid evs w w' :
  forallb unfinished evs = true -> run evs w = Some w' ->
  still_polling pid w -> still_polling pid w'.
Proof.
  revert w. induction evs as [|e evs IH]; intros w Hq Hrun Hw; simpl in *.
  - now injection Hrun as <-.
  - apply andb_true_iff in Hq as [He Hq].
    destruct (step e w) as [w1|] eqn:Hs; [|discriminate].
    eapply IH; eauto. eapply step_still_polling; eauto.
Qed.

Lemma failure_message_text status : failure_message status <> "".
Proof.
  unfold failure_message, not_found_message, fetch_failed_message.
  destruct status as [[|p|p]|]; try discriminate.
  do 9 (destruct p as [p|p|]; try discriminate).
Qed.

(** A reply with a body the screen can show leaves the cells showable. *)
Lemma resume_showable r w :
  renders (Settle r) = true -> showable (cells (fetchProgress_resume r w)).
Proof.
  intros Hr. destruct r as [data|status].
  - simpl in Hr. unfold fetchProgress_resume.
    destruct (prop data "overall_progress") as [v|].
    + right. right. destruct (strict_eq_num v 100); exact Hr.
    + right. left. exists fetch_failed_message. split; [reflexivity|discriminate].
  - rewrite TrackerFacts.resume_fail. right. left.
    exists (failure_message status). split; [reflexivity|].
    apply failure_message_text.
Qed.

Lemma step_showable e w w' :
  renders e = true -> step e w = Some w' ->
  showable (cells w) -> showable (cells w').
Proof.
  intros Hr Hs Hw. destruct e; simpl in Hs.
  - destruct (stage w); try discriminate. injection Hs as <-.
    unfold mount. simpl. destruct (has_id (projectId w)); exact Hw.
  - destruct (stage w); try discriminate. injection Hs as <-.
    unfold unmount. simpl. destruct (interval w); exact Hw.
  - destruct (_ && _); [|discriminate]. injection Hs as <-. exact Hw.
  - destruct (interval w) as [due|]; [|discriminate].
    destruct (due <=? now w); [|discriminate]. injection Hs as <-. exact Hw.
  - destruct (timeouts w) as [|due rest]; [discriminate|].
    destruct (due <=? now w); [|discriminate]. injection Hs as <-.
    unfold navigate, unmount. simpl.
    destruct (stage w); simpl; try destruct (interval w); exact Hw.
  - destruct (inflight w) as [|k]; [discriminate|]. injection Hs as <-.
    now apply resume_showable.
Qed.

Lemma run_showable evs w w' :
  forallb renders evs = true -> run evs w = Some w' ->
  showable (cells w) -> showable (cells w').
Proof.
  revert w. induction evs as [|e evs IH]; intros w Hq Hrun Hw; simpl in *.
  - now injection Hrun as <-.
  - apply andb_true_iff in Hq as [He Hq].
    destruct (step e w) as [w1|] eqn:Hs; [|discriminate].
    eapply IH; eauto. eapply step_showable; eauto.
Qed.

Lemma showable_renders (h : hooks) : showable h -> exists v, render h = Screen v.
Proof.
  unfold render. intros [Hl|[(m & He & Hm)|Hp]].
  - rewrite Hl. eauto.
  - destruct (loading h); [eauto|]. rewrite He.
    apply String.eqb_neq in Hm. rewrite Hm. simpl. eauto.
  - destruct (TrackerFacts.presentable_shows h Hp) as [block Hb].
    destruct (loading h); [eauto|].
    destruct (error h) as [m|]; [destruct (negb _)|]; rewrite ?Hb; eauto.
Qed.

(** X2: a job that never reports 100 is polled without end. As long as
    the user stays on the page, no reply reports 100 and every body that
    arrives is one the progress screen can show, each render returns a
    screen, the tracker stays mounted with its interval armed, nothing is
    scheduled and nothing navigates; and wherever the run stands, waiting
    for the interval and letting it fire is possible and issues one more
    fetch for the same project, re-arming the interval 2000 ms later. *)
Theorem unfinished_job_polls_on
    (pid : option string) (t0 : Z) (evs : list event) (w : world) :
  has_id pid = true ->
  forallb unfinished evs = true ->
  forallb renders evs = true ->
  run (Mount :: evs) (fresh pid t0) = Some w ->
  (exists v, render (cells w) = Screen v) /\
  stage w = Mounted /\ timeouts w = [] /\ navigations w = [] /\
  exists due w',
    interval w = Some due /\ now w <= due /\
    run [Wait (due - now w); TickInterval] w = Some w' /\
    log w' = (due, Get (progress_url pid)) :: log w /\
    interval w' = Some (due + 2000).
Proof.
  intros Hid Hq Hr Hrun. simpl in Hrun.
  assert (showable (cells w)) as Hshow.
  { eapply run_showable; [exact Hr|exact Hrun|].
    left. unfold mount. simpl. destruct (has_id pid); reflexivity. }
  assert (still_polling pid w) as (Hp & St & Ht & Hn & due & Hi & Hd).
  { eapply run_still_polling; [exact Hq|exact Hrun|].
    unfold still_polling, mount. simpl. rewrite Hid. simpl.
    repeat split; auto. exists (t0 + 2000). split; [reflexivity|lia]. }
  split; [now apply showable_renders|].
  split; [exact St|]. split; [exact Ht|].
  split; [unfold navigations; now rewrite Hn|].
  exists due.
  eexists. split; [exact Hi|]. split; [exact Hd|].
  simpl. unfold timers. rewrite Hi, Ht. simpl.
  replace (now w + (due - now w)) with due by lia.
  assert ((0 <=? due - now w) = true) as -> by (apply Z.leb_le; lia).
  rewrite Z.leb_refl. simpl. rewrite Hi. rewrite Z.leb_refl.
  split; [reflexivity|]. simpl. rewrite Hp. auto.
Qed.

Lemma unfinished_job_polls_on_witness :
  (exists v, render (cells after_stuck_job) = Screen v) /\
  stage after_stuck_job = Mounted /\ timeouts after_stuck_job = [] /\
  navigations after_stuck_job = [] /\
  exists due w',
    interval after_stuck_job = Some due /\ now after_stuck_job <= due /\
    run [Wait (due - now after_stuck_job); TickInterval] after_stuck_job = Some w' /\
    log w' = (due, Get (progress_url (Some "p1"))) :: log after_stuck_job /\
    interval w' = Some (due + 2000).
Proof.
  apply (unfinished_job_polls_on (Some "p1") 0 stuck_job);
    vm_compute; reflexivity.
Defined.


End TrackerRunFacts.

(** ** The session outside the happy path *)

Module SessionEdgeFacts.
Import JS Session Sessions.

Lemma stringify_nonempty (v : jsval) (text : string) :
  JSON_stringify v = Some text -> JSON_parse text = Some v -> text <> "".
Proof. intros _ Hp ->. vm_compute in Hp. discriminate. Qed.

(** X3: the Authorization header survives a login that brings no token.
    After a login with a token, a second login whose record has no truthy
    access_token replaces the user but leaves the first user's Bearer
    header on every request; only re-opening the application drops it. *)
Theorem tokenless_login_keeps_old_header
    (userA tokA userB tokB : jsval) (b : browser) :
  prop userA "access_token" = Some tokA -> truthy tokA = true ->
  prop userB "access_token" = Some tokB -> truthy tokB = false ->
  json_clean userB = true ->
  exists b1 b2 b3,
    handleLogin userA b = Normal b1 /\
    handleLogin userB b1 = Normal b2 /\
    user b2 = userB /\
    request_headers b2 !! "Authorization" = Some (bearer tokA) /\
    reload b2 = Normal b3 /\
    user b3 = userB /\
    request_headers b3 !! "Authorization" = None.
Proof.
  intros HA HtA HB HtB Hclean.
  destruct (JSFacts.JSON_round_trip userB Hclean) as (text & Htext & Hparse).
  pose proof (stringify_nonempty _ _ Htext Hparse) as Hne.
  unfold handleLogin. rewrite HA, HtA. simpl. rewrite HB, HtB, Htext.
  do 3 eexists. split; [reflexivity|]. split; [reflexivity|]. simpl.
  split; [reflexivity|].
  split; [unfold request_headers; simpl; apply lookup_insert_eq|].
  unfold reload, restore, page_load. simpl. rewrite lookup_insert_eq.
  destruct (String.eqb_spec text "") as [E|_]; [contradiction|].
  rewrite Hparse, HB, HtB. split; [reflexivity|]. simpl.
  split; [reflexivity|]. unfold request_headers. simpl. apply lookup_empty.
Qed.

Lemma tokenless_login_keeps_old_header_witness :
  exists b1 b2 b3,
    handleLogin demo_user (page_load ∅) = Normal b1 /\
    handleLogin tokenless_user b1 = Normal b2 /\
    user b2 = tokenless_user /\
    request_headers b2 !! "Authorization" = Some (bearer (JStr "t")) /\
    reload b2 = Normal b3 /\
    user b3 = tokenless_user /\
    request_headers b3 !! "Authorization" = None.
Proof.
  apply (tokenless_login_keeps_old_header
           demo_user (JStr "t") tokenless_user JUndefined (page_load ∅));
    reflexivity.
Defined.

(** X4: a login called with null or undefined (a response without a body)
    throws after it has written to localStorage, leaving the modal open
    and the headers as they were; from then on the start-up effect throws
    before it reaches setLoading(false), with nobody signed in, however
    often the application is re-opened. *)
Theorem bodyless_login_blocks_startup (userData : jsval) (b : browser) :
  prop userData "access_token" = None ->
  exists b1 b2,
    handleLogin userData b = Throws b1 /\
    showAuth b1 = showAuth b /\ request_headers b1 = request_headers b /\
    reload b1 = Throws b2 /\
    loading b2 = true /\ authenticated b2 = false /\
    reload b2 = Throws b2.
Proof.
  intros Hp. destruct userData; try discriminate.
  - do 2 eexists. split; [reflexivity|]. simpl.
    split; [reflexivity|]. split; [reflexivity|].
    unfold reload, restore, page_load. simpl. rewrite lookup_insert_eq.
    simpl. split; [reflexivity|]. simpl. split; [reflexivity|].
    split; [reflexivity|]. rewrite lookup_insert_eq. reflexivity.
  - do 2 eexists. split; [reflexivity|]. simpl.
    split; [reflexivity|]. split; [reflexivity|].
    unfold reload, restore, page_load. simpl. rewrite lookup_insert_eq.
    simpl. split; [reflexivity|]. simpl. split; [reflexivity|].
    split; [reflexivity|]. rewrite lookup_insert_eq. reflexivity.
Qed.

Lemma bodyless_login_blocks_startup_witness :
  exists b1 b2,
    handleLogin JNull signed_in = Throws b1 /\
    showAuth b1 = showAuth signed_in /\
    request_headers b1 = request_headers signed_in /\
    reload b1 = Throws b2 /\
    loading b2 = true /\ authenticated b2 = false /\
    reload b2 = Throws b2.
Proof.
  apply (bodyless_login_blocks_startup JNull signed_in). reflexivity.
Defined.


End SessionEdgeFacts.

(** ** The route table *)

Module RouteFacts.
Import JS Routes.

Lemma admin_is_signed_in (user : jsval) :
  is_admin user = true -> truthy user = true.
Proof. destruct user; simpl; try discriminate; reflexivity. Qed.

(** X6: every location comes to rest within two redirects, on a page and
    not on a redirect. Without a user that page is the landing page,
    whatever was asked for (or nothing, where no route matches); a guarded
    page is only ever shown to a signed-in user, the admin panel only to
    one whose subscription_tier is exactly 'admin'; and a signed-in user
    who is not an admin and asks for /admin ends on the dashboard. *)
Theorem routes_come_to_rest (user : jsval) (l : location) :
  exists page,
    follow 2 user l = Some page /\
    (forall l', page <> NavigateTo l') /\
    (truthy user = false ->
       page = (match l with Unmatched => Nothing | _ => LandingPage end)) /\
    (guarded page = true -> truthy user = true) /\
    (page = AdminPage -> is_admin user = true /\ l = AdminPath) /\
    (truthy user = true -> is_admin user = false -> l = AdminPath ->
       page = DashboardPage).
Proof.
  destruct (is_admin user) eqn:Ha.
  - pose proof (admin_is_signed_in _ Ha) as Ht.
    destruct l; simpl; rewrite ?Ht, ?Ha; simpl; rewrite ?Ht;
      eexists; (split; [reflexivity|]);
      repeat split; try discriminate; try congruence.
  - destruct (truthy user) eqn:Ht;
      destruct l; simpl; rewrite ?Ht, ?Ha; simpl; rewrite ?Ht; simpl;
        rewrite ?Ht;
        eexists; (split; [reflexivity|]);
        repeat split; try discriminate; try congruence.
Qed.

(** X7: the admin route is closed to every tier the users table can hold.
    Its guard asks for subscription_tier === 'admin', and the CHECK on
    public.users admits only free, pro, premium and lifetime; so for a
    user whose tier passes the CHECK no location leads to the admin
    panel, and /admin leads to the dashboard. *)
Theorem admin_route_closed_to_stored_tiers
    (user : jsval) (tier : string) (l : location) :
  opt_prop user "subscription_tier" = JStr tier ->
  tier_check tier = true ->
  is_admin user = false /\
  follow 2 user l <> Some AdminPage /\
  follow 2 user AdminPath = Some DashboardPage.
Proof.
  intros Hp Hc.
  assert (is_admin user = false) as Ha.
  { unfold is_admin. rewrite Hp. unfold tier_check in Hc. simpl in Hc.
    destruct (String.eqb_spec tier "admin") as [->|]; [discriminate|reflexivity]. }
  assert (truthy user = true) as Ht.
  { destruct user; simpl in *; try discriminate; reflexivity. }
  split; [exact Ha|]. split.
  - destruct l; simpl; rewrite ?Ht, ?Ha; simpl; rewrite ?Ht; simpl;
      rewrite ?Ht; discriminate.
  - simpl. rewrite Ha. simpl. rewrite Ht. simpl. rewrite Ht. reflexivity.
Qed.

Lemma admin_route_closed_to_stored_tiers_witness :
  is_admin (user_of_tier "premium") = false /\
  follow 2 (user_of_tier "premium") AdminPath <> Some AdminPage /\
  follow 2 (user_of_tier "premium") AdminPath = Some DashboardPage.
Proof.
  apply (admin_route_closed_to_stored_tiers
           (user_of_tier "premium") "premium" AdminPath); reflexivity.
Defined.

End RouteFacts.

(** ** The project creator as a whole *)

Module SubmissionFacts.
Import JS Creator Submission.

Lemma submit_catch_shape err done :
  exists tail,
    settled (submit_catch err done) = (done ++ tail)%list /\
    last tail = Some (SetLoading false) /\
    posts tail = [] /\ navigations tail = [] /\
    (forall es, submit_catch err done = Normal es ->
                List.length (toasts tail) = 1%nat).
Proof.
  unfold submit_catch. destruct (error_message err) as [m|].
  - exists [ToastError m; SetLoading false]. simpl. repeat split; auto.
  - exists [SetLoading false]. simpl. repeat split; auto. discriminate.
Qed.

Lemma last_app_tail {A} (xs tail : list A) (x : A) :
  last tail = Some x -> last (xs ++ tail) = Some x.
Proof.
  intros H. destruct tail as [|y tail]; [discriminate|].
  induction xs as [|z xs IH]; [exact H|].
  simpl. destruct (xs ++ y :: tail)%list eqn:E; [destruct xs; discriminate|].
  exact IH.
Qed.

Lemma navigations_app (xs ys : list effect) :
  navigations (xs ++ ys) = (navigations xs ++ navigations ys)%list.
Proof. unfold navigations. apply flat_map_app. Qed.

Lemma toasts_app (xs ys : list effect) :
  toasts (xs ++ ys) = (toasts xs ++ toasts ys)%list.
Proof. unfold toasts. apply List.filter_app. Qed.

(** The [try] block: its effects, whatever the backend answers. *)
Lemma submit_try_shape be st :
  exists rest,
    settled (submit_try be st)
    = SetLoading true :: Post "/api/projects" (Json (projectData st)) :: rest /\
    last rest = Some (SetLoading false) /\
    (List.length (posts rest) <= 1)%nat /\
    (List.length (navigations rest) <= 1)%nat /\
    (navigations rest <> [] ->
       (exists es, submit_try be st = Normal es) /\
       Forall (resolved be)
         (("/api/projects", Json (projectData st)) :: posts rest)) /\
    (forall es, submit_try be st = Normal es ->
                List.length (toasts rest) = 1%nat).
Proof.
  unfold submit_try.
  set (create := Post "/api/projects" (Json (projectData st))).
  destruct (be "/api/projects" _) as [data|err] eqn:Hc.
  - destruct (prop data "project_id") as [pid|].
    + destruct (_ || _).
      * destruct (be "/api/ai/generate-book" _) as [d|err] eqn:Hg.
        -- eexists. split; [reflexivity|]. simpl.
           repeat split; auto.
           ++ eexists; reflexivity.
           ++ repeat constructor; eexists; simpl; eauto.
        -- destruct (submit_catch_shape err
                       [SetLoading true; create;
                        Post "/api/ai/generate-book" (Json (generateRequest st pid))])
             as (tail & E & L & P & N & T).
           exists (Post "/api/ai/generate-book" (Json (generateRequest st pid)) :: tail).
           split; [exact E|]. simpl. rewrite P, N. simpl.
           split; [now apply (last_app_tail [_])|].
           repeat split; auto; try contradiction.
      * eexists. split; [reflexivity|]. simpl. repeat split; auto.
        -- eexists; reflexivity.
        -- repeat constructor; eexists; simpl; eauto.
    + destruct (submit_catch_shape type_error [SetLoading true; create])
        as (tail & E & L & P & N & T).
      exists tail. split; [exact E|]. rewrite P, N. simpl.
      repeat split; auto; try contradiction.
  - destruct (submit_catch_shape err [SetLoading true; create])
      as (tail & E & L & P & N & T).
    exists tail. split; [exact E|]. rewrite P, N. simpl.
    repeat split; auto; try contradiction.
Qed.

Lemma handleSubmit_cases be st :
  (complete st = true /\ handleSubmit be st = submit_try be st) \/
  (complete st = false /\
   ((exists m, handleSubmit be st = Normal [ToastError (JStr m)]) \/
    handleSubmit be st = Throws [])).
Proof.
  unfold handleSubmit, complete.
  destruct (blank (title (formData st))); simpl; [right; eauto|].
  destruct (String.eqb (activeTab st) "prompt") eqn:Hp.
  - apply String.eqb_eq in Hp. rewrite Hp. simpl.
    destruct (String.eqb (genre (formData st)) "audiobook"),
             (truthy (uploadedFile st)),
             (blank (prompt (formData st))); simpl; eauto.
  - rewrite !andb_false_r. simpl.
    destruct (String.eqb (activeTab st) "upload"); [|left; auto].
    destruct (content (formData st)) as [| | | |text| |]; eauto.
    destruct (blank text); simpl; eauto.
Qed.

(** X8: the shape of every submission, whatever the form holds and
    whatever the backend answers. Requests go out exactly when the form
    is complete. When they do, the effects begin with setLoading(true)
    and POST /api/projects carrying projectData and end with
    setLoading(false); at most one more request follows; there is at most
    one navigation, and one happens only when the handler returns
    normally and every request it sent was answered with success. Every
    run that returns normally shows exactly one notice. *)
Theorem submission_shape (be : backend) (st : state) :
  (posts (settled (handleSubmit be st)) <> [] <-> complete st = true) /\
  (complete st = true ->
     exists rest,
       settled (handleSubmit be st)
       = SetLoading true :: Post "/api/projects" (Json (projectData st)) :: rest /\
       last rest = Some (SetLoading false) /\
       (List.length (posts rest) <= 1)%nat) /\
  (List.length (navigations (settled (handleSubmit be st))) <= 1)%nat /\
  (navigations (settled (handleSubmit be st)) <> [] ->
     (exists es, handleSubmit be st = Normal es) /\
     Forall (resolved be) (posts (settled (handleSubmit be st)))) /\
  (forall es, handleSubmit be st = Normal es -> List.length (toasts es) = 1%nat).
Proof.
  destruct (handleSubmit_cases be st) as [[Hc ->]|[Hc H]].
  - destruct (submit_try_shape be st) as (rest & E & L & P & N & R & T).
    rewrite E, Hc. simpl.
    split; [split; [reflexivity|discriminate]|].
    split; [intros _; exists rest; auto|].
    split; [exact N|].
    split.
    + intros Hn. exact (R Hn).
    + intros es Hes. pose proof (T _ Hes) as T'.
      rewrite Hes in E. simpl in E. subst es. exact T'.
  - rewrite Hc.
    destruct H as [[m Hm]|Ht].
    + rewrite Hm. simpl. split; [split; [contradiction|discriminate]|].
      split; [discriminate|]. split; [lia|].
      split; [contradiction|]. intros es Hes. injection Hes as <-. reflexivity.
    + rewrite Ht. simpl. split; [split; [contradiction|discriminate]|].
      split; [discriminate|]. split; [lia|]. split; [contradiction|discriminate].
Qed.

Lemma upload_flow_reaches_try be st text :
  blank (title (formData st)) = false ->
  activeTab st = "upload" ->
  content (formData st) = JStr text -> blank text = false ->
  handleSubmit be st = submit_try be st.
Proof.
  intros Ht Ha Hc Hb. unfold handleSubmit. rewrite Ht, Ha, Hc, Hb. simpl.
  rewrite !andb_false_r. reflexivity.
Qed.

(** X9: the upload tab. With a title and pasted or extracted content,
    POST /api/projects carries that content as it stands in the form.
    For any genre but audiobook this is the only request, and the handler
    goes to the editor at /project/{projectId}. For an audiobook the
    generation request follows and, when it succeeds, the handler goes to
    /progress/{projectId}; if no file was uploaded, the generation request
    carries the form's prompt and a null uploaded_content: text that was
    only pasted is not part of it. *)
Theorem upload_tab_submission
    (be : backend) (st : state) (text : string) (created projectId : jsval) :
  blank (title (formData st)) = false ->
  activeTab st = "upload" ->
  content (formData st) = JStr text -> blank text = false ->
  be "/api/projects" (Json (projectData st)) = Resolved created ->
  prop created "project_id" = Some projectId ->
  prop (projectData st) "content" = Some (JStr text) /\
  (genre (formData st) <> "audiobook" ->
     handleSubmit be st
     = Normal [ SetLoading true;
                Post "/api/projects" (Json (projectData st));
                ToastSuccess "Project created successfully!";
                NavigateTo ("/project/" +:+ to_string projectId);
                SetLoading false ]) /\
  (genre (formData st) = "audiobook" ->
     posts (settled (handleSubmit be st))
     = [ ("/api/projects", Json (projectData st));
         ("/api/ai/generate-book", Json (generateRequest st projectId)) ] /\
     (truthy (opt_prop (uploadedFile st) "extracted_text") = false ->
        prop (generateRequest st projectId) "prompt"
        = Some (JStr (prompt (formData st))) /\
        prop (generateRequest st projectId) "uploaded_content" = Some JNull) /\
     (forall started,
        be "/api/ai/generate-book" (Json (generateRequest st projectId))
        = Resolved started ->
        navigations (settled (handleSubmit be st))
        = ["/progress/" +:+ to_string projectId])).
Proof.
  intros Ht Ha Hc Hb Hcr Hid.
  rewrite (upload_flow_reaches_try be st text Ht Ha Hc Hb).
  split; [unfold projectData; simpl; rewrite Ha, Hc; reflexivity|].
  unfold submit_try. rewrite Hcr, Hid, Ha. simpl. split.
  - intros Hg. apply String.eqb_neq in Hg. rewrite Hg. reflexivity.
  - intros Hg. rewrite Hg. simpl. split; [|split].
    + destruct (be "/api/ai/generate-book" _) as [d|err];
        [reflexivity|now rewrite CreatorFacts.submit_catch_posts].
    + intros Hu. unfold generateRequest, isUploadedAudiobook. rewrite Hg. simpl.
      rewrite Hu. split; reflexivity.
    + intros started Hs. rewrite Hs. reflexivity.
Qed.

Lemma upload_tab_submission_witness :
  prop (projectData pasted_audiobook) "content"
  = Some (JStr "Chapter 1. Call me Ishmael.") /\
  posts (settled (handleSubmit accepting_backend pasted_audiobook))
  = [ ("/api/projects", Json (projectData pasted_audiobook));
      ("/api/ai/generate-book", Json (generateRequest pasted_audiobook (JStr "p7"))) ] /\
  prop (generateRequest pasted_audiobook (JStr "p7")) "prompt" = Some (JStr "") /\
  prop (generateRequest pasted_audiobook (JStr "p7")) "uploaded_content" = Some JNull /\
  navigations (settled (handleSubmit accepting_backend pasted_audiobook))
  = ["/progress/p7"].
Proof.
  destruct (upload_tab_submission accepting_backend pasted_audiobook
              "Chapter 1. Call me Ishmael." (JObj [("project_id", JStr "p7")])
              (JStr "p7") eq_refl eq_refl eq_refl eq_refl eq_refl eq_refl)
    as (Hc & _ & Ha).
  destruct (Ha eq_refl) as (Hp & Hg & Hn).
  destruct (Hg eq_refl) as [Hg1 Hg2].
  split; [exact Hc|]. split; [exact Hp|]. split; [exact Hg1|].
  split; [exact Hg2|].
  exact (Hn (JObj [("status", JStr "started")]) eq_refl).
Defined.

(** X10: an audiobook with an uploaded manuscript needs no prompt, and a
    prompt that was typed is not used. On the prompt tab, with a title and
    an uploaded file whose extracted text is not empty, the submission
    passes the checks whatever the prompt field holds; the project is
    created with the extracted text as its content, the generation request
    carries an empty prompt and the extracted text as uploaded_content,
    and on success the notice speaks of audio conversion and the handler
    goes to /progress/{projectId}. *)
Theorem audiobook_manuscript_replaces_prompt
    (be : backend) (st : state) (text : string) (created projectId : jsval) :
  blank (title (formData st)) = false ->
  genre (formData st) = "audiobook" ->
  activeTab st = "prompt" ->
  prop (uploadedFile st) "extracted_text" = Some (JStr text) -> text <> "" ->
  be "/api/projects" (Json (projectData st)) = Resolved created ->
  prop created "project_id" = Some projectId ->
  prop (projectData st) "content" = Some (JStr text) /\
  prop (generateRequest st projectId) "prompt" = Some (JStr "") /\
  prop (generateRequest st projectId) "uploaded_content" = Some (JStr text) /\
  posts (settled (handleSubmit be st))
  = [ ("/api/projects", Json (projectData st));
      ("/api/ai/generate-book", Json (generateRequest st projectId)) ] /\
  (forall started,
     be "/api/ai/generate-book" (Json (generateRequest st projectId))
     = Resolved started ->
     handleSubmit be st
     = Normal [ SetLoading true;
                Post "/api/projects" (Json (projectData st));
                Post "/api/ai/generate-book" (Json (generateRequest st projectId));
                ToastSuccess "Project created! Audio conversion started.";
                NavigateTo ("/progress/" +:+ to_string projectId);
                SetLoading false ]).
Proof.
  intros Ht Hg Ha Hu Hne Hcr Hid.
  assert (opt_prop (uploadedFile st) "extracted_text" = JStr text) as Ho
    by (unfold opt_prop; now rewrite Hu).
  assert (truthy (JStr text) = true) as Htt.
  { simpl. apply negb_true_iff. now apply String.eqb_neq. }
  assert (truthy (uploadedFile st) = true) as Hf.
  { destruct (uploadedFile st); simpl in *; try discriminate; try reflexivity;
      injection Hu as Hu; discriminate. }
  assert (handleSubmit be st = submit_try be st) as ->.
  { unfold handleSubmit. rewrite Ht, Hg, Ha, Hf. simpl. reflexivity. }
  assert (forall x, js_or (JStr text) x = JStr text) as Hjs
    by (intros x; unfold js_or; now rewrite Htt).
  split; [unfold projectData; simpl; rewrite Ha, Ho; simpl; now rewrite !Hjs|].
  assert (truthy (isUploadedAudiobook st) = true) as Hi
    by (unfold isUploadedAudiobook; now rewrite Hg, Ho).
  split; [unfold generateRequest; simpl; now rewrite Hi|].
  split; [unfold generateRequest; simpl; now rewrite Hi, Ho|].
  unfold submit_try. rewrite Hcr, Hid, Ha. simpl. split.
  - destruct (be "/api/ai/generate-book" _) as [d|err];
      [reflexivity|now rewrite CreatorFacts.submit_catch_posts].
  - intros started Hs. rewrite Hs, Hi. reflexivity.
Qed.

Lemma audiobook_manuscript_replaces_prompt_witness :
  prop (projectData manuscript_audiobook) "content" = Some (JStr "Call me Ishmael.") /\
  prop (generateRequest manuscript_audiobook (JStr "p7")) "prompt" = Some (JStr "") /\
  prop (generateRequest manuscript_audiobook (JStr "p7")) "uploaded_content"
  = Some (JStr "Call me Ishmael.") /\
  posts (settled (handleSubmit accepting_backend manuscript_audiobook))
  = [ ("/api/projects", Json (projectData manuscript_audiobook));
      ("/api/ai/generate-book",
       Json (generateRequest manuscript_audiobook (JStr "p7"))) ] /\
  handleSubmit accepting_backend manuscript_audiobook
  = Normal [ SetLoading true;
             Post "/api/projects" (Json (projectData manuscript_audiobook));
             Post "/api/ai/generate-book"
               (Json (generateRequest manuscript_audiobook (JStr "p7")));
             ToastSuccess "Project created! Audio conversion started.";
             NavigateTo ("/progress/" +:+ to_string (JStr "p7"));
             SetLoading false ].
Proof.
  destruct (audiobook_manuscript_replaces_prompt accepting_backend
              manuscript_audiobook "Call me Ishmael."
              (JObj [("project_id", JStr "p7")]) (JStr "p7"))
    as (H1 & H2 & H3 & H4 & H5);
    try reflexivity; [discriminate|].
  split; [exact H1|]. split; [exact H2|]. split; [exact H3|].
  split; [exact H4|].
  exact (H5 (JObj [("status", JStr "started")]) eq_refl).
Defined.

(** *** The title an upload proposes *)

Lemma plain_tail_strips (ext : string) :
  ext <> "" ->
  forallb plain_char (String.list_ascii_of_string ext) = true ->
  strip_extension (String "." ext) = "".
Proof.
  intros Hne Hp. simpl.
  apply String.eqb_neq in Hne. rewrite Hne. simpl.
  unfold plain_char in Hp. now rewrite Hp.
Qed.

Lemma strip_extension_keeps (s : string) :
  forallb plain_char (String.list_ascii_of_string s) = true ->
  strip_extension s = s.
Proof.
  induction s as [|c s IH]; [reflexivity|]. simpl. intros H.
  apply andb_true_iff in H as [Hc Hs]. unfold plain_char in Hc.
  apply negb_true_iff, orb_false_iff in Hc as [Hc _]. rewrite Hc. simpl.
  now rewrite IH.
Qed.

Lemma strip_extension_last_dot (base ext : string) :
  ext <> "" ->
  forallb plain_char (String.list_ascii_of_string ext) = true ->
  strip_extension (base +:+ String "." ext) = base.
Proof.
  intros Hne Hp. induction base as [|c base IH].
  - rewrite JSFacts.append_nil_l. now apply plain_tail_strips.
  - rewrite JSFacts.append_cons. cbn [strip_extension].
    rewrite IH.
    assert (forallb (fun d => negb (Nat.eqb (nat_of_ascii d) 46
                                    || Nat.eqb (nat_of_ascii d) 47))
              (String.list_ascii_of_string (base +:+ String "." ext)) = false) as ->.
    { clear. induction base as [|d base IH].
      - rewrite JSFacts.append_nil_l. reflexivity.
      - rewrite JSFacts.append_cons. simpl. rewrite IH. apply andb_false_r. }
    rewrite andb_false_r. reflexivity.
Qed.

(** X11: what a successful upload does to the form. The extracted text
    becomes the content and the response becomes the uploaded file, the
    other fields stay; a title that was typed is kept, and an empty title
    is filled in from the file name: the name up to its last dot when a
    plain extension follows (earlier dots stay in), the whole name when it
    has no dot at all. Only the first accepted file is sent. *)
Theorem upload_fills_the_form
    (f : file) (others : list file) (be : backend) (st : state)
    (data text : jsval) :
  be "/api/files/upload" (Multipart f) = Resolved data ->
  prop data "extracted_text" = Some text ->
  exists st',
    onDrop (f :: others) be st
    = Normal (st', [ SetLoading true; Post "/api/files/upload" (Multipart f);
                     ToastSuccess "File uploaded and processed successfully!";
                     SetLoading false ]) /\
    content (formData st') = text /\ uploadedFile st' = data /\
    loading st' = false /\ activeTab st' = activeTab st /\
    genre (formData st') = genre (formData st) /\
    prompt (formData st') = prompt (formData st) /\
    (title (formData st) <> "" -> title (formData st') = title (formData st)) /\
    (title (formData st) = "" ->
       (forall base ext,
          file_name f = base +:+ String "." ext -> ext <> "" ->
          forallb plain_char (String.list_ascii_of_string ext) = true ->
          title (formData st') = base) /\
       (forallb plain_char (String.list_ascii_of_string (file_name f)) = true ->
          title (formData st') = file_name f)).
Proof.
  intros Hbe Hp. unfold onDrop. rewrite Hbe, Hp.
  eexists. split; [reflexivity|]. simpl.
  repeat split; auto.
  - intros Hne. apply String.eqb_neq in Hne. now rewrite Hne.
  - intros base ext Hn Hext Hplain. rewrite H. simpl. rewrite Hn.
    now apply strip_extension_last_dot.
  - intros Hplain. rewrite H. simpl. now apply strip_extension_keeps.
Qed.

Lemma upload_fills_the_form_witness :
  exists st',
    onDrop [dotted; manuscript] uploading_backend initial_state
    = Normal (st', [ SetLoading true; Post "/api/files/upload" (Multipart dotted);
                     ToastSuccess "File uploaded and processed successfully!";
                     SetLoading false ]) /\
    content (formData st') = JStr "Call me Ishmael." /\
    uploadedFile st' = upload_response /\
    title (formData st') = "my.first.draft".
Proof.
  destruct (upload_fills_the_form dotted [manuscript] uploading_backend
              initial_state upload_response (JStr "Call me Ishmael.")
              eq_refl eq_refl)
    as (st' & E & C & U & _ & _ & _ & _ & _ & T).
  exists st'. split; [exact E|]. split; [exact C|]. split; [exact U|].
  destruct (T eq_refl) as [Tb _].
  exact (Tb "my.first.draft" "txt" eq_refl ltac:(discriminate) eq_refl).
Defined.

End SubmissionFacts.

(** ** The editor's actions *)

Module EditorActionFacts.
Import JS EditorActions.

Lemma assoc_obj_set_eq k v fs : assoc k (obj_set k v fs) = Some v.
Proof.
  induction fs as [|[k' v'] fs IH]; simpl.
  - now rewrite String.eqb_refl.
  - destruct (String.eqb k k') eqn:E; simpl; rewrite E; auto.
Qed.

Lemma assoc_obj_set_ne k k' v fs :
  k <> k' -> assoc k (obj_set k' v fs) = assoc k fs.
Proof.
  intros Hne. induction fs as [|[k2 v2] fs IH]; simpl.
  - apply String.eqb_neq in Hne. now rewrite Hne.
  - destruct (String.eqb k' k2) eqn:E; simpl.
    + apply String.eqb_eq in E. subst k2.
      apply String.eqb_neq in Hne. now rewrite Hne.
    + now rewrite IH.
Qed.

(** X12: a successful save brings the editor's copy of the project in
    line with what was sent: one PUT to /api/projects/{projectId} carries
    the four cells, the copy then holds exactly these under title, author,
    description and content, and every other property of the project is
    as it was; the cells themselves are untouched. A failed save changes
    nothing and reports the failure. Either way the saving flag is set at
    the start and released at the end. *)
Theorem save_updates_the_local_copy
    (projectId : string) (r : Creator.reply) (st : Editor.state) :
  exists notice,
    snd (handleSave projectId r st)
    = [ SetSaving true;
        Put ("/api/projects/" +:+ projectId)
            (JObj [ ("title", Editor.title st); ("author", Editor.author st);
                    ("description", Editor.description st);
                    ("content", Editor.content st) ]);
        notice; SetSaving false ] /\
    match r with
    | Creator.Resolved _ =>
        notice = ToastSuccess "Project saved successfully!" /\
        prop (Editor.project (fst (handleSave projectId r st))) "title"
        = Some (Editor.title st) /\
        prop (Editor.project (fst (handleSave projectId r st))) "author"
        = Some (Editor.author st) /\
        prop (Editor.project (fst (handleSave projectId r st))) "description"
        = Some (Editor.description st) /\
        prop (Editor.project (fst (handleSave projectId r st))) "content"
        = Some (Editor.content st) /\
        (forall k, ~ In k ["title"; "author"; "description"; "content"] ->
           assoc k (own_props (Editor.project (fst (handleSave projectId r st))))
           = assoc k (own_props (Editor.project st))) /\
        with_project (Editor.project st) (fst (handleSave projectId r st)) = st
    | Creator.Rejected _ =>
        notice = ToastError (JStr "Failed to save project") /\
        fst (handleSave projectId r st) = st
    end.
Proof.
  destruct r as [data|err]; simpl.
  - eexists. split; [reflexivity|]. split; [reflexivity|].
    set (fs := own_props (Editor.project st)).
    split; [|split; [|split; [|split; [|split]]]].
    + rewrite !assoc_obj_set_ne by discriminate.
      now rewrite assoc_obj_set_eq.
    + rewrite !assoc_obj_set_ne by discriminate.
      now rewrite assoc_obj_set_eq.
    + rewrite !assoc_obj_set_ne by discriminate.
      now rewrite assoc_obj_set_eq.
    + now rewrite assoc_obj_set_eq.
    + intros k Hk. simpl in Hk.
      rewrite !assoc_obj_set_ne; [reflexivity|intros ->; tauto..].
    + destruct st; reflexivity.
  - eexists. split; [reflexivity|]. split; reflexivity.
Qed.

(** X13: saving writes the edited text under content and leaves
    generated_content alone, while loading reads generated_content first.
    So when the project has generated text, the editor opened on the
    project as it stands after a successful save shows the generated text
    again, not the edit that was saved. *)
Theorem saved_edit_is_hidden_by_generated_content
    (projectId : string) (data g : jsval) (st : Editor.state) :
  prop (Editor.project st) "generated_content" = Some g ->
  truthy g = true ->
  prop (Editor.project (fst (handleSave projectId (Creator.Resolved data) st)))
       "content" = Some (Editor.content st) /\
  prop (Editor.project (fst (handleSave projectId (Creator.Resolved data) st)))
       "generated_content" = Some g /\
  Editor.content
    (fst (Editor.fetchProject projectId
            (Editor.Resolved
               (Editor.project (fst (handleSave projectId (Creator.Resolved data) st))))
            Editor.initial_state)) = g.
Proof.
  intros Hg Ht.
  assert (assoc "generated_content" (own_props (Editor.project st)) = Some g) as Ha.
  { destruct (Editor.project st) as [| | | | | |fs]; simpl in Hg; try discriminate;
      try (injection Hg as <-; discriminate).
    simpl. destruct (assoc "generated_content" fs); simpl in Hg;
      injection Hg as <-; [reflexivity|discriminate]. }
  assert (prop (Editor.project (fst (handleSave projectId (Creator.Resolved data) st)))
            "generated_content" = Some g) as Hg'.
  { simpl. rewrite !assoc_obj_set_ne by discriminate. now rewrite Ha. }
  split; [simpl; now rewrite assoc_obj_set_eq|].
  split; [exact Hg'|].
  unfold Editor.fetchProject. rewrite Hg'. simpl.
  unfold js_or. rewrite Ht. simpl. now rewrite Ht.
Qed.

Lemma saved_edit_is_hidden_by_generated_content_witness :
  prop (Editor.project (fst (handleSave "p7" (Creator.Resolved JNull) edited)))
       "content" = Some (JStr "Chapter 1, revised") /\
  prop (Editor.project (fst (handleSave "p7" (Creator.Resolved JNull) edited)))
       "generated_content" = Some (JStr "Chapter 1") /\
  Editor.content
    (fst (Editor.fetchProject "p7"
            (Editor.Resolved
               (Editor.project (fst (handleSave "p7" (Creator.Resolved JNull) edited))))
            Editor.initial_state)) = JStr "Chapter 1".
Proof.
  apply (saved_edit_is_hidden_by_generated_content
           "p7" JNull (JStr "Chapter 1") edited); reflexivity.
Defined.

(** Closes the cases in which the handler leaves the project alone. *)
Ltac quiet :=
  solve [ repeat split; auto; try lia;
          try (intros; discriminate);
          try (intros; congruence);
          try (let t := fresh in let H := fresh in
               intros t H; injection H as <-; congruence) ].

(** X14: generating a cover touches nothing but the cover. Whatever the
    service answers, the cells and every property of the project other
    than cover_image_url are as before, and at most one request is sent,
    none when the title is blank or there is no project. The project
    changes only when the service reports success, and then
    cover_image_url is the image_url of the reply; a reply that does not
    report success leaves the project alone. *)
Theorem cover_touches_only_the_cover (r : Creator.reply) (st : Editor.state) :
  (forall k, k <> "cover_image_url" ->
     assoc k (own_props (Editor.project (fst (settled (handleGenerateCover r st)))))
     = assoc k (own_props (Editor.project st))) /\
  with_project (Editor.project st) (fst (settled (handleGenerateCover r st))) = st /\
  (List.length (requests (snd (settled (handleGenerateCover r st)))) <= 1)%nat /\
  (prop (Editor.project st) "settings" = None ->
     requests (snd (settled (handleGenerateCover r st))) = []) /\
  (forall text, Editor.title st = JStr text -> blank text = true ->
     requests (snd (settled (handleGenerateCover r st))) = []) /\
  (Editor.project (fst (settled (handleGenerateCover r st))) <> Editor.project st ->
     exists data,
       r = Creator.Resolved data /\ truthy (opt_prop data "success") = true /\
       prop (Editor.project (fst (settled (handleGenerateCover r st))))
            "cover_image_url" = Some (opt_prop data "image_url")) /\
  (forall data, r = Creator.Resolved data ->
     truthy (opt_prop data "success") = false ->
     fst (settled (handleGenerateCover r st)) = st).
Proof.
  assert (with_project (Editor.project st) st = st) as Hst by (now destruct st).
  unfold handleGenerateCover, cover_request.
  destruct (Editor.title st) as [| | | |text| |]; try (simpl; quiet).
  destruct (blank text) eqn:Hb; [simpl; quiet|].
  destruct (prop (Editor.project st) "settings") as [settings|] eqn:Hs;
    [|simpl; quiet].
  destruct r as [data|err]; [|simpl; quiet].
  unfold opt_prop.
  destruct (prop data "success") as [success|] eqn:Hd; [|simpl; quiet].
  destruct (truthy success) eqn:Ht; simpl.
  - split; [intros k Hk; now apply assoc_obj_set_ne|].
    split; [exact Hst|]. split; [lia|]. split; [discriminate|].
    split; [intros t Ht'; injection Ht' as <-; congruence|].
    split.
    + intros _. exists data. split; [reflexivity|]. rewrite Hd. simpl.
      split; [exact Ht|]. now rewrite assoc_obj_set_eq.
    + intros d Hr. injection Hr as <-. rewrite Hd. simpl. congruence.
  - quiet.
Qed.

(** X15: the audio request never carries the text. With any content that
    is not blank the handler sends one POST to
    /api/audio/generate-audiobook/{projectId} whose body is the fixed
    voice style and speed, so two editors that differ in their text, or
    in anything else, behave alike; it goes to /progress/{projectId} when
    the request succeeds and stays when it fails. With blank content it
    sends nothing and stays. *)
Theorem audio_request_ignores_the_text
    (projectId : string) (r : Creator.reply) (st : Editor.state) (text : string) :
  Editor.content st = JStr text ->
  (blank text = false ->
     requests (settled (handleGenerateAudio projectId r st))
     = [ ("/api/audio/generate-audiobook/" +:+ projectId,
          JObj [("voice_style", JStr "narrator"); ("speed", JNum 1)]) ] /\
     navigations (settled (handleGenerateAudio projectId r st))
     = match r with
       | Creator.Resolved _ => ["/progress/" +:+ projectId]
       | Creator.Rejected _ => []
       end /\
     forall st' text',
       Editor.content st' = JStr text' -> blank text' = false ->
       handleGenerateAudio projectId r st' = handleGenerateAudio projectId r st) /\
  (blank text = true ->
     requests (settled (handleGenerateAudio projectId r st)) = [] /\
     navigations (settled (handleGenerateAudio projectId r st)) = []).
Proof.
  intros Hc. unfold handleGenerateAudio. rewrite Hc. split; intros Hb; rewrite Hb.
  - split; [destruct r; reflexivity|]. split; [destruct r; reflexivity|].
    intros st' text' Hc' Hb'. now rewrite Hc', Hb'.
  - split; reflexivity.
Qed.

Lemma audio_request_ignores_the_text_witness :
  requests (settled (handleGenerateAudio "p7" (Creator.Resolved JNull) edited))
  = [ ("/api/audio/generate-audiobook/" +:+ "p7",
       JObj [("voice_style", JStr "narrator"); ("speed", JNum 1)]) ] /\
  navigations (settled (handleGenerateAudio "p7" (Creator.Resolved JNull) edited))
  = ["/progress/" +:+ "p7"].
Proof.
  destruct (audio_request_ignores_the_text "p7" (Creator.Resolved JNull) edited
              "Chapter 1, revised" eq_refl) as [H _].
  destruct (H eq_refl) as (Hr & Hn & _).
  split; [exact Hr|exact Hn].
Defined.

End EditorActionFacts.

(** ** The kids story preview *)

Module StoryFacts.
Import JS Story.

Lemma strip_prefix_inv (p s r : string) :
  strip_prefix p s = Some r -> s = p +:+ r.
Proof.
  revert s. induction p as [|a p IH]; intros s H; simpl in H.
  - now injection H as <-.
  - destruct s as [|b s]; [discriminate|].
    destruct (Ascii.eqb_spec a b) as [->|]; [|discriminate].
    rewrite JSFacts.append_cons. f_equal. now apply IH.
Qed.

(** *** White space among the bytes *)

Lemma one_byte_ws (c : ascii) : is_ws c = true -> (nat_of_ascii c <= 32)%nat.
Proof.
  unfold is_ws. rewrite orb_true_iff, andb_true_iff, !Nat.leb_le, Nat.eqb_eq. lia.
Qed.

Lemma low_is_not (n k : nat) : (n <= 32)%nat -> (32 < k)%nat -> Nat.eqb n k = false.
Proof. intros. apply Nat.eqb_neq. lia. Qed.

Lemma low_is_below (n k : nat) : (n <= 32)%nat -> (32 < k)%nat -> Nat.leb k n = false.
Proof. intros. apply Nat.leb_gt. lia. Qed.

Lemma ascii_is_not (n k : nat) : (n < 128)%nat -> (128 <= k)%nat -> Nat.eqb n k = false.
Proof. intros. apply Nat.eqb_neq. lia. Qed.

(** Closes a goal whose tests have all been settled but for those it can
    decide either way. *)
Ltac now_false :=
  rewrite ?andb_false_r, ?orb_false_r; simpl;
  repeat match goal with
         | |- context [Nat.eqb ?x ?y] => destruct (Nat.eqb x y); simpl
         | |- context [Nat.leb ?x ?y] => destruct (Nat.leb x y); simpl
         end;
  reflexivity.

(** No white-space character of two or three bytes has a byte from the
    white space of one byte in it. *)
Lemma ws2_second (a c : ascii) : is_ws c = true -> is_ws2 a c = false.
Proof.
  intros H. apply one_byte_ws in H. unfold is_ws2.
  rewrite (low_is_not _ 160 H) by lia. apply andb_false_r.
Qed.

Lemma ws3_second (a c d : ascii) : is_ws c = true -> is_ws3 a c d = false.
Proof.
  intros H. apply one_byte_ws in H. unfold is_ws3. cbv zeta.
  rewrite (low_is_not _ 154 H), (low_is_not _ 128 H), (low_is_not _ 129 H),
    (low_is_not _ 187 H) by lia.
  now_false.
Qed.

Lemma ws3_third (a b c : ascii) : is_ws c = true -> is_ws3 a b c = false.
Proof.
  intros H. apply one_byte_ws in H. unfold is_ws3. cbv zeta.
  rewrite (low_is_not _ 128 H), (low_is_not _ 159 H), (low_is_not _ 168 H),
    (low_is_not _ 169 H), (low_is_not _ 175 H), (low_is_not _ 191 H),
    (low_is_below _ 128 H) by lia.
  now_false.
Qed.

(** A byte below 128 that is no white space begins no white space. *)
Lemma plain_head (a : ascii) (r : string) :
  (nat_of_ascii a < 128)%nat -> is_ws a = false -> ws_here (String a r) = false.
Proof.
  intros Ha Hw. unfold ws_here, is_ws2, is_ws3. cbv zeta. rewrite Hw.
  rewrite (ascii_is_not _ 194 Ha), (ascii_is_not _ 225 Ha), (ascii_is_not _ 226 Ha),
    (ascii_is_not _ 227 Ha), (ascii_is_not _ 239 Ha) by lia.
  destruct r as [|b [|c r]]; reflexivity.
Qed.

Lemma no_space_plain (p r : string) :
  plain_ascii p = true -> no_space (p +:+ r) = no_space r.
Proof.
  induction p as [|a p IH]; [reflexivity|]. cbn [plain_ascii]. intros H.
  apply andb_true_iff in H as [H Hp]. apply andb_true_iff in H as [Ha Hw].
  apply Nat.ltb_lt in Ha. apply negb_true_iff in Hw.
  rewrite JSFacts.append_cons. cbn [no_space].
  rewrite (plain_head a _ Ha Hw). simpl. now apply IH.
Qed.

(** White space at the head of a text is still there when more follows. *)
Lemma ws_here_app (u v : string) : ws_here u = true -> ws_here (u +:+ v) = true.
Proof.
  destruct u as [|a [|b [|c u]]]; cbn [ws_here]; try discriminate.
  - rewrite orb_false_r. intros Ha. rewrite JSFacts.append_cons.
    cbn [ws_here]. now rewrite Ha.
  - rewrite orb_false_r. intros H. rewrite !JSFacts.append_cons.
    cbn [ws_here]. apply orb_true_iff in H as [H | H]; rewrite H;
      [reflexivity|]. now rewrite orb_true_r.
  - intros H. rewrite !JSFacts.append_cons. cbn [ws_here]. exact H.
Qed.

Lemma non_space_run_prefix (s : string) :
  exists rest, s = non_space_run s +:+ rest.
Proof.
  induction s as [|c s [rest IH]]; [now exists ""|].
  cbn [non_space_run]. destruct (ws_here (String c s)).
  - now exists (String c s).
  - exists rest. rewrite JSFacts.append_cons. now rewrite <- IH.
Qed.

Lemma no_space_run_ok (s : string) : no_space (non_space_run s) = true.
Proof.
  induction s as [|c s IH]; [reflexivity|]. cbn [non_space_run].
  destruct (ws_here (String c s)) eqn:E; [reflexivity|].
  cbn [no_space]. rewrite IH, andb_true_r. apply negb_true_iff.
  destruct (ws_here (String c (non_space_run s))) eqn:F; [|reflexivity].
  destruct (non_space_run_prefix s) as [rest Hr].
  apply (ws_here_app _ rest) in F. rewrite JSFacts.append_cons, <- Hr in F.
  congruence.
Qed.

(** Before a white space of one byte the text is read as it is alone. *)
Lemma ws_here_before (u rest : string) (c : ascii) :
  u <> "" -> is_ws c = true ->
  ws_here (u +:+ String c rest) = ws_here u.
Proof.
  intros Hu Hc. destruct u as [|a [|b [|d u]]]; [contradiction| | |reflexivity].
  - rewrite JSFacts.append_cons, JSFacts.append_nil_l. cbn [ws_here].
    rewrite (ws2_second a c Hc).
    destruct rest as [|e rest]; [reflexivity|].
    now rewrite (ws3_second a c e Hc).
  - rewrite !JSFacts.append_cons, JSFacts.append_nil_l. cbn [ws_here].
    now rewrite (ws3_third a b c Hc).
Qed.

Lemma non_space_run_stops (path rest : string) (c : ascii) :
  no_space path = true -> is_ws c = true ->
  non_space_run (path +:+ String c rest) = path.
Proof.
  intros Hp Hc. induction path as [|d path IH].
  - rewrite JSFacts.append_nil_l. simpl. now rewrite Hc.
  - cbn [no_space] in Hp. apply andb_true_iff in Hp as [Hd Hp].
    apply negb_true_iff in Hd.
    pose proof (ws_here_before (String d path) rest c ltac:(discriminate) Hc) as Hw.
    rewrite JSFacts.append_cons in *. cbn [non_space_run].
    rewrite Hw, Hd. now rewrite IH.
Qed.

Lemma scheme_here_shape (scheme s u : string) :
  scheme_here scheme s = Some u ->
  exists rest run,
    s = scheme +:+ rest /\ u = scheme +:+ run /\ no_space run = true.
Proof.
  unfold scheme_here. destruct (strip_prefix scheme s) as [rest|] eqn:E;
    [|discriminate].
  pose proof (no_space_run_ok rest) as Hr.
  destruct (non_space_run rest) as [|c run]; [discriminate|].
  intros H. injection H as <-. exists rest, (String c run).
  split; [now apply strip_prefix_inv|]. split; [reflexivity|exact Hr].
Qed.

Lemma url_here_shape (s u : string) :
  url_here s = Some u ->
  (starts_with "http://" u || starts_with "https://" u) = true /\
  no_space u = true /\ includes "://" s = true.
Proof.
  unfold url_here. destruct (scheme_here "https://" s) as [v|] eqn:E.
  - intros H. injection H as <-.
    destruct (scheme_here_shape _ _ _ E) as (rest & run & -> & -> & Hr).
    split; [reflexivity|]. split; [|reflexivity].
    now rewrite no_space_plain.
  - intros H.
    destruct (scheme_here_shape _ _ _ H) as (rest & run & -> & -> & Hr).
    split; [reflexivity|]. split; [|reflexivity].
    now rewrite no_space_plain.
Qed.

Lemma find_url_shape (s u : string) :
  find_url s = Some u ->
  (starts_with "http://" u || starts_with "https://" u) = true /\
  no_space u = true /\ includes "://" s = true.
Proof.
  induction s as [|c s IH]; cbn [find_url].
  - destruct (url_here "") eqn:E; discriminate.
  - destruct (url_here (String c s)) as [v|] eqn:E.
    + intros H. injection H as <-. now apply url_here_shape.
    + intros H. destruct (IH H) as (H1 & H2 & H3).
      split; [exact H1|]. split; [exact H2|].
      change (includes "://" (String c s))
        with (starts_with "://" (String c s) || includes "://" s).
      rewrite H3. apply orb_true_r.
Qed.

Lemma classify_image (line u c : string) :
  classify line = Some (Image u c) ->
  (starts_with "http://" u || starts_with "https://" u) = true /\
  no_space u = true.
Proof.
  unfold classify.
  destruct (starts_with pollinations line).
  - destruct (strip_prefix pollinations line) as [rest|]; [|discriminate].
    intros H. injection H as <- <-. split; [reflexivity|].
    rewrite no_space_plain by reflexivity. apply no_space_run_ok.
  - destruct (_ || _).
    + destruct (find_url line) as [url|] eqn:E; [|discriminate].
      intros H. injection H as <- <-.
      destruct (find_url_shape _ _ E) as (H1 & H2 & _). auto.
    + destruct (starts_with "# " line); [discriminate|].
      destruct (_ || _); [discriminate|].
      destruct (Nat.ltb _ _); discriminate.
Qed.

(** X16: every picture the preview shows has a source that is a URL:
    whatever the story text, each image part's content begins with
    http:// or https:// and holds no white space. *)
Theorem image_parts_are_urls (text u c : string) :
  In (Image u c) (parseStoryContent text) ->
  (starts_with "http://" u || starts_with "https://" u) = true /\
  no_space u = true.
Proof.
  unfold parseStoryContent. intros H. apply in_flat_map in H as (l & _ & H).
  destruct (classify (trim l)) as [p|] eqn:E; [|destruct H].
  destruct H as [->|[]]. eapply classify_image; eauto.
Qed.

Lemma image_parts_are_urls_witness :
  (starts_with "http://" "http://example.com/owl.png"
   || starts_with "https://" "http://example.com/owl.png") = true /\
  no_space "http://example.com/owl.png" = true.
Proof.
  apply (image_parts_are_urls two_pages "http://example.com/owl.png" "See  the owl").
  vm_compute. do 4 right. left. reflexivity.
Defined.





Lemma starts_with_includes (p s : string) :
  starts_with p s = true -> includes p s = true.
Proof. intros H. destruct s; simpl; now rewrite H. Qed.

Lemma pollinations_has_scheme (line : string) :
  starts_with pollinations line = true -> includes "://" line = true.
Proof.
  unfold starts_with. destruct (strip_prefix pollinations line) as [rest|] eqn:E;
    [|discriminate].
  intros _. apply strip_prefix_inv in E. subst line. reflexivity.
Qed.

(** X18: a line that mentions http and a picture format but holds no
    scheme separator is taken for an image line, finds no URL, and is
    dropped without a trace: a story made of such a line alone shows as
    still being processed, although it has text. *)
Theorem mention_without_url_is_dropped (text : string) :
  split_lines text = [text] ->
  includes "http" (trim text) = true ->
  (includes ".jpg" (trim text) || includes ".png" (trim text)
   || includes ".gif" (trim text)) = true ->
  includes "://" (trim text) = false ->
  parseStoryContent text = [] /\
  KidsStoryPreview (JStr text) = Some Processing.
Proof.
  intros Hl Hh He Hn.
  assert (classify (trim text) = None) as Hc.
  { unfold classify.
    destruct (starts_with pollinations (trim text)) eqn:Hp.
    { apply pollinations_has_scheme in Hp. congruence. }
    rewrite Hh, He. rewrite orb_true_r.
    destruct (find_url (trim text)) as [u|] eqn:Hu; [|reflexivity].
    destruct (find_url_shape _ _ Hu) as (_ & _ & H). congruence. }
  assert (parseStoryContent text = []) as Hp.
  { unfold parseStoryContent. rewrite Hl. simpl. now rewrite Hc. }
  split; [exact Hp|]. unfold KidsStoryPreview.
  assert (truthy (JStr text) = true) as ->.
  { destruct text; [discriminate Hh|reflexivity]. }
  simpl. now rewrite Hp.
Qed.

Lemma mention_without_url_is_dropped_witness :
  parseStoryContent "Photo credit: http, file sunset.jpg" = [] /\
  KidsStoryPreview (JStr "Photo credit: http, file sunset.jpg") = Some Processing.
Proof.
  apply (mention_without_url_is_dropped "Photo credit: http, file sunset.jpg");
    reflexivity.
Defined.

(** X19: on a line that begins with a pollinations URL, what follows the
    URL is lost. The image part carries the URL up to the first white
    space and an empty caption, whatever text stands behind it. *)
Theorem pollinations_line_loses_its_caption (text path rest : string) (c : ascii) :
  split_lines text = [text] ->
  trim text = (pollinations +:+ path) +:+ String c rest ->
  no_space path = true -> is_ws c = true ->
  parseStoryContent text = [Image (pollinations +:+ path) ""].
Proof.
  intros Hl Ht Hp Hc. unfold parseStoryContent. rewrite Hl. simpl.
  rewrite Ht, JSFacts.append_assoc. unfold classify, starts_with.
  rewrite JSFacts.strip_prefix_app.
  now rewrite (non_space_run_stops path rest c Hp Hc).
Qed.

Lemma pollinations_line_loses_its_caption_witness :
  parseStoryContent "https://image.pollinations.ai/owl?width=512 An owl at night"
  = [Image (pollinations +:+ "owl?width=512") ""].
Proof.
  apply (pollinations_line_loses_its_caption
           "https://image.pollinations.ai/owl?width=512 An owl at night"
           "owl?width=512" "An owl at night" " "); reflexivity.
Defined.

End StoryFacts.

(** ** The dashboard's statistics *)

Module DashboardFacts.
Import JS Dashboard.








End DashboardFacts.

(** ** Starting a checkout *)

Module StripeFacts.
Import JS Stripe.

Lemma js_or_default_truthy (a : jsval) (d : string) :
  d <> "" -> truthy (js_or a (JStr d)) = true.
Proof.
  intros Hd. unfold js_or. destruct (truthy a) eqn:E; [exact E|].
  simpl. apply negb_true_iff. now apply String.eqb_neq.
Qed.

Lemma checkout_catch_object (thrown : jsval) (fs : list (string * jsval)) (h : hook) :
  exists h',
    checkout_catch thrown (JObj fs) h = (h', Thrown (JObj fs)) /\
    truthy (error h') = true /\ loading h' = false /\
    stripeConfig h' = stripeConfig h.
Proof.
  unfold checkout_catch. simpl. eexists. split; [reflexivity|]. simpl.
  split; [now apply js_or_default_truthy|]. auto.
Qed.

(** A reply that does not report success: the request is all that
    happens, the call throws, and the error cell holds a message. *)
Lemma failed_checkout type_error planId successUrl cancelUrl r h :
  fails r = true -> errors_are_objects type_error r ->
  exists h' e,
    createCheckoutSession type_error planId successUrl cancelUrl r h
    = (h', [ Post "/api/stripe/create-checkout-session"
               (JObj [ ("plan_id", planId); ("success_url", successUrl);
                       ("cancel_url", cancelUrl) ]) ], Thrown e) /\
    truthy (error h') = true /\ loading h' = false /\
    stripeConfig h' = stripeConfig h.
Proof.
  intros Hf [[tfs ->] Hobj]. unfold createCheckoutSession.
  destruct r as [data|err].
  - simpl in Hf. unfold opt_prop in Hf.
    destruct (prop data "success") as [success|].
    + simpl in Hf. apply negb_true_iff in Hf. rewrite Hf.
      unfold new_Error.
      destruct (checkout_catch_object (JObj tfs)
                  [("message",
                    JStr (to_string (js_or (default JUndefined (prop data "error"))
                                           (JStr "Failed to create checkout session"))))]
                  (set_loading true h)) as (h' & E & Ht & Hl & Hc).
      unfold opt_prop. rewrite E. eauto 10.
    + destruct (checkout_catch_object (JObj tfs) tfs (set_loading true h))
        as (h' & E & Ht & Hl & Hc).
      rewrite E. eauto 10.
  - destruct Hobj as [fs ->].
    destruct (checkout_catch_object (JObj tfs) fs (set_loading true h))
      as (h' & E & Ht & Hl & Hc).
    rewrite E. eauto 10.
Qed.

(** X21: a checkout redirects only on a reported success. Whatever the
    reply, one POST to /api/stripe/create-checkout-session leaves and the
    loading flag is down at the end. A reply whose success field is
    truthy redirects the browser to its session_url and is returned, and
    an error left from an earlier attempt stays in the error cell. Any
    other reply redirects nowhere: the call throws and the error cell
    holds a message that is not empty. *)
Theorem checkout_redirects_only_on_success
    (type_error planId successUrl cancelUrl : jsval)
    (r : Creator.reply) (h : hook) :
  errors_are_objects type_error r ->
  exists h' es out,
    createCheckoutSession type_error planId successUrl cancelUrl r h
    = (h', Post "/api/stripe/create-checkout-session"
             (JObj [ ("plan_id", planId); ("success_url", successUrl);
                     ("cancel_url", cancelUrl) ]) :: es, out) /\
    loading h' = false /\ stripeConfig h' = stripeConfig h /\
    (fails r = false ->
       exists data,
         r = Creator.Resolved data /\ out = Returned data /\
         es = [Redirect (opt_prop data "session_url")] /\
         error h' = error h) /\
    (fails r = true ->
       es = [] /\ (exists e, out = Thrown e) /\ truthy (error h') = true).
Proof.
  intros Hobj. destruct (fails r) eqn:Hf.
  - destruct (failed_checkout type_error planId successUrl cancelUrl r h Hf Hobj)
      as (h' & e & E & Ht & Hl & Hc).
    exists h', [], (Thrown e). rewrite E.
    split; [reflexivity|]. split; [exact Hl|]. split; [exact Hc|].
    split; [discriminate|]. intros _. eauto.
  - destruct r as [data|err]; [|discriminate]. simpl in Hf.
    apply negb_false_iff in Hf. unfold opt_prop in Hf.
    unfold createCheckoutSession.
    destruct (prop data "success") as [success|]; [|discriminate].
    simpl in Hf. rewrite Hf.
    do 3 eexists. split; [reflexivity|]. simpl.
    split; [reflexivity|]. split; [reflexivity|].
    split; [|discriminate]. intros _. exists data. auto.
Qed.

Lemma checkout_redirects_only_on_success_witness :
  exists h' es out,
    createCheckoutSession engine_error (JStr "monthly")
      (JStr "https://app/payment/success") (JStr "https://app/pricing")
      (Creator.Rejected (declined "Card declined")) (stripe fresh_page)
    = (h', Post "/api/stripe/create-checkout-session"
             (JObj [ ("plan_id", JStr "monthly");
                     ("success_url", JStr "https://app/payment/success");
                     ("cancel_url", JStr "https://app/pricing") ]) :: es, out) /\
    loading h' = false /\ stripeConfig h' = stripeConfig (stripe fresh_page) /\
    es = [] /\ (exists e, out = Thrown e) /\ truthy (error h') = true.
Proof.
  destruct (checkout_redirects_only_on_success engine_error (JStr "monthly")
              (JStr "https://app/payment/success") (JStr "https://app/pricing")
              (Creator.Rejected (declined "Card declined")) (stripe fresh_page))
    as (h' & es & out & E & Hl & Hc & _ & Hfail).
  - split; [eexists; reflexivity|eexists; reflexivity].
  - exists h', es, out. split; [exact E|]. split; [exact Hl|].
    split; [exact Hc|]. exact (Hfail eq_refl).
Defined.

(** X22: the notice of a failed checkout is one attempt behind. The
    handler clears the hook's error and the hook sets the new one, but
    the notice names the error of the render the handler belongs to. So
    when two attempts fail in a row, the first shows what the error cell
    held before it (the general text when it was empty), and the second
    shows the message of the first failure, whatever the second failure
    was; neither redirects, and the processing mark is gone after
    each. *)
Theorem checkout_notice_is_one_attempt_behind
    (type_error : jsval) (origin : string) (onSelectPlan : bool)
    (user plan id : jsval) (r1 r2 : Creator.reply) (pg : page) :
  truthy user = true -> prop plan "id" = Some id ->
  fails r1 = true -> errors_are_objects type_error r1 ->
  fails r2 = true -> errors_are_objects type_error r2 ->
  exists pg1 pg2,
    handleSelectPlan type_error origin onSelectPlan user plan r1 pg
    = Normal (pg1, [ checkout_request id origin;
                     ToastError (js_or (error (stripe pg))
                                       (JStr "Failed to start checkout process")) ]) /\
    truthy (error (stripe pg1)) = true /\
    handleSelectPlan type_error origin onSelectPlan user plan r2 pg1
    = Normal (pg2, [ checkout_request id origin;
                     ToastError (error (stripe pg1)) ]) /\
    processingPlan pg1 = JNull /\ processingPlan pg2 = JNull /\
    selectedPlan pg2 = id.
Proof.
  intros Hu Hid Hf1 Ho1 Hf2 Ho2. unfold handleSelectPlan. rewrite Hu, Hid. simpl.
  destruct (failed_checkout type_error id (JStr (origin +:+ "/payment/success"))
              (JStr (origin +:+ "/pricing")) r1 (set_error JNull (stripe pg)) Hf1 Ho1)
    as (h1 & e1 & E1 & Ht1 & _ & _).
  destruct (failed_checkout type_error id (JStr (origin +:+ "/payment/success"))
              (JStr (origin +:+ "/pricing")) r2 (set_error JNull h1) Hf2 Ho2)
    as (h2 & e2 & E2 & _ & _ & _).
  rewrite E1. do 2 eexists. split; [reflexivity|]. simpl.
  split; [exact Ht1|].
  rewrite E2. unfold js_or. rewrite Ht1. split; [reflexivity|]. auto.
Qed.

Lemma checkout_notice_is_one_attempt_behind_witness :
  exists pg1 pg2,
    handleSelectPlan engine_error "https://app" false signed_in_user monthly_plan
      (Creator.Rejected (declined "Card declined")) fresh_page
    = Normal (pg1, [ checkout_request (JStr "monthly") "https://app";
                     ToastError (js_or (error (stripe fresh_page))
                                       (JStr "Failed to start checkout process")) ]) /\
    truthy (error (stripe pg1)) = true /\
    handleSelectPlan engine_error "https://app" false signed_in_user monthly_plan
      (Creator.Rejected (declined "Insufficient funds")) pg1
    = Normal (pg2, [ checkout_request (JStr "monthly") "https://app";
                     ToastError (error (stripe pg1)) ]) /\
    processingPlan pg1 = JNull /\ processingPlan pg2 = JNull /\
    selectedPlan pg2 = JStr "monthly".
Proof.
  apply (checkout_notice_is_one_attempt_behind engine_error "https://app" false
           signed_in_user monthly_plan (JStr "monthly")
           (Creator.Rejected (declined "Card declined"))
           (Creator.Rejected (declined "Insufficient funds")) fresh_page);
    try reflexivity;
    (split; [eexists; reflexivity|eexists; reflexivity]).
Defined.

End StripeFacts.

(** ** Verifying a payment *)

Module PaymentFacts.
Import JS Payment.





End PaymentFacts.

(** ** The sign-in dialog *)

Module AuthModalFacts.
Import JS AuthModal.

(** X24: what a submission of the sign-in dialog leaves behind. One POST
    goes out, to /api/auth/login with email and password only or to
    /api/auth/register with the full name as well, and the loading flag
    is raised before it and lowered at the end. A rejected request
    changes nothing in the browser. An accepted one with a token signs
    the user in, sets the Bearer header, closes the dialog and reports
    success. A reply without a body is reported as a failed
    authentication and the dialog stays open with the headers as they
    were, yet the session key has been written to localStorage. *)
Theorem sign_in_outcomes
    (isLogin : bool) (fd : form) (r : Creator.reply) (b : Session.browser) :
  exists notice,
    snd (handleSubmit isLogin fd r b)
    = [ SetLoading true;
        (if isLogin
         then Post "/api/auth/login"
                (JObj [("email", JStr (email fd)); ("password", JStr (password fd))])
         else Post "/api/auth/register"
                (JObj [("email", JStr (email fd)); ("password", JStr (password fd));
                       ("full_name", JStr (full_name fd))]));
        notice; SetLoading false ] /\
    (forall err, r = Creator.Rejected err ->
       fst (handleSubmit isLogin fd r b) = b /\
       notice = ToastError (js_or (Creator.error_detail err)
                                  (JStr "Authentication failed"))) /\
    (forall data token,
       r = Creator.Resolved data ->
       prop data "access_token" = Some token -> truthy token = true ->
       Session.user (fst (handleSubmit isLogin fd r b)) = data /\
       Session.request_headers (fst (handleSubmit isLogin fd r b)) !! "Authorization"
       = Some (Session.bearer token) /\
       Session.showAuth (fst (handleSubmit isLogin fd r b)) = false /\
       notice = ToastSuccess (if isLogin then "Successfully logged in!"
                              else "Account created successfully!")) /\
    (forall data,
       r = Creator.Resolved data -> prop data "access_token" = None ->
       notice = ToastError (JStr "Authentication failed") /\
       Session.showAuth (fst (handleSubmit isLogin fd r b)) = Session.showAuth b /\
       Session.request_headers (fst (handleSubmit isLogin fd r b))
       = Session.request_headers b /\
       Session.storage (fst (handleSubmit isLogin fd r b)) !! Session.session_key
       <> None).
Proof.
  unfold handleSubmit. destruct r as [data|err].
  - unfold Session.handleLogin.
    destruct (prop data "access_token") as [token|] eqn:Ht.
    + eexists. split; [reflexivity|].
      split; [discriminate|]. split; [|intros d Hd; injection Hd as <-; congruence].
      intros d tok Hd Htok Htruthy. injection Hd as <-.
      rewrite Ht in Htok. injection Htok as <-. simpl. rewrite Htruthy.
      split; [reflexivity|].
      split; [unfold Session.request_headers; simpl; apply lookup_insert_eq|].
      split; reflexivity.
    + eexists. split; [reflexivity|].
      split; [discriminate|]. split; [intros d tok Hd; injection Hd as <-; congruence|].
      intros d Hd _. injection Hd as <-. simpl.
      split; [reflexivity|]. split; [reflexivity|]. split; [reflexivity|].
      rewrite lookup_insert_eq. discriminate.
  - eexists. split; [reflexivity|].
    split; [|split; discriminate].
    intros e He. injection He as <-. split; reflexivity.
Qed.

End AuthModalFacts.

(** ** The colours of the genres *)

Module ProjectCardFacts.
Import JS ProjectCard.

(** X25: the dashboard colours a project's badge as the creator colours
    the genre's card for every genre the creator offers except audiobook,
    for which the dashboard has no case: it falls to the default grey,
    as does a project without a genre. *)
Theorem badge_colours_follow_the_creator (g : string) (info : Creator.genre_info) :
  In (g, info) Creator.genreConfig ->
  (g <> "audiobook" -> getGenreColor (JStr g) = Creator.color info) /\
  (g = "audiobook" ->
     getGenreColor (JStr g) = "bg-gray-500" /\
     Creator.color info = "bg-red-500" /\
     getGenreColor (JStr g) = getGenreColor JUndefined).
Proof.
  intros Hin. simpl in Hin.
  destruct Hin as [H|[H|[H|[H|[H|[]]]]]]; injection H as <- <-;
    (split; [intros Hne; try reflexivity; now contradiction Hne
            |intros He; try discriminate He; repeat split; reflexivity]).
Qed.

Lemma badge_colours_follow_the_creator_witness :
  (getGenreColor (JStr "kids_story") = "bg-green-500") /\
  (getGenreColor (JStr "audiobook") = "bg-gray-500").
Proof.
  split.
  - destruct (badge_colours_follow_the_creator "kids_story"
                {| Creator.name := "Kids Story"; Creator.color := "bg-green-500";
                   Creator.maxPages := 25; Creator.minPages := 1 |}) as [H _].
    + right. right. left. reflexivity.
    + apply H. discriminate.
  - destruct (badge_colours_follow_the_creator "audiobook"
                {| Creator.name := "Audiobook"; Creator.color := "bg-red-500";
                   Creator.maxPages := 200; Creator.minPages := 50 |}) as [_ H].
    + do 4 right. left. reflexivity.
    + destruct (H eq_refl) as [H1 _]. exact H1.
Defined.

End ProjectCardFacts.
